(** * Change-risk and coverage-gap heuristics of the claude-flow CLI

    A shallow embedding of
      - [v3/@claude-flow/cli/src/ruvector/diff-classifier.ts]
      - [v3/@claude-flow/cli/src/ruvector/coverage-router.ts]
    together with the properties their specification states about them.

    Modelling conventions.
      - A JavaScript string is the Rocq [string] of its code units, which are
        taken to be ASCII; [toLowerCase] and the [/i] flag then act on the
        letters A-Z only.
      - Integer-valued JavaScript numbers (line counts, risk scores) are [Z]
        or [nat], with exact arithmetic: they are taken to stay below 2^53,
        where the arithmetic of doubles on whole numbers is exact.
      - The other numbers (percentages, priorities, confidences) are doubles.
        A finite double is the rational it denotes, in [Q], and every sum,
        product and quotient of the source is the exact one rounded to the
        nearest double, ties to even ([JsNumber.round64], [fadd], [fmul],
        [fdiv]).  A decimal literal that enters such a computation is the
        double it denotes ([round64 0.2]); a literal that is only handed on
        (a confidence of [0.9]) is written as the source writes it.  A
        comparison compares the rationals.  [NaN], the infinities and the
        limit of the exponent at 2^1024 are not represented: where the source
        would compute with a value that has no image here (a [NaN] from
        [parseInt], a field that does not hold what its TypeScript declaration
        says, a count beyond 2^53) the embedding answers [OutOfModel].
      - What the source imports from the host ([fs], [path], [child_process],
        [JSON.parse], the regular-expression engine behind [String.match],
        [Number.toFixed]) is a field of a record of host functions, so every
        statement holds for every host. *)

From Stdlib Require Import ZArith QArith Qround Qpower Qreduction Lqa String Ascii List
  DecimalString.
From stdpp Require Import base strings list gmap sorting.

Local Open Scope string_scope.
Local Open Scope Z_scope.
Local Open Scope list_scope.

(** ** Results of effectful code *)

Inductive outcome (A : Type) : Type :=
| Ok (a : A)              (* normal completion *)
| Throw (msg : string)    (* an exception propagates *)
| OutOfModel.             (* the run leaves the embedding's number/string model *)
Arguments Ok {A} a.
Arguments Throw {A} msg.
Arguments OutOfModel {A}.

(** Sequencing is stdpp's monadic bind: [x ← m; k]. *)
#[global] Instance outcome_ret : MRet outcome := λ A a, Ok a.
#[global] Instance outcome_bind : MBind outcome := λ A B k m,
  match m with
  | Ok a => k a
  | Throw e => Throw e
  | OutOfModel => OutOfModel
  end.

(** [try { body } catch { handler }]: only a thrown exception is caught. *)
Definition try_catch {A} (body : outcome A) (handler : string -> outcome A) : outcome A :=
  match body with
  | Throw e => handler e
  | r => r
  end.

(** [for (const x of l) { s = body s x }] where the body may throw. *)
Fixpoint for_of {A S : Type} (l : list A) (s : S) (body : S -> A -> outcome S) : outcome S :=
  match l with
  | [] => Ok s
  | x :: l' => s' ← body s x; for_of l' s' body
  end.

(** ** JavaScript string primitives *)

Module JsString.

Definition is_upper (c : ascii) : bool :=
  let n := nat_of_ascii c in (Nat.leb 65 n && Nat.leb n 90)%bool.

Definition lower_char (c : ascii) : ascii :=
  if is_upper c then ascii_of_nat (nat_of_ascii c + 32) else c.

Fixpoint toLowerCase (s : string) : string :=
  match s with
  | EmptyString => EmptyString
  | String c r => String (lower_char c) (toLowerCase r)
  end.

Definition is_digit (c : ascii) : bool :=
  let n := nat_of_ascii c in (Nat.leb 48 n && Nat.leb n 57)%bool.

(** White space of [trim] and [parseInt] among the ASCII characters. *)
Definition is_space (c : ascii) : bool :=
  let n := nat_of_ascii c in ((Nat.leb 9 n && Nat.leb n 13) || Nat.eqb n 32)%bool.

Definition startsWith (s p : string) : bool := String.prefix p s.

(** The line feed and the tabulation, [\n] and [\t] in the source. *)
Definition LF : string := String "010"%char EmptyString.
Definition TAB : string := String "009"%char EmptyString.

(** [strip p s] is what follows [p] at the head of [s]. *)
Fixpoint strip (p s : string) : option string :=
  match p, s with
  | EmptyString, _ => Some s
  | String a p', String b s' => if Ascii.eqb a b then strip p' s' else None
  | String _ _, EmptyString => None
  end.

Fixpoint includes (s sub : string) : bool :=
  if String.prefix sub s then true
  else match s with
       | EmptyString => false
       | String _ r => includes r sub
       end.

(** [s.substring(n)] *)
Fixpoint substring_from (n : nat) (s : string) : string :=
  match n, s with
  | O, _ => s
  | S n', String _ r => substring_from n' r
  | S _, EmptyString => EmptyString
  end.

Fixpoint trimStart (s : string) : string :=
  match s with
  | String c r => if is_space c then trimStart r else s
  | EmptyString => EmptyString
  end.

(** Drops the white space at the end: a character is kept when it is not
    white space or when something kept follows it. *)
Fixpoint trimEnd (s : string) : string :=
  match s with
  | EmptyString => EmptyString
  | String c r =>
      match trimEnd r with
      | EmptyString => if is_space c then EmptyString else String c EmptyString
      | r' => String c r'
      end
  end.

Definition trim (s : string) : string := trimEnd (trimStart s).

(** [s.split(sep)] for a non-empty separator.  [skip] counts the code units
    of a separator that has just been recognised and is still to be passed;
    [cur] is the piece being read, in reverse. *)
Fixpoint split_go (sep : string) (s : string) (skip : nat) (cur : string) : list string :=
  match s with
  | EmptyString => [String.rev cur]
  | String c r =>
      match skip with
      | S k => split_go sep r k cur
      | O =>
          if String.prefix sep s
          then String.rev cur :: split_go sep r (String.length sep - 1) EmptyString
          else split_go sep r O (String c cur)
      end
  end.

Definition split (s sep : string) : list string := split_go sep s O EmptyString.

(** [parts.join(sep)] *)
Definition join (sep : string) (parts : list string) : string := String.concat sep parts.

(** [Boolean(s)] for a string: the empty string is the only falsy one. *)
Definition truthy (s : string) : bool := negb (String.eqb s "").

(** Decimal rendering of an integer, as template literals print it. *)
Definition of_Z (z : Z) : string := NilZero.string_of_int (Z.to_int z).
Definition of_nat (n : nat) : string := of_Z (Z.of_nat n).

(** Value of a run of decimal digits, most significant first. *)
Fixpoint digits_value (s : string) (acc : Z) : Z * string :=
  match s with
  | String c r =>
      if is_digit c
      then digits_value r (10 * acc + Z.of_nat (nat_of_ascii c - 48))
      else (acc, s)
  | EmptyString => (acc, s)
  end.

Definition starts_with_digit (s : string) : bool :=
  match s with String c _ => is_digit c | EmptyString => false end.

(** [parseInt(s, 10)]: leading white space, an optional sign, then the
    longest run of digits; [None] is [NaN]. *)
Definition parseInt (s : string) : option Z :=
  let t := trimStart s in
  let '(neg, body) :=
    match t with
    | String "-" r => (true, r)
    | String "+" r => (false, r)
    | _ => (false, t)
    end in
  if starts_with_digit body
  then let v := fst (digits_value body 0) in Some (if neg then - v else v)
  else None.

End JsString.

(** ** JavaScript numbers that are not integers

    The doubles, as the rationals they denote.  [round64 q] is the double
    nearest to [q]: [q] is scaled by the power of two that leaves 53
    significant bits before the point (or by 2^1074 when [q] is that small,
    the subnormal range), rounded to the nearest whole number with ties to
    even, and scaled back. *)

Module JsNumber.

(** To the nearest whole number, a half to the even one. *)
Definition rne (x : Q) : Z :=
  let f := Qfloor x in
  match (x - inject_Z f ?= 1 # 2)%Q with
  | Lt => f
  | Gt => f + 1
  | Eq => if Z.even f then f else f + 1
  end.

(** The exponent [e] with [2^e <= a < 2^(e+1)], for a positive [a]. *)
Definition ilog2 (a : Q) : Z :=
  let e := Z.log2 (Qnum a) - Z.log2 (Zpos (Qden a)) in
  if Qle_bool (2 ^ e) a then e else e - 1.

(** The exponent of the last of the 53 bits of a double near [a]. *)
Definition ulp_exponent (a : Q) : Z := Z.max (ilog2 a - 52) (-1074).

Definition round_pos (a : Q) : Q :=
  let u := ulp_exponent a in (inject_Z (rne (a / 2 ^ u)) * 2 ^ u)%Q.

(** The nearest double, and the same in lowest terms. *)
Definition rounded (q : Q) : Q :=
  match Qnum q with
  | Z0 => 0
  | Zpos _ => round_pos q
  | Zneg _ => - round_pos (- q)
  end%Q.

Definition round64 (q : Q) : Q := Qred (rounded q).

(** [a + b], [a * b] and [a / b] on doubles. *)
Definition fadd (a b : Q) : Q := round64 (a + b).
Definition fmul (a b : Q) : Q := round64 (a * b).
Definition fdiv (a b : Q) : Q := round64 (a / b).

Definition ltb (a b : Q) : bool := negb (Qle_bool b a).
Definition leb (a b : Q) : bool := Qle_bool a b.
Definition eqb (a b : Q) : bool := Qeq_bool a b.

Definition Math_min (a b : Q) : Q := if leb a b then a else b.
Definition Math_max (a b : Q) : Q := if leb a b then b else a.

Definition of_nat (n : nat) : Q := inject_Z (Z.of_nat n).

End JsNumber.

(** ** The regular expressions of the source

    Only the constructs the patterns of [diff-classifier.ts] use: literals,
    [\d], [?], concatenation, [|] and [$] (no [m] flag, so the end of the
    input).  [matches] is a backtracking matcher in continuation style;
    [test] is [RegExp.prototype.test] of a pattern without the [g] flag. *)

Module Regex.

Inductive re : Type :=
| Lit (s : string)
| Digit
| Opt (r : re)
| Cat (r1 r2 : re)
| Alt (r1 r2 : re)
| Eos.

Fixpoint matches (r : re) (s : string) (k : string -> bool) : bool :=
  match r with
  | Lit l => match JsString.strip l s with Some rest => k rest | None => false end
  | Digit => match s with
             | String c rest => (JsString.is_digit c && k rest)%bool
             | EmptyString => false
             end
  | Opt r1 => (matches r1 s k || k s)%bool
  | Cat r1 r2 => matches r1 s (fun rest => matches r2 rest k)
  | Alt r1 r2 => (matches r1 s k || matches r2 s k)%bool
  | Eos => match s with EmptyString => k s | String _ _ => false end
  end.

Fixpoint test (r : re) (s : string) : bool :=
  if matches r s (fun _ => true) then true
  else match s with
       | EmptyString => false
       | String _ rest => test r rest
       end.

(** A pattern with the [i] flag whose literals are written in lower case. *)
Definition test_i (r : re) (s : string) : bool := test r (JsString.toLowerCase s).

(** [a|b|c] *)
Fixpoint alts (l : list re) : re :=
  match l with
  | [] => Lit "" (* not used: every pattern of the source has a branch *)
  | [r] => r
  | r :: l' => Alt r (alts l')
  end.

Definition lits (l : list string) : re := alts (map Lit l).

End Regex.

(** ** diff-classifier.ts *)

Module Diff.
Import JsString Regex.

Inductive Status : Type := added | modified | deleted | renamed.

(** ['low-risk' | 'medium-risk' | 'high-risk' | 'critical'] *)
Inductive RiskLevel : Type := low_risk | medium_risk | high_risk | critical.

Module DiffFile.
Record t : Type := mk {
  path : string;
  status : Status;
  additions : Z;
  deletions : Z;
  hunks : Z;
  binary : bool;
  oldPath : option string
}.
End DiffFile.

Module FileRisk.
Record t : Type := mk {
  path : string;
  risk : RiskLevel;
  score : Z;
  reasons : list string
}.
End FileRisk.

Module DiffClassification.
Record t : Type := mk {
  category : string;
  subcategory : option string;
  confidence : Q;
  reasoning : string
}.
End DiffClassification.

Definition HIGH_RISK_PATTERNS : list (re * string) :=
  [ (lits ["auth"; "authentication"; "login"; "password"; "secret"; "token"; "key"; "credential"],
     "Security-sensitive code");
    (lits ["payment"; "billing"; "checkout"; "stripe"; "paypal"; "transaction"],
     "Payment processing code");
    (lits ["database"; "migration"; "schema"; "sql"; "query"], "Database changes");
    (lits ["security"; "permission"; "access"; "rbac"; "acl"], "Security/permission changes");
    (lits ["config"; ".env"; "environment"], "Configuration changes");
    (alts [Cat (Lit "api/v") Digit; Lit "breaking"; Lit "deprecat"],
     "Potential API breaking changes");
    (lits ["crypto"; "encrypt"; "decrypt"; "hash"], "Cryptography code") ].

Definition MEDIUM_RISK_PATTERNS : list (re * string) :=
  [ (lits ["core"; "base"; "foundation"; "lib/"], "Core library changes");
    (lits ["interface"; "type"; "contract"], "Interface/contract changes");
    (lits ["package.json"; "yarn.lock"; "package-lock"], "Dependency changes");
    (lits ["ci"; "cd"; "workflow"; "pipeline"; ".github"], "CI/CD changes");
    (lits ["docker"; "kubernetes"; "k8s"; "helm"], "Infrastructure changes") ].

Definition SAFE_PATTERNS : list (re * string) :=
  [ (alts [Cat (Lit ".md") Eos; Lit "readme"; Lit "docs/"], "Documentation");
    (lits [".test."; ".spec."; "__tests__"], "Test files");
    (alts [Cat (Lit ".snap") Eos; Lit "snapshot"], "Snapshot files");
    (alts [Cat (Lit ".css") Eos; Cat (Lit ".scss") Eos; Cat (Lit ".less") Eos; Lit ".styl"],
     "Style files");
    (alts [Cat (Lit "comment") (Opt (Lit "s")); Lit "todo"; Lit "fixme"], "Comment changes") ].

(** *** Risk of one file *)

Definition assessFileRisk (file : DiffFile.t) : FileRisk.t :=
  (* Base score from change size *)
  let totalChanges := DiffFile.additions file + DiffFile.deletions file in
  let '(score, reasons) :=
    if 500 <? totalChanges
    then (30, ["Large change (" +:+ of_Z totalChanges +:+ " lines)"])
    else if 200 <? totalChanges
    then (20, ["Significant change (" +:+ of_Z totalChanges +:+ " lines)"])
    else if 50 <? totalChanges
    then (10, [])
    else (0, []) in
  (* Check high-risk patterns *)
  let '(score, reasons) :=
    fold_left (fun '(score, reasons) '(pattern, reason) =>
                 if test_i pattern (DiffFile.path file)
                 then (score + 25, reasons ++ [reason])
                 else (score, reasons))
              HIGH_RISK_PATTERNS (score, reasons) in
  (* Check medium-risk patterns *)
  let '(score, reasons) :=
    fold_left (fun '(score, reasons) '(pattern, reason) =>
                 if test_i pattern (DiffFile.path file)
                 then (score + 15, reasons ++ [reason])
                 else (score, reasons))
              MEDIUM_RISK_PATTERNS (score, reasons) in
  (* Reduce score for safe patterns *)
  let '(score, reasons) :=
    fold_left (fun '(score, reasons) '(pattern, reason) =>
                 if test_i pattern (DiffFile.path file)
                 then (Z.max 0 (score - 20), reasons ++ [reason +:+ " (lower risk)"])
                 else (score, reasons))
              SAFE_PATTERNS (score, reasons) in
  (* Deleted files are higher risk *)
  let '(score, reasons) :=
    match DiffFile.status file with
    | deleted => (score + 15, reasons ++ ["File deletion"])
    | _ => (score, reasons)
    end in
  (* Binary files need careful review *)
  let '(score, reasons) :=
    if DiffFile.binary file
    then (score + 10, reasons ++ ["Binary file"])
    else (score, reasons) in
  (* Cap score at 100 *)
  let score := Z.min 100 score in
  (* Determine risk level *)
  let risk :=
    if 70 <=? score then critical
    else if 50 <=? score then high_risk
    else if 25 <=? score then medium_risk
    else low_risk in
  FileRisk.mk (DiffFile.path file) risk score reasons.

(** *** Classification *)

(** The object literal [categories]; the fields are in the order of the
    literal, which is the order [Object.entries] reports them in. *)
Record Categories : Type := mkCategories {
  feature : nat;
  bugfix : nat;
  refactor : nat;
  test : nat;
  docs : nat;
  config : nat;
  style : nat;
  infra : nat;
  security : nat
}.

Definition no_categories : Categories := mkCategories 0 0 0 0 0 0 0 0 0.

(** [Object.entries(categories)] *)
Definition entries (c : Categories) : list (string * nat) :=
  [ ("feature", feature c); ("bugfix", bugfix c); ("refactor", refactor c);
    ("test", test c); ("docs", docs c); ("config", config c);
    ("style", style c); ("infra", infra c); ("security", security c) ].

(** One turn of the loop over the files: exactly one counter moves. *)
Definition countFile (c : Categories) (file : DiffFile.t) : Categories :=
  let path := toLowerCase (DiffFile.path file) in
  if Regex.test (lits [".test."; ".spec."; "__tests__"]) path
  then mkCategories (feature c) (bugfix c) (refactor c) (S (test c)) (docs c)
                    (config c) (style c) (infra c) (security c)
  else if Regex.test (alts [Cat (Lit ".md") Eos; Lit "readme"; Lit "docs/"]) path
  then mkCategories (feature c) (bugfix c) (refactor c) (test c) (S (docs c))
                    (config c) (style c) (infra c) (security c)
  else if Regex.test (alts [Cat (Lit ".css") Eos; Cat (Lit ".scss") Eos;
                            Cat (Lit ".less") Eos; Lit ".styl"]) path
  then mkCategories (feature c) (bugfix c) (refactor c) (test c) (docs c)
                    (config c) (S (style c)) (infra c) (security c)
  else if Regex.test (alts [Lit "config"; Lit ".env"; Lit ".yaml"; Lit ".yml";
                            Cat (Lit ".json") Eos]) path
  then mkCategories (feature c) (bugfix c) (refactor c) (test c) (docs c)
                    (S (config c)) (style c) (infra c) (security c)
  else if Regex.test (lits ["docker"; "kubernetes"; "k8s"; "helm"; "ci"; "cd"; "workflow"]) path
  then mkCategories (feature c) (bugfix c) (refactor c) (test c) (docs c)
                    (config c) (style c) (S (infra c)) (security c)
  else if Regex.test (lits ["auth"; "security"; "permission"; "crypto"]) path
  then mkCategories (feature c) (bugfix c) (refactor c) (test c) (docs c)
                    (config c) (style c) (infra c) (S (security c))
  else if DiffFile.additions file * 2 <? DiffFile.deletions file
  then mkCategories (feature c) (bugfix c) (S (refactor c)) (test c) (docs c)
                    (config c) (style c) (infra c) (security c)
  else match DiffFile.status file with
       | added =>
           mkCategories (S (feature c)) (bugfix c) (refactor c) (test c) (docs c)
                        (config c) (style c) (infra c) (security c)
       | _ =>
           mkCategories (feature c) (S (bugfix c)) (refactor c) (test c) (docs c)
                        (config c) (style c) (infra c) (security c)
       end.

Definition countCategories (files : list DiffFile.t) : Categories :=
  fold_left countFile files no_categories.

(** The scan for the dominant category: the pair is [(maxCount, category)]. *)
Definition dominantStep (acc : nat * string) (entry : string * nat) : nat * string :=
  let '(maxCount, category) := acc in
  let '(cat, count) := entry in
  if (maxCount <? count)%nat then (count, cat) else (maxCount, category).

Definition dominant (c : Categories) : nat * string :=
  fold_left dominantStep (entries c) (0%nat, "feature").

Definition getSubcategory (category : string) (files : list DiffFile.t) : option string :=
  let paths := JsString.join " " (map (fun f => toLowerCase (DiffFile.path f)) files) in
  if String.eqb category "feature" then
    if Regex.test (Lit "api") paths then Some "api"
    else if Regex.test (lits ["ui"; "component"; "page"]) paths then Some "frontend"
    else if Regex.test (lits ["model"; "database"]) paths then Some "backend"
    else None
  else if String.eqb category "bugfix" then
    if Regex.test (lits ["security"; "auth"]) paths then Some "security-fix"
    else if Regex.test (lits ["performance"; "perf"]) paths then Some "performance-fix"
    else None
  else if String.eqb category "infra" then
    if Regex.test (Lit "docker") paths then Some "containerization"
    else if Regex.test (lits ["ci"; "cd"; "workflow"]) paths then Some "ci-cd"
    else if Regex.test (lits ["kubernetes"; "k8s"]) paths then Some "kubernetes"
    else None
  else None.

Definition is_status (s : Status) (f : DiffFile.t) : bool :=
  match s, DiffFile.status f with
  | added, added | modified, modified | deleted, deleted | renamed, renamed => true
  | _, _ => false
  end.

Definition generateClassificationReasoning
    (category : string) (files : list DiffFile.t) (categories : Categories) : string :=
  let total := length files in
  let parts := [of_nat total +:+ " file(s) changed."] in
  let parts := if (0 <? test categories)%nat
               then parts ++ [of_nat (test categories) +:+ " test file(s)."] else parts in
  let parts := if (0 <? docs categories)%nat
               then parts ++ [of_nat (docs categories) +:+ " documentation file(s)."] else parts in
  let addedCount := length (filter (fun f => is_status added f = true) files) in
  let deletedCount := length (filter (fun f => is_status deleted f = true) files) in
  let parts := if (0 <? addedCount)%nat
               then parts ++ [of_nat addedCount +:+ " new file(s) added."] else parts in
  let parts := if (0 <? deletedCount)%nat
               then parts ++ [of_nat deletedCount +:+ " file(s) deleted."] else parts in
  let parts := parts ++ ["Classified as " +:+ category +:+ " based on change patterns."] in
  JsString.join " " parts.

Definition classifyDiff (files : list DiffFile.t) : DiffClassification.t :=
  (* Count by category *)
  let categories := countCategories files in
  (* Find dominant category *)
  let '(maxCount, category) := dominant categories in
  (* Calculate confidence *)
  let total := fold_left Nat.add (map snd (entries categories)) 0%nat in
  let confidence :=
    if (0 <? total)%nat
    then JsNumber.Math_min (JsNumber.round64 0.95)
           (JsNumber.fadd (JsNumber.fdiv (JsNumber.of_nat maxCount) (JsNumber.of_nat total))
              (JsNumber.round64 0.2))
    else 0.5%Q in
  (* Generate reasoning *)
  let reasoning := generateClassificationReasoning category files categories in
  DiffClassification.mk category (getSubcategory category files) confidence reasoning.

(** *** The version-control adapter *)

(** [child_process.execSync] with [encoding: 'utf-8'], from a command line
    and a working directory to the standard output or to the message of the
    error it throws; and [process.cwd()]. *)
Record Shell : Type := mkShell {
  execSync : string -> string -> string + string;
  process_cwd : string
}.

Definition exec (sh : Shell) (command cwd : string) : outcome string :=
  match execSync sh command cwd with
  | inl stdout => Ok stdout
  | inr message => Throw message
  end.

(** [text.trim().split('\n').filter(Boolean)] *)
Definition nonEmptyLines (text : string) : list string :=
  filter (fun l => truthy l = true) (split (trim text) LF).

(** The [forEach] over the name-status lines. *)
Definition parseNameStatus (nameStatus : string) : gmap string string :=
  fold_left
    (fun (statusMap : gmap string string) line =>
       let parts := split line TAB in
       if (2 <=? length parts)%nat then
         let status := nth 0 parts "" in
         (* Handle renames *)
         let path := if (length parts =? 3)%nat then nth 2 parts "" else nth 1 parts "" in
         <[path := status]> statusMap
       else statusMap)
    (nonEmptyLines nameStatus) ∅.

(** [parts[i] === '-' ? 0 : parseInt(parts[i], 10)] *)
Definition countField (field : string) : outcome Z :=
  if String.eqb field "-" then Ok 0
  else match parseInt field with
       | Some n => Ok n
       | None => OutOfModel
       end.

Definition numstatLine (statusMap : gmap string string)
    (files : list DiffFile.t) (line : string) : outcome (list DiffFile.t) :=
  let parts := split line TAB in
  if (3 <=? length parts)%nat then
    additions ← countField (nth 0 parts "");
    deletions ← countField (nth 1 parts "");
    let path := nth 2 parts "" in
    let binary := (String.eqb (nth 0 parts "") "-" && String.eqb (nth 1 parts "") "-")%bool in
    (* statusMap.get(path) || 'M' *)
    let statusCode :=
      match statusMap !! path with
      | Some code => if truthy code then code else "M"
      | None => "M"
      end in
    let status :=
      if startsWith statusCode "A" then added
      else if startsWith statusCode "D" then deleted
      else if startsWith statusCode "R" then renamed
      else modified in
    Ok (files ++ [DiffFile.mk path status additions deletions 1 binary None])
  else Ok files.

(** [cwd || process.cwd()] *)
Definition workingDirectory (sh : Shell) (cwd : option string) : string :=
  match cwd with
  | Some dir => if truthy dir then dir else process_cwd sh
  | None => process_cwd sh
  end.

(** The default value of the parameter [ref]. *)
Definition refOrDefault (ref : option string) : string := default "HEAD~1" ref.

Definition getGitDiffNumstat (sh : Shell) (ref cwd : option string)
  : outcome (list DiffFile.t) :=
  let ref := refOrDefault ref in
  try_catch
    (numstat ← exec sh ("git diff --numstat " +:+ ref) (workingDirectory sh cwd);
     nameStatus ← exec sh ("git diff --name-status " +:+ ref) (workingDirectory sh cwd);
     let numstatLines := nonEmptyLines numstat in
     let statusMap := parseNameStatus nameStatus in
     for_of numstatLines [] (numstatLine statusMap))
    (fun message => Throw ("Failed to get git diff numstat: " +:+ message)).

End Diff.

(** ** coverage-router.ts *)

Module Coverage.
Import JsString JsNumber.

(** *** Values of the host and what the module imports from it *)

(** What [JSON.parse] returns.  An object is the list of its own properties
    in the order [Object.entries] reports them. *)
#[warnings="-register-all"] Inductive jsval : Type :=
| JUndefined
| JNull
| JBool (b : bool)
| JNum (q : Q)
| JStr (s : string)
| JArr (items : list jsval)
| JObj (props : list (string * jsval)).

Record Host : Type := mkHost {
  (** [fs.existsSync] *)
  existsSync : string -> bool;
  (** [fs.readFileSync(path, 'utf-8')]; [None] when it throws *)
  readFileSync : string -> option string;
  (** [path.join], [path.resolve], [path.basename], [path.extname] *)
  path_join : list string -> string;
  path_resolve : string -> string -> string;
  basename : string -> string;
  extname : string -> string;
  (** [process.cwd()] *)
  process_cwd : string;
  (** [JSON.parse]; [None] when it throws a [SyntaxError] *)
  JSON_parse : string -> option jsval;
  (** [Number(s)] for a string, with the numeric-literal grammar of the
      host; [None] is [NaN] *)
  Number : string -> option Q;
  (** [content.match(re)?.length ?? 0] for the two global patterns of
      [calculateComplexity]: control-flow keywords and declarations *)
  controlFlowKeywords : string -> nat;
  declarations : string -> nat;
  (** [x.toFixed(1)] *)
  toFixed1 : Q -> string
}.

(** *** Types *)

Module UncoveredBranch.
Record t : Type := mk {
  line : Q;
  type : string
}.
End UncoveredBranch.

Module CoverageData.
Record t : Type := mk {
  filePath : string;
  lineCoverage : Q;
  branchCoverage : Q;
  functionCoverage : Q;
  statementCoverage : Q;
  uncoveredLines : list Q;
  uncoveredBranches : list UncoveredBranch.t;
  uncoveredFunctions : list string;
  totalLines : Q;
  coveredLines : Q
}.
End CoverageData.

(** ['critical' | 'high' | 'medium' | 'low'] *)
Inductive GapType : Type := critical | high | medium | low.

Module CoverageGap.
Record t : Type := mk {
  filePath : string;
  coveragePercent : Q;
  gapType : GapType;
  complexity : nat;
  priority : Q;
  suggestedAgents : list string;
  uncoveredLines : list Q;
  reason : string
}.
End CoverageGap.

Module CoverageSummary.
Record t : Type := mk {
  totalFiles : nat;
  overallLineCoverage : Q;
  overallBranchCoverage : Q;
  overallFunctionCoverage : Q;
  overallStatementCoverage : Q;
  filesBelowThreshold : nat;
  coverageThreshold : Q
}.
End CoverageSummary.

(** ['lcov' | 'istanbul' | 'c8' | 'none'], and ['unknown'] for a report *)
Inductive Format : Type := lcov | istanbul | c8 | none | unknown.

Module Report.
Record t : Type := mk {
  type : Format;
  path : string
}.
End Report.

Module Loaded.
Record t : Type := mk {
  data : list CoverageData.t;
  format : Format;
  reportPath : option string
}.
End Loaded.

(** *** Array helpers *)

(** [Array.from(new Set(l))]: the first occurrence of each element stays. *)
Fixpoint dedupe {A : Type} (eqb : A -> A -> bool) (l : list A) : list A :=
  match l with
  | [] => []
  | x :: l' => x :: filter (fun y => eqb x y = false) (dedupe eqb l')
  end.

(** [l.sort(comparefn)] for a comparator that orders the elements
    consistently: the sort is stable, so the result is the one of the
    insertion sort that leaves [x] before [y] when [comparefn(x, y) <= 0]. *)
Fixpoint insertBy {A : Type} (comparefn : A -> A -> Q) (x : A) (l : list A) : list A :=
  match l with
  | [] => [x]
  | y :: l' =>
      if leb (comparefn x y) 0 then x :: y :: l' else y :: insertBy comparefn x l'
  end.

Definition sortBy {A : Type} (comparefn : A -> A -> Q) (l : list A) : list A :=
  fold_right (insertBy comparefn) [] l.

(** *** Finding the reports *)

Definition findCoverageReports (host : Host) (projectRoot : string) : list Report.t :=
  let coverageDir := path_join host [projectRoot; "coverage"] in
  (* Check for lcov.info *)
  let lcovPaths :=
    [ path_join host [projectRoot; "coverage"; "lcov.info"];
      path_join host [projectRoot; "lcov.info"];
      path_join host [projectRoot; "coverage"; "lcov-report"; "lcov.info"] ] in
  let reports :=
    fold_left (fun reports lcovPath =>
                 if existsSync host lcovPath
                 then reports ++ [Report.mk lcov lcovPath] else reports)
              lcovPaths [] in
  (* Check for istanbul/c8 coverage-summary.json *)
  let summaryPaths :=
    [ path_join host [coverageDir; "coverage-summary.json"];
      path_join host [coverageDir; "coverage-final.json"];
      path_join host [projectRoot; ".nyc_output"; "coverage-summary.json"] ] in
  fold_left (fun reports summaryPath =>
               if existsSync host summaryPath
               then
                 let type := if includes summaryPath ".nyc_output" then istanbul else c8 in
                 reports ++ [Report.mk type summaryPath]
               else reports)
            summaryPaths reports.

(** *** The LCOV parser *)

(** [found > 0 ? (hit / found) * 100 : 100].  The two counters are doubles
    that have counted up from 0 by 1: they hold the exact counts as long as
    these are below 2^53, which the number of the lines of a string always
    is; a larger count has no image here. *)
Definition percentage (hit found : nat) : outcome Q :=
  if (0 <? found)%nat
  then if (Z.of_nat found <? 2 ^ 53)%Z
       then Ok (fmul (fdiv (of_nat hit) (of_nat found)) 100)
       else OutOfModel
  else Ok 100%Q.

(** The six counters and the parts of [data] the loop over the lines of a
    record writes. *)
Record LcovState : Type := mkLcovState {
  linesFound : nat;
  linesHit : nat;
  branchesFound : nat;
  branchesHit : nat;
  functionsFound : nat;
  functionsHit : nat;
  lcovUncoveredLines : list Q;
  lcovUncoveredBranches : list UncoveredBranch.t;
  lcovUncoveredFunctions : list string;
  lcovTotalLines : Q;
  lcovCoveredLines : Q
}.

Definition lcovInit : LcovState := mkLcovState 0 0 0 0 0 0 [] [] [] 0%Q 0%Q.

(** [x > 0] for a number that may be [NaN] *)
Definition positive (x : option Q) : bool :=
  match x with
  | Some q => ltb 0 q
  | None => false
  end.

(** A number that is to be stored in [data]. *)
Definition stored {A : Type} (x : option A) : outcome A :=
  match x with
  | Some a => Ok a
  | None => OutOfModel
  end.

(** Line coverage: [DA:line_number,hit_count] *)
Definition lcovDA (host : Host) (st : LcovState) (line : string) : outcome LcovState :=
  let fields := map (Number host) (split (substring_from 3 line) ",") in
  let lineNum := nth 0 fields None in
  let hitCount := nth 1 fields None in
  if positive hitCount
  then Ok (mkLcovState (S (linesFound st)) (S (linesHit st))
             (branchesFound st) (branchesHit st) (functionsFound st) (functionsHit st)
             (lcovUncoveredLines st) (lcovUncoveredBranches st) (lcovUncoveredFunctions st)
             (lcovTotalLines st) (lcovCoveredLines st))
  else
    n ← stored lineNum;
    Ok (mkLcovState (S (linesFound st)) (linesHit st)
          (branchesFound st) (branchesHit st) (functionsFound st) (functionsHit st)
          (lcovUncoveredLines st ++ [n]) (lcovUncoveredBranches st)
          (lcovUncoveredFunctions st) (lcovTotalLines st) (lcovCoveredLines st)).

(** Branch coverage: [BRDA:line_number,block_number,branch_number,hit_count] *)
Definition lcovBRDA (st : LcovState) (line : string) : outcome LcovState :=
  let parts := split (substring_from 5 line) "," in
  let lineNum := parseInt (nth 0 parts "") in
  let hitCount :=
    match parts !! 3%nat with
    | Some p => if String.eqb p "-" then Some 0 else parseInt p
    | None => None (* parseInt(undefined, 10) *)
    end in
  if positive (inject_Z <$> hitCount)
  then Ok (mkLcovState (linesFound st) (linesHit st)
             (S (branchesFound st)) (S (branchesHit st)) (functionsFound st) (functionsHit st)
             (lcovUncoveredLines st) (lcovUncoveredBranches st) (lcovUncoveredFunctions st)
             (lcovTotalLines st) (lcovCoveredLines st))
  else
    n ← stored lineNum;
    Ok (mkLcovState (linesFound st) (linesHit st)
          (S (branchesFound st)) (branchesHit st) (functionsFound st) (functionsHit st)
          (lcovUncoveredLines st)
          (lcovUncoveredBranches st ++ [UncoveredBranch.mk (inject_Z n) "unknown"])
          (lcovUncoveredFunctions st) (lcovTotalLines st) (lcovCoveredLines st)).

(** Function coverage: [FNDA:hit_count,function_name] *)
Definition lcovFNDA (st : LcovState) (line : string) : outcome LcovState :=
  let parts := split (substring_from 5 line) "," in
  let hitCount := nth 0 parts "" in
  let funcName := parts !! 1%nat in
  if positive (inject_Z <$> parseInt hitCount)
  then Ok (mkLcovState (linesFound st) (linesHit st)
             (branchesFound st) (branchesHit st) (S (functionsFound st)) (S (functionsHit st))
             (lcovUncoveredLines st) (lcovUncoveredBranches st) (lcovUncoveredFunctions st)
             (lcovTotalLines st) (lcovCoveredLines st))
  else
    name ← stored funcName;
    Ok (mkLcovState (linesFound st) (linesHit st)
          (branchesFound st) (branchesHit st) (S (functionsFound st)) (functionsHit st)
          (lcovUncoveredLines st) (lcovUncoveredBranches st)
          (lcovUncoveredFunctions st ++ [name]) (lcovTotalLines st) (lcovCoveredLines st)).

(** Summary lines: [LF:] and [LH:] *)
Definition lcovLF (st : LcovState) (line : string) : outcome LcovState :=
  n ← stored (parseInt (substring_from 3 line));
  Ok (mkLcovState (linesFound st) (linesHit st)
        (branchesFound st) (branchesHit st) (functionsFound st) (functionsHit st)
        (lcovUncoveredLines st) (lcovUncoveredBranches st) (lcovUncoveredFunctions st)
        (inject_Z n) (lcovCoveredLines st)).

Definition lcovLH (st : LcovState) (line : string) : outcome LcovState :=
  n ← stored (parseInt (substring_from 3 line));
  Ok (mkLcovState (linesFound st) (linesHit st)
        (branchesFound st) (branchesHit st) (functionsFound st) (functionsHit st)
        (lcovUncoveredLines st) (lcovUncoveredBranches st) (lcovUncoveredFunctions st)
        (lcovTotalLines st) (inject_Z n)).

(** [if (line.startsWith(tag)) { ... }] *)
Definition whenTagged (tag line : string) (st : LcovState)
    (body : LcovState -> string -> outcome LcovState) : outcome LcovState :=
  if startsWith line tag then body st line else Ok st.

(** The body of the loop over the lines of one record. *)
Definition lcovLine (host : Host) (st : LcovState) (line : string) : outcome LcovState :=
  st ← whenTagged "DA:" line st (lcovDA host);
  st ← whenTagged "BRDA:" line st lcovBRDA;
  st ← whenTagged "FNDA:" line st lcovFNDA;
  st ← whenTagged "LF:" line st lcovLF;
  whenTagged "LH:" line st lcovLH.

(** [record.split('\n').map(l => l.trim()).filter(Boolean)] *)
Definition recordLines (record : string) : list string :=
  filter (fun l => truthy l = true) (map trim (split record LF)).

(** One turn of the loop over the records: [None] when the record is
    skipped by a [continue]. *)
Definition lcovRecord (host : Host) (record : string) : outcome (option CoverageData.t) :=
  if negb (truthy (trim record)) then Ok None
  else
    let lines := recordLines record in
    match find (fun l => startsWith l "SF:") lines with
    | None => Ok None
    | Some sfLine =>
        let filePath := substring_from 3 sfLine in
        st ← for_of lines lcovInit (lcovLine host);
        (* Calculate percentages *)
        lineCoverage ← percentage (linesHit st) (linesFound st);
        branchCoverage ← percentage (branchesHit st) (branchesFound st);
        functionCoverage ← percentage (functionsHit st) (functionsFound st);
        let statementCoverage := lineCoverage in
        Ok (Some (CoverageData.mk filePath lineCoverage branchCoverage functionCoverage
                    statementCoverage (lcovUncoveredLines st) (lcovUncoveredBranches st)
                    (lcovUncoveredFunctions st) (lcovTotalLines st) (lcovCoveredLines st)))
    end.

Definition parseLcov (host : Host) (lcovContent : string) : outcome (list CoverageData.t) :=
  let records := split lcovContent "end_of_record" in
  for_of records []
    (fun files record =>
       data ← lcovRecord host record;
       Ok (match data with
           | Some d => files ++ [d]
           | None => files
           end)).

(** *** The Istanbul/c8 parser *)

(** [Boolean(v)] *)
Definition truthy_v (v : jsval) : bool :=
  match v with
  | JUndefined | JNull => false
  | JBool b => b
  | JNum q => negb (eqb q 0)
  | JStr s => truthy s
  | JArr _ | JObj _ => true
  end.

(** [v === undefined || v === null], the test of [?.] and [??] *)
Definition nullish (v : jsval) : bool :=
  match v with
  | JUndefined | JNull => true
  | _ => false
  end.

Definition typeError {A : Type} : outcome A := Throw "TypeError".

Fixpoint assoc (key : string) (props : list (string * jsval)) : option jsval :=
  match props with
  | [] => None
  | (k, v) :: rest => if String.eqb k key then Some v else assoc key rest
  end.

(** [v.key] for the property names the source writes out ([path], [lines],
    [pct], [s], [statementMap], ...): none of them is inherited from a
    prototype, so only an object can have one. *)
Definition get (v : jsval) (key : string) : outcome jsval :=
  match v with
  | JUndefined | JNull => typeError
  | JObj props => Ok (default JUndefined (assoc key props))
  | _ => Ok JUndefined
  end.

(** The names every object inherits from [Object.prototype]. *)
Definition inheritedKeys : list string :=
  [ "constructor"; "hasOwnProperty"; "isPrototypeOf"; "propertyIsEnumerable";
    "toLocaleString"; "toString"; "valueOf"; "__proto__";
    "__defineGetter__"; "__defineSetter__"; "__lookupGetter__"; "__lookupSetter__" ].

(** [map[id]] where [map] is truthy and [id] is a key met in the report:
    an own property of an object, [undefined] when the object has none of
    that name.  Inherited members and maps that are not objects are left
    out of the embedding. *)
Definition lookup (map : jsval) (id : string) : outcome jsval :=
  match map with
  | JObj props =>
      match assoc id props with
      | Some v => Ok v
      | None => if existsb (String.eqb id) inheritedKeys then OutOfModel else Ok JUndefined
      end
  | _ => OutOfModel
  end.

Fixpoint chars (s : string) : list jsval :=
  match s with
  | EmptyString => []
  | String c r => JStr (String c EmptyString) :: chars r
  end.

Definition indexed (l : list jsval) : list (string * jsval) :=
  imap (fun i v => (JsString.of_nat i, v)) l.

(** [Object.entries(v)] *)
Definition entries (v : jsval) : outcome (list (string * jsval)) :=
  match v with
  | JUndefined | JNull => typeError
  | JBool _ | JNum _ => Ok []
  | JStr s => Ok (indexed (chars s))
  | JArr items => Ok (indexed items)
  | JObj props => Ok props
  end.

(** The values [for (const x of v)] visits. *)
Definition iterate (v : jsval) : outcome (list jsval) :=
  match v with
  | JArr items => Ok items
  | JStr s => Ok (chars s)
  | _ => typeError
  end.

(** [hitCount > 0]; a string or an object would first be converted. *)
Definition gtZero (v : jsval) : outcome bool :=
  match v with
  | JNum q => Ok (ltb 0 q)
  | JBool b => Ok b
  | JNull | JUndefined => Ok false
  | JStr _ | JArr _ | JObj _ => OutOfModel
  end.

(** A value stored in a field declared [number], or [string]. *)
Definition asNumber (v : jsval) : outcome Q :=
  match v with
  | JNum q => Ok q
  | _ => OutOfModel
  end.

Definition asString (v : jsval) : outcome string :=
  match v with
  | JStr s => Ok s
  | _ => OutOfModel
  end.

Definition isNumber (v : jsval) : bool :=
  match v with
  | JNum _ => true
  | _ => false
  end.

(** [fileData[metric]?.pct ?? fallback] *)
Definition pctOr (fileData : jsval) (metric : string) (fallback : jsval) : outcome jsval :=
  m ← get fileData metric;
  if nullish m then Ok fallback
  else
    pct ← get m "pct";
    Ok (if nullish pct then fallback else pct).

(** Handle summary format: the body of the first [if]. *)
Definition istanbulSummary (name : string) (fileData lines pct : jsval)
  : outcome CoverageData.t :=
  lineCoverage ← asNumber pct;
  statementCoverage ← (v ← pctOr fileData "statements" pct; asNumber v);
  branchCoverage ← (v ← pctOr fileData "branches" (JNum 100); asNumber v);
  functionCoverage ← (v ← pctOr fileData "functions" (JNum 100); asNumber v);
  totalLines ← (v ← get lines "total"; asNumber v);
  coveredLines ← (v ← get lines "covered"; asNumber v);
  Ok (CoverageData.mk name lineCoverage branchCoverage functionCoverage statementCoverage
        [] [] [] totalLines coveredLines).

(** The loop over [Object.entries(fileData.s)]: total, covered and the
    uncovered lines. *)
Definition statementStep (statementMap : jsval) (st : nat * nat * list Q)
    (entry : string * jsval) : outcome (nat * nat * list Q) :=
  let '(statementsTotal, statementsCovered, uncoveredLines) := st in
  let '(stmtId, hitCount) := entry in
  hit ← gtZero hitCount;
  if (hit : bool) then Ok (S statementsTotal, S statementsCovered, uncoveredLines)
  else
    stmtInfo ← lookup statementMap stmtId;
    (* stmtInfo?.start?.line *)
    line ← (if nullish stmtInfo then Ok JUndefined
            else
              start ← get stmtInfo "start";
              if nullish start then Ok JUndefined else get start "line");
    if truthy_v line
    then n ← asNumber line; Ok (S statementsTotal, statementsCovered, uncoveredLines ++ [n])
    else Ok (S statementsTotal, statementsCovered, uncoveredLines).

(** The inner loop over the hits of one branch. *)
Definition branchHitStep (branchMap : jsval) (branchId : string)
    (st : nat * nat * list UncoveredBranch.t) (hitCount : jsval)
  : outcome (nat * nat * list UncoveredBranch.t) :=
  let '(branchesTotal, branchesCovered, uncoveredBranches) := st in
  hit ← gtZero hitCount;
  if (hit : bool) then Ok (S branchesTotal, S branchesCovered, uncoveredBranches)
  else
    branchInfo ← lookup branchMap branchId;
    if truthy_v branchInfo
    then
      line ← (v ← get branchInfo "line"; asNumber v);
      (* branchInfo.type || 'unknown' *)
      type ← (v ← get branchInfo "type"; if truthy_v v then asString v else Ok "unknown");
      Ok (S branchesTotal, branchesCovered, uncoveredBranches ++ [UncoveredBranch.mk line type])
    else Ok (S branchesTotal, branchesCovered, uncoveredBranches).

Definition branchStep (branchMap : jsval) (st : nat * nat * list UncoveredBranch.t)
    (entry : string * jsval) : outcome (nat * nat * list UncoveredBranch.t) :=
  let '(branchId, hits) := entry in
  hitCounts ← iterate hits;
  for_of hitCounts st (branchHitStep branchMap branchId).

Definition functionStep (fnMap : jsval) (st : nat * nat * list string)
    (entry : string * jsval) : outcome (nat * nat * list string) :=
  let '(functionsTotal, functionsCovered, uncoveredFunctions) := st in
  let '(fnId, hitCount) := entry in
  hit ← gtZero hitCount;
  if (hit : bool) then Ok (S functionsTotal, S functionsCovered, uncoveredFunctions)
  else
    fnInfo ← lookup fnMap fnId;
    (* fnInfo?.name *)
    name ← (if nullish fnInfo then Ok JUndefined else get fnInfo "name");
    if truthy_v name
    then n ← asString name; Ok (S functionsTotal, functionsCovered, uncoveredFunctions ++ [n])
    else Ok (S functionsTotal, functionsCovered, uncoveredFunctions).

(** Handle detailed format: the [if] on [s] and [statementMap].  The result
    is [(statementCoverage, lineCoverage, totalLines, coveredLines,
    uncoveredLines)]; the fields keep their initial values when the [if]
    is not entered. *)
Definition detailedStatements (fileData : jsval) : outcome (Q * Q * Q * Q * list Q) :=
  s ← get fileData "s";
  statementMap ← get fileData "statementMap";
  if (truthy_v s && truthy_v statementMap)%bool
  then
    es ← entries s;
    '(statementsTotal, statementsCovered, uncoveredLines) ←
      for_of es (0%nat, 0%nat, []) (statementStep statementMap);
    statementCoverage ← percentage statementsCovered statementsTotal;
    Ok (statementCoverage, statementCoverage,
        of_nat statementsTotal, of_nat statementsCovered, uncoveredLines)
  else Ok (0%Q, 0%Q, 0%Q, 0%Q, []).

(** Handle branch coverage: [(branchCoverage, uncoveredBranches)]. *)
Definition detailedBranches (fileData : jsval) : outcome (Q * list UncoveredBranch.t) :=
  b ← get fileData "b";
  branchMap ← get fileData "branchMap";
  if (truthy_v b && truthy_v branchMap)%bool
  then
    es ← entries b;
    '(branchesTotal, branchesCovered, uncoveredBranches) ←
      for_of es (0%nat, 0%nat, []) (branchStep branchMap);
    branchCoverage ← percentage branchesCovered branchesTotal;
    Ok (branchCoverage, uncoveredBranches)
  else Ok (0%Q, []).

(** Handle function coverage: [(functionCoverage, uncoveredFunctions)]. *)
Definition detailedFunctions (fileData : jsval) : outcome (Q * list string) :=
  f ← get fileData "f";
  fnMap ← get fileData "fnMap";
  if (truthy_v f && truthy_v fnMap)%bool
  then
    es ← entries f;
    '(functionsTotal, functionsCovered, uncoveredFunctions) ←
      for_of es (0%nat, 0%nat, []) (functionStep fnMap);
    functionCoverage ← percentage functionsCovered functionsTotal;
    Ok (functionCoverage, uncoveredFunctions)
  else Ok (0%Q, []).

(** What follows the summary [if] in the loop body. *)
Definition istanbulDetailed (name : string) (fileData : jsval) : outcome CoverageData.t :=
  '(statementCoverage, lineCoverage, totalLines, coveredLines, uncoveredLines) ←
    detailedStatements fileData;
  '(branchCoverage, uncoveredBranches) ← detailedBranches fileData;
  '(functionCoverage, uncoveredFunctions) ← detailedFunctions fileData;
  (* Deduplicate uncovered lines *)
  let uncoveredLines := sortBy (fun a b => a - b)%Q (dedupe eqb uncoveredLines) in
  Ok (CoverageData.mk name lineCoverage branchCoverage functionCoverage statementCoverage
        uncoveredLines uncoveredBranches uncoveredFunctions totalLines coveredLines).

(** The record one entry of the report contributes. *)
Definition istanbulEntry (filePath : string) (fileData : jsval) : outcome CoverageData.t :=
  (* fileData.path || filePath *)
  path ← get fileData "path";
  name ← (if truthy_v path then asString path else Ok filePath);
  lines ← get fileData "lines";
  pct ← (if truthy_v lines then get lines "pct" else Ok JUndefined);
  if (truthy_v lines && isNumber pct)%bool
  then istanbulSummary name fileData lines pct
  else istanbulDetailed name fileData.

(** The loop over [Object.entries(coverage)].  [files] is declared before
    the [try], so what was pushed before a turn fails is still in it when
    the [catch] is reached: the loop reports the array next to how it
    ended. *)
Fixpoint istanbulLoop (es : list (string * jsval)) (files : list CoverageData.t)
  : list CoverageData.t * outcome unit :=
  match es with
  | [] => (files, Ok tt)
  | (filePath, fileData) :: rest =>
      (* Skip 'total' entry in summary format *)
      if String.eqb filePath "total" then istanbulLoop rest files
      else match istanbulEntry filePath fileData with
           | Ok data => istanbulLoop rest (files ++ [data])
           | Throw e => (files, Throw e)
           | OutOfModel => (files, OutOfModel)
           end
  end.

(** The [try] block on the parsed report. *)
Definition istanbulBody (coverage : jsval) : list CoverageData.t * outcome unit :=
  match entries coverage with
  | Ok es => istanbulLoop es []
  | Throw e => ([], Throw e)
  | OutOfModel => ([], OutOfModel)
  end.

(** What the function returns once the report is parsed: the [catch] is
    empty, and [return files] follows it. *)
Definition istanbulFiles (coverage : jsval) : outcome (list CoverageData.t) :=
  match istanbulBody coverage with
  | (files, Ok _) => Ok files
  | (files, Throw _) => Ok files (* Return empty array on parse error *)
  | (_, OutOfModel) => OutOfModel
  end.

Definition parseIstanbulJson (host : Host) (jsonContent : string)
  : outcome (list CoverageData.t) :=
  match JSON_parse host jsonContent with
  | None => Ok [] (* JSON.parse throws, nothing was pushed *)
  | Some coverage => istanbulFiles coverage
  end.

(** *** Loading *)

Definition isFormat (a b : Format) : bool :=
  match a, b with
  | lcov, lcov | istanbul, istanbul | c8, c8 | none, none | unknown, unknown => true
  | _, _ => false
  end.

Definition readFile (host : Host) (path : string) : outcome string :=
  match readFileSync host path with
  | Some content => Ok content
  | None => Throw "readFileSync"
  end.

Definition loadCoverageData (host : Host) (projectRoot : string) : outcome Loaded.t :=
  let reports := findCoverageReports host projectRoot in
  if (length reports =? 0)%nat then Ok (Loaded.mk [] none None)
  else
    (* Prefer lcov format for most detailed data *)
    match find (fun r => isFormat (Report.type r) lcov) reports with
    | Some lcovReport =>
        content ← readFile host (Report.path lcovReport);
        data ← parseLcov host content;
        Ok (Loaded.mk data lcov (Some (Report.path lcovReport)))
    | None =>
        (* Fall back to istanbul/c8 JSON *)
        match find (fun r => (isFormat (Report.type r) istanbul
                              || isFormat (Report.type r) c8)%bool) reports with
        | Some jsonReport =>
            content ← readFile host (Report.path jsonReport);
            data ← parseIstanbulJson host content;
            Ok (Loaded.mk data (Report.type jsonReport) (Some (Report.path jsonReport)))
        | None => Ok (Loaded.mk [] none None)
        end
    end.

(** *** Coverage analysis *)

Definition calculateComplexity (host : Host) (filePath projectRoot : string) : nat :=
  let fullPath := path_resolve host projectRoot filePath in
  if negb (existsSync host fullPath) then 1%nat
  else
    match readFileSync host fullPath with
    | None => 1%nat (* catch *)
    | Some content =>
        let lines := split content LF in
        let lineCount := length lines in
        (* Basic complexity heuristics *)
        let complexity := 1%nat in
        (* Line count factor *)
        let complexity :=
          if (500 <? lineCount)%nat then (complexity + 3)%nat
          else if (200 <? lineCount)%nat then (complexity + 2)%nat
          else if (100 <? lineCount)%nat then (complexity + 1)%nat
          else complexity in
        (* Control flow complexity (simple estimation) *)
        let controlFlow := controlFlowKeywords host content in
        let complexity :=
          if (0 <? controlFlow)%nat
          then (complexity + Nat.min 5 (controlFlow / 10))%nat
          else complexity in
        (* Class/function count *)
        let decls := declarations host content in
        let complexity :=
          if (0 <? decls)%nat
          then (complexity + Nat.min 3 (decls / 5))%nat
          else complexity in
        Nat.min 10 complexity
    end.

Definition determineGapType (coverage : Q) : GapType :=
  if ltb coverage 20 then critical
  else if ltb coverage 50 then high
  else if ltb coverage 70 then medium
  else low.

Definition isGapType (a b : GapType) : bool :=
  match a, b with
  | critical, critical | high, high | medium, medium | low, low => true
  | _, _ => false
  end.

(** Based on file extension.  [extname] yields the empty string or a suffix
    that begins with a dot, so the property read finds an entry of the
    literal or nothing. *)
Definition extAgentMap : gmap string (list string) :=
  list_to_map
    [ (".ts", ["coder"; "tester"; "reviewer"]);
      (".tsx", ["coder"; "tester"; "reviewer"]);
      (".js", ["coder"; "tester"]);
      (".jsx", ["coder"; "tester"]);
      (".py", ["coder"; "tester"; "ml-developer"]);
      (".go", ["coder"; "tester"]);
      (".rs", ["coder"; "tester"; "performance-engineer"]) ].

(** [agents.includes(a)] *)
Definition hasAgent (agents : list string) (a : string) : bool :=
  existsb (String.eqb a) agents.

Definition suggestAgentsForFile (host : Host) (filePath : string)
    (coverageData : CoverageData.t) (gapType : GapType) : list string :=
  let ext := toLowerCase (extname host filePath) in
  let fileName := toLowerCase (basename host filePath) in
  (* Test files need tester primarily *)
  if (includes fileName ".test." || includes fileName ".spec.")%bool
  then ["tester"; "reviewer"]
  else
    (* Based on directory/file purpose *)
    let agents :=
      if (includes filePath "/api/" || includes filePath "/routes/")%bool
      then ["coder"; "tester"; "security-architect"]
      else if (includes filePath "/auth/" || includes filePath "security")%bool
      then ["security-architect"; "tester"; "coder"]
      else if (includes filePath "/utils/" || includes filePath "/helpers/")%bool
      then ["coder"; "tester"]
      else if includes filePath "/services/"
      then ["coder"; "tester"; "architect"]
      else default ["coder"; "tester"] (extAgentMap !! ext) in
    (* For critical gaps, add reviewer *)
    let agents :=
      if (isGapType gapType critical && negb (hasAgent agents "reviewer"))%bool
      then agents ++ ["reviewer"] else agents in
    (* For uncovered branches, add architect for complex logic *)
    let agents :=
      if (5 <? length (CoverageData.uncoveredBranches coverageData))%nat
      then if negb (hasAgent agents "architect") then agents ++ ["architect"] else agents
      else agents in
    take 4 (dedupe String.eqb agents).

Definition calculatePriority (host : Host) (coverageData : CoverageData.t)
    (complexity : nat) (gapType : GapType) : Q :=
  (* Base priority from gap type *)
  let priority : Q :=
    match gapType with
    | critical => 100
    | high => 75
    | medium => 50
    | low => 25
    end%Q in
  (* Add complexity factor (0-30 points) *)
  let priority := fadd priority (of_nat complexity * 3)%Q in
  (* Add uncovered lines factor (0-20 points) *)
  let uncoveredRatio :=
    fdiv (of_nat (length (CoverageData.uncoveredLines coverageData)))
      (Math_max 1 (CoverageData.totalLines coverageData)) in
  let priority := fadd priority (Math_min 20 (fmul uncoveredRatio 50)) in
  (* Add branch coverage factor (0-15 points) *)
  let priority :=
    if ltb (CoverageData.branchCoverage coverageData) 50 then fadd priority 15
    else if ltb (CoverageData.branchCoverage coverageData) 75 then fadd priority 8
    else priority in
  (* Important file patterns get boost *)
  let fileName := basename host (CoverageData.filePath coverageData) in
  let priority :=
    if (includes fileName "service" || includes fileName "controller")%bool
    then fadd priority 10 else priority in
  let priority :=
    if (includes fileName "auth" || includes fileName "security")%bool
    then fadd priority 15 else priority in
  Math_min 200 priority.

(** [avgCoverage]: the three sums from left to right, then the quotient. *)
Definition averageCoverage (data : CoverageData.t) : Q :=
  fdiv
    (fadd
       (fadd (fadd (CoverageData.lineCoverage data) (CoverageData.branchCoverage data))
          (CoverageData.functionCoverage data))
       (CoverageData.statementCoverage data))
    4.

(** The body of the loop of [analyzeCoverageGaps] past the [continue]. *)
Definition gapOf (host : Host) (projectRoot : string) (threshold : Q)
    (data : CoverageData.t) : CoverageGap.t :=
  let avgCoverage := averageCoverage data in
  let gapType := determineGapType avgCoverage in
  let complexity := calculateComplexity host (CoverageData.filePath data) projectRoot in
  let suggestedAgents := suggestAgentsForFile host (CoverageData.filePath data) data gapType in
  let priority := calculatePriority host data complexity gapType in
  (* Generate reason *)
  let reasons := [] in
  let reasons :=
    if ltb (CoverageData.lineCoverage data) threshold
    then reasons ++ ["line coverage " +:+ toFixed1 host (CoverageData.lineCoverage data) +:+ "%"]
    else reasons in
  let reasons :=
    if ltb (CoverageData.branchCoverage data) threshold
    then reasons ++ ["branch coverage " +:+ toFixed1 host (CoverageData.branchCoverage data)
                       +:+ "%"]
    else reasons in
  let reasons :=
    if (0 <? length (CoverageData.uncoveredFunctions data))%nat
    then reasons ++ [JsString.of_nat (length (CoverageData.uncoveredFunctions data))
                       +:+ " uncovered functions"]
    else reasons in
  let reason := JsString.join ", " reasons in
  CoverageGap.mk (CoverageData.filePath data) avgCoverage gapType complexity priority
    suggestedAgents
    (take 20 (CoverageData.uncoveredLines data)) (* Limit for output *)
    (if truthy reason then reason else "Below threshold").

Definition analyzeCoverageGaps (host : Host) (coverageData : list CoverageData.t)
    (projectRoot : string) (threshold : Q) : list CoverageGap.t :=
  let gaps :=
    fold_left
      (fun gaps data =>
         if leb threshold (averageCoverage data) then gaps (* continue *)
         else gaps ++ [gapOf host projectRoot threshold data])
      coverageData [] in
  (* Sort by priority (descending).  Only the sign of the difference is
     looked at, and the rounded difference of two doubles has the sign of
     the exact one. *)
  sortBy (fun a b => CoverageGap.priority b - CoverageGap.priority a)%Q gaps.

Definition generateCoverageSummary (coverageData : list CoverageData.t) (threshold : Q)
  : CoverageSummary.t :=
  if (length coverageData =? 0)%nat
  then CoverageSummary.mk 0 0 0 0 0 0 threshold
  else
    let '(line, branch, function, statement) :=
      fold_left
        (fun '(line, branch, function, statement) data =>
           (fadd line (CoverageData.lineCoverage data),
            fadd branch (CoverageData.branchCoverage data),
            fadd function (CoverageData.functionCoverage data),
            fadd statement (CoverageData.statementCoverage data)))
        coverageData (0, 0, 0, 0)%Q in
    let fileCount := length coverageData in
    let belowThreshold :=
      length (filter (fun d => ltb (averageCoverage d) threshold = true) coverageData) in
    CoverageSummary.mk fileCount
      (fdiv line (of_nat fileCount)) (fdiv branch (of_nat fileCount))
      (fdiv function (of_nat fileCount)) (fdiv statement (of_nat fileCount))
      belowThreshold threshold.

(** *** Routing a task *)

Module Options.
(** The optional fields of the [options] argument; [None] is [undefined]. *)
Record t : Type := mk {
  projectRoot : option string;
  threshold : option Q;
  useRuvector : option bool
}.
End Options.

Module Routing.
Record t : Type := mk {
  primaryAgent : string;
  confidence : Q;
  reason : string;
  coverageImpact : string
}.
End Routing.

Module Metrics.
Record t : Type := mk {
  filesAnalyzed : nat;
  totalGaps : nat;
  criticalGaps : nat;
  avgCoverage : Q
}.
End Metrics.

Module CoverageRouteResult.
Record t : Type := mk {
  success : bool;
  task : string;
  coverageAware : bool;
  gaps : list CoverageGap.t;
  routing : Routing.t;
  suggestions : list string;
  metrics : Metrics.t
}.
End CoverageRouteResult.

(** Determine primary agent based on task + coverage: the block of
    [coverageRoute] that assigns [primaryAgent], [confidence], [reason] and
    [coverageImpact], as a function of the task and of the gaps found. *)
Definition determineRouting (task : string) (gaps : list CoverageGap.t) : Routing.t :=
  let taskLower := toLowerCase task in
  let primaryAgent := "coder" in
  let confidence := 0.75%Q in
  let reason := "Default routing based on task analysis" in
  let coverageImpact := "No coverage data available" in
  if (0 <? length gaps)%nat then
    (* Find most relevant gap for task *)
    let criticalGaps :=
      filter (fun g => (isGapType (CoverageGap.gapType g) critical
                        || isGapType (CoverageGap.gapType g) high)%bool = true) gaps in
    let '(primaryAgent, confidence, reason, coverageImpact) :=
      match criticalGaps with
      | first :: _ =>
          (* criticalGaps[0].suggestedAgents[0] || 'tester' *)
          (match CoverageGap.suggestedAgents first with
           | agent :: _ => if truthy agent then agent else "tester"
           | [] => "tester"
           end,
           0.85%Q,
           "Critical coverage gap in " +:+ CoverageGap.filePath first,
           JsString.of_nat (length criticalGaps) +:+ " high-priority files need attention")
      | [] => (primaryAgent, confidence, reason, coverageImpact)
      end in
    (* Override based on task keywords *)
    if (includes taskLower "test" || includes taskLower "coverage")%bool
    then Routing.mk "tester" 0.9%Q "Task explicitly mentions testing/coverage" coverageImpact
    else if (includes taskLower "security" || includes taskLower "auth")%bool
    then Routing.mk "security-architect" 0.88%Q "Security-related task detected" coverageImpact
    else Routing.mk primaryAgent confidence reason coverageImpact
  else Routing.mk primaryAgent confidence reason coverageImpact.

(** Generate suggestions *)
Definition makeSuggestions (host : Host) (format : Format) (gaps : list CoverageGap.t)
  : list string :=
  if isFormat format none
  then [ "Run tests with coverage to enable coverage-aware routing";
         "Supported formats: lcov, istanbul (c8), nyc" ]
  else if (length gaps =? 0)%nat
  then [ "All files meet coverage threshold" ]
  else
    let suggestions :=
      [ "Focus on " +:+ JsString.join ", "
          (map (fun g => basename host (CoverageGap.filePath g)) (take 3 gaps)) ] in
    if existsb (fun g => isGapType (CoverageGap.gapType g) critical) gaps
    then suggestions ++ ["Critical coverage gaps detected - prioritize testing"]
    else suggestions.

(** The gaps [coverageRoute] works with, from what was loaded. *)
Definition routeGaps (host : Host) (projectRoot : string) (threshold : Q)
    (coverageData : list CoverageData.t) : list CoverageGap.t :=
  if (0 <? length coverageData)%nat
  then analyzeCoverageGaps host coverageData projectRoot threshold
  else [].

(** [options.projectRoot || process.cwd()] *)
Definition projectRootOf (host : Host) (options : Options.t) : string :=
  match Options.projectRoot options with
  | Some root => if truthy root then root else process_cwd host
  | None => process_cwd host
  end.

(** [options.threshold ?? 80] *)
Definition thresholdOf (options : Options.t) : Q :=
  default 80%Q (Options.threshold options).

(** [coverageRoute].  The call to the optional [ruvector] module is left
    out: [callRuvectorRoute] swallows its own failures, the value it returns
    is not used, and the module is taken not to modify the coverage data it
    is handed. *)
Definition coverageRoute (host : Host) (task : string) (options : Options.t)
  : outcome CoverageRouteResult.t :=
  let projectRoot := projectRootOf host options in
  let threshold := thresholdOf options in
  (* Load coverage data *)
  loaded ← loadCoverageData host projectRoot;
  let coverageData := Loaded.data loaded in
  let format := Loaded.format loaded in
  (* Analyze gaps *)
  let gaps := routeGaps host projectRoot threshold coverageData in
  let routing := determineRouting task gaps in
  let suggestions := makeSuggestions host format gaps in
  let summary := generateCoverageSummary coverageData threshold in
  Ok (CoverageRouteResult.mk true task (negb (isFormat format none))
        (take 10 gaps) (* Limit output *)
        routing suggestions
        (Metrics.mk (length coverageData) (length gaps)
           (length (filter (fun g => isGapType (CoverageGap.gapType g) critical = true) gaps))
           (CoverageSummary.overallLineCoverage summary))).

End Coverage.

(** ** diff-classifier.ts, continued: the aggregate risk, the reviewers and
    the analysis as a whole *)

Module DiffAnalysis.
Import JsString JsNumber Regex Diff.

(** ['adequate' | 'insufficient' | 'unknown'] *)
Inductive TestCoverage : Type := adequate | insufficient | unknown.

Module Breakdown.
Record t : Type := mk {
  fileCount : nat;
  totalChanges : Z;
  highRiskFiles : list string;
  securityConcerns : list string;
  breakingChanges : list string;
  testCoverage : TestCoverage
}.
End Breakdown.

Module DiffRiskAssessment.
Record t : Type := mk {
  overall : RiskLevel;
  score : Z;
  breakdown : Breakdown.t
}.
End DiffRiskAssessment.

Module DiffAnalysisResult.
Record t : Type := mk {
  ref : string;
  timestamp : string;
  files : list DiffFile.t;
  risk : DiffRiskAssessment.t;
  classification : DiffClassification.t;
  fileRisks : list FileRisk.t;
  recommendedReviewers : list string;
  summary : string
}.
End DiffAnalysisResult.

(** [f.risk === 'high-risk' || f.risk === 'critical'] *)
Definition isHighRisk (f : FileRisk.t) : bool :=
  match FileRisk.risk f with
  | high_risk | critical => true
  | _ => false
  end.

(** [Math.round]: to the nearest integer, a half towards plus infinity; the
    result is exact, whatever the double. *)
Definition Math_round (x : Q) : Z := Qfloor (x + 0.5)%Q.

(** *** The overall risk *)

Definition assessOverallRisk (files : list DiffFile.t) (fileRisks : list FileRisk.t)
  : DiffRiskAssessment.t :=
  let totalChanges :=
    fold_left (fun sum f => sum + DiffFile.additions f + DiffFile.deletions f) files 0 in
  let highRiskFiles := map FileRisk.path (filter (fun f => isHighRisk f = true) fileRisks) in
  (* Security concerns *)
  let securityConcerns :=
    fold_left
      (fun securityConcerns file =>
         if test_i (lits ["auth"; "password"; "secret"; "token"; "key"; "credential"; "crypto"])
              (DiffFile.path file)
         then securityConcerns ++ ["Security-sensitive file: " +:+ DiffFile.path file]
         else securityConcerns)
      files [] in
  (* Breaking changes detection *)
  let breakingChanges :=
    fold_left
      (fun breakingChanges file =>
         if test_i (alts [Cat (Lit "api/v") Digit; Lit "breaking"; Lit "deprecat";
                          Lit "interface"; Lit "type"])
              (DiffFile.path file)
         then
           if DiffFile.additions file <? DiffFile.deletions file
           then breakingChanges ++ ["Potential breaking change: " +:+ DiffFile.path file]
           else breakingChanges
         else breakingChanges)
      files [] in
  (* Test coverage assessment *)
  let testFiles :=
    filter (fun f => test_i (lits [".test."; ".spec."; "__tests__"]) (DiffFile.path f) = true)
      files in
  let sourceFiles :=
    filter
      (fun f =>
         (Regex.test (Cat (Lit ".") (Cat (lits ["ts"; "tsx"; "js"; "jsx"; "py"; "go"; "rs"]) Eos))
            (DiffFile.path f)
          && negb (test_i (lits [".test."; ".spec."]) (DiffFile.path f)))%bool = true)
      files in
  let testCoverage :=
    if (0 <? length sourceFiles)%nat
    then if leb (of_nat (length sourceFiles) * 0.5)%Q (of_nat (length testFiles))
         then adequate else insufficient
    else unknown in
  (* Calculate overall score (weighted average) *)
  let avgScore : Q :=
    if (0 <? length fileRisks)%nat
    then fdiv (inject_Z (fold_left (fun sum f => sum + FileRisk.score f)%Z fileRisks 0%Z))
           (of_nat (length fileRisks))
    else 0%Q in
  (* Adjust for file count *)
  let score := avgScore in
  let score :=
    if (20 <? length files)%nat then fadd score 15
    else if (10 <? length files)%nat then fadd score 10
    else if (5 <? length files)%nat then fadd score 5
    else score in
  (* Adjust for security concerns *)
  let score := fadd score (of_nat (length securityConcerns) * 10)%Q in
  let score := fadd score (of_nat (length breakingChanges) * 10)%Q in
  (* Cap at 100 *)
  let score := Z.min 100 (Math_round score) in
  (* Determine overall risk level *)
  let overall :=
    if 70 <=? score then critical
    else if 50 <=? score then high_risk
    else if 25 <=? score then medium_risk
    else low_risk in
  DiffRiskAssessment.mk overall score
    (Breakdown.mk (length files) totalChanges highRiskFiles securityConcerns breakingChanges
       testCoverage).

(** *** Reviewer recommendations *)

(** File extension to reviewer mapping: the object literal, in the order
    [Object.entries] reports its keys. *)
Definition REVIEWER_PATTERNS : list (string * list string) :=
  [ (".ts", ["typescript-expert"; "coder"]);
    (".tsx", ["frontend-expert"; "coder"; "reviewer"]);
    (".py", ["python-expert"; "coder"]);
    (".go", ["go-expert"; "coder"]);
    (".rs", ["rust-expert"; "coder"]);
    (".sql", ["database-expert"; "architect"]);
    (".sh", ["devops-expert"; "security-expert"]);
    (".dockerfile", ["devops-expert"; "security-expert"]);
    (".yaml", ["devops-expert"; "architect"]);
    (".yml", ["devops-expert"; "architect"]);
    (".json", ["coder"; "architect"]);
    ("security", ["security-expert"; "architect"]);
    ("auth", ["security-expert"; "architect"]);
    ("payment", ["security-expert"; "senior-reviewer"]) ].

Definition is_alnum (c : ascii) : bool :=
  let n := nat_of_ascii c in
  ((Nat.leb 48 n && Nat.leb n 57) || (Nat.leb 65 n && Nat.leb n 90)
   || (Nat.leb 97 n && Nat.leb n 122))%bool.

Fixpoint all_alnum (s : string) : bool :=
  match s with
  | EmptyString => true
  | String c r => (is_alnum c && all_alnum r)%bool
  end.

(** [path.match(/\.[a-zA-Z0-9]+$/)?.[0] || '']: the leftmost place where a
    dot is followed by one or more letters or digits up to the end. *)
Fixpoint extensionOf (path : string) : string :=
  match path with
  | EmptyString => EmptyString
  | String c r =>
      if (Ascii.eqb c "." && negb (String.eqb r "") && all_alnum r)%bool
      then path
      else extensionOf r
  end.

(** [REVIEWER_PATTERNS[ext] || []].  [ext] is empty or begins with a dot, so
    only a key of the literal can be found. *)
Fixpoint reviewersFor (ext : string) (table : list (string * list string)) : list string :=
  match table with
  | [] => []
  | (key, reviewers) :: rest => if String.eqb key ext then reviewers else reviewersFor ext rest
  end.

(** The [Map] of scores: the keys in the order of their first [set]. *)
Fixpoint scoreOf (scores : list (string * nat)) (reviewer : string) : option nat :=
  match scores with
  | [] => None
  | (r, n) :: rest => if String.eqb r reviewer then Some n else scoreOf rest reviewer
  end.

Fixpoint setScore (scores : list (string * nat)) (reviewer : string) (n : nat)
  : list (string * nat) :=
  match scores with
  | [] => [(reviewer, n)]
  | (r, m) :: rest =>
      if String.eqb r reviewer then (r, n) :: rest else (r, m) :: setScore rest reviewer n
  end.

(** [scores.set(reviewer, (scores.get(reviewer) || 0) + points)] *)
Definition addScore (points : nat) (scores : list (string * nat)) (reviewer : string)
  : list (string * nat) :=
  setScore scores reviewer (default 0%nat (scoreOf scores reviewer) + points)%nat.

(** The body of the loop over the files. *)
Definition scoreFile (scores : list (string * nat)) (file : DiffFile.t)
  : list (string * nat) :=
  let ext := extensionOf (DiffFile.path file) in
  let pathLower := toLowerCase (DiffFile.path file) in
  (* Add reviewers based on file extension *)
  let scores := fold_left (addScore 1) (reviewersFor ext REVIEWER_PATTERNS) scores in
  (* Add reviewers based on path patterns *)
  fold_left
    (fun scores '(pattern, reviewers) =>
       if includes pathLower pattern
       then fold_left (addScore 2) reviewers scores
       else scores)
    REVIEWER_PATTERNS scores.

(** Boost scores for high-risk files: the body of the second loop. *)
Definition scoreRisk (scores : list (string * nat)) (risk : FileRisk.t)
  : list (string * nat) :=
  let scores := addScore 3 scores "senior-reviewer" in
  if existsb (test_i (Lit "security")) (FileRisk.reasons risk)
  then addScore 3 scores "security-expert"
  else scores.

(** [reviewerScores] when both loops are over. *)
Definition reviewerScores (files : list DiffFile.t) (fileRisks : list FileRisk.t)
  : list (string * nat) :=
  let scores := fold_left scoreFile files [] in
  fold_left scoreRisk (filter (fun f => isHighRisk f = true) fileRisks) scores.

Definition suggestReviewers (files : list DiffFile.t) (fileRisks : list FileRisk.t)
  : list string :=
  (* Sort by score and return top reviewers *)
  map fst
    (take 5
       (Coverage.sortBy (fun a b => of_nat (snd b) - of_nat (snd a))%Q
          (reviewerScores files fileRisks))).

(** *** The other queries of the version-control tool *)

Definition getGitDiff (sh : Shell) (ref cwd : option string) : outcome string :=
  try_catch
    (exec sh ("git diff " +:+ refOrDefault ref) (workingDirectory sh cwd))
    (fun message => Throw ("Failed to get git diff: " +:+ message)).

Definition getGitDiffStat (sh : Shell) (ref cwd : option string) : outcome string :=
  try_catch
    (exec sh ("git diff --stat " +:+ refOrDefault ref) (workingDirectory sh cwd))
    (fun message => Throw ("Failed to get git diff stat: " +:+ message)).

Fixpoint dropDigits (s : string) : string :=
  match s with
  | String c r => if is_digit c then dropDigits r else s
  | EmptyString => EmptyString
  end.

(** [line.replace(/^\d+\s+/, '')]: a leading run of digits and the white
    space after it go, when both are there. *)
Definition stripCount (line : string) : string :=
  if starts_with_digit line
  then
    let rest := dropDigits line in
    match rest with
    | String c _ => if is_space c then trimStart rest else line
    | EmptyString => line
    end
  else line.

(** The double quote, which the command line puts around the path. *)
Definition DQUOTE : string := String "034"%char EmptyString.

Definition getFileContributors (sh : Shell) (filePath : string) (cwd : option string)
  : outcome (list string) :=
  try_catch
    (result ← exec sh
       ("git log --format='%an' --follow -- " +:+ DQUOTE +:+ filePath +:+ DQUOTE
        +:+ " | sort | uniq -c | sort -rn | head -5")
       (workingDirectory sh cwd);
     Ok (filter (fun name => truthy name = true)
           (map (fun line => stripCount (trim line)) (nonEmptyLines result))))
    (fun _ => Ok []).

(** *** The analysis as a whole *)

Definition upper_char (c : ascii) : ascii :=
  let n := nat_of_ascii c in
  if (Nat.leb 97 n && Nat.leb n 122)%bool then ascii_of_nat (n - 32) else c.

(** [s.charAt(0).toUpperCase() + s.slice(1)] *)
Definition capitalize (s : string) : string :=
  match s with
  | EmptyString => EmptyString
  | String c r => String (upper_char c) r
  end.

Definition generateSummary (files : list DiffFile.t) (risk : DiffRiskAssessment.t)
    (classification : DiffClassification.t) : string :=
  let parts := [capitalize (DiffClassification.category classification) +:+ " change"] in
  let parts :=
    match DiffClassification.subcategory classification with
    | Some sub => if truthy sub then parts ++ ["(" +:+ sub +:+ ")"] else parts
    | None => parts
    end in
  let parts := parts ++ ["affecting " +:+ JsString.of_nat (length files) +:+ " file(s)."] in
  let riskName :=
    match DiffRiskAssessment.overall risk with
    | low_risk => "low-risk"
    | medium_risk => "medium-risk"
    | high_risk => "high-risk"
    | critical => "critical"
    end in
  let parts :=
    parts ++ ["Risk level: " +:+ riskName +:+ " (score: "
              +:+ of_Z (DiffRiskAssessment.score risk) +:+ "/100)."] in
  let concerns := length (Breakdown.securityConcerns (DiffRiskAssessment.breakdown risk)) in
  let parts :=
    if (0 <? concerns)%nat
    then parts ++ [JsString.of_nat concerns +:+ " security concern(s) detected."] else parts in
  let breaking := length (Breakdown.breakingChanges (DiffRiskAssessment.breakdown risk)) in
  let parts :=
    if (0 <? breaking)%nat
    then parts ++ [JsString.of_nat breaking +:+ " potential breaking change(s)."] else parts in
  JsString.join " " parts.

(** [options.ref || 'HEAD~1'] and [options.cwd || process.cwd()] *)
Definition optionOr (o : option string) (fallback : string) : string :=
  match o with
  | Some s => if truthy s then s else fallback
  | None => fallback
  end.

(** [analyzeDiff].  [now] is [new Date().toISOString()].  The two calls to the
    optional [ruvector] tool are left out: they catch their own failures and
    what they return is not used. *)
Definition analyzeDiff (sh : Shell) (now : string) (ref cwd : option string)
  : outcome DiffAnalysisResult.t :=
  let ref := optionOr ref "HEAD~1" in
  let cwd := optionOr cwd (process_cwd sh) in
  (* Get diff data *)
  diffContent ← getGitDiff sh (Some ref) (Some cwd);
  files ← getGitDiffNumstat sh (Some ref) (Some cwd);
  (* Assess each file's risk *)
  let fileRisks := map assessFileRisk files in
  (* Calculate overall risk *)
  let risk := assessOverallRisk files fileRisks in
  (* Classify the change type *)
  let classification := classifyDiff files in
  (* Suggest reviewers *)
  let recommendedReviewers := suggestReviewers files fileRisks in
  (* Generate summary *)
  let summary := generateSummary files risk classification in
  Ok (DiffAnalysisResult.mk ref now files risk classification fileRisks
        recommendedReviewers summary).

End DiffAnalysis.

(** ** coverage-router.ts, continued: the two other entry points *)

Module CoverageApi.
Import JsString JsNumber Coverage.

(** What the two entry points need beyond [Host]: [path.relative], and what
    [checkRuvectorAvailable] answers, which is whether the optional [ruvector]
    module can be imported with its two hooks. *)
Record Environment : Type := mkEnvironment {
  host : Host;
  path_relative : string -> string -> string;
  ruvectorAvailable : bool
}.

Module SuggestOptions.
Record t : Type := mk {
  projectRoot : option string;
  threshold : option Q;
  useRuvector : option bool;
  limit : option Z
}.
End SuggestOptions.

Module GapsOptions.
Record t : Type := mk {
  projectRoot : option string;
  threshold : option Q;
  useRuvector : option bool;
  groupByAgent : option bool
}.
End GapsOptions.

Module CoverageSuggestResult.
Record t : Type := mk {
  success : bool;
  path : string;
  suggestions : list CoverageGap.t;
  summary : CoverageSummary.t;
  prioritizedFiles : list string;
  ruvectorAvailable : bool
}.
End CoverageSuggestResult.

Module CoverageGapsResult.
Record t : Type := mk {
  success : bool;
  gaps : list CoverageGap.t;
  summary : CoverageSummary.t;
  agentAssignments : gmap string (list string);
  ruvectorAvailable : bool
}.
End CoverageGapsResult.

(** [root || process.cwd()] *)
Definition rootOr (h : Host) (root : option string) : string :=
  match root with
  | Some r => if truthy r then r else process_cwd h
  | None => process_cwd h
  end.

(** [options.useRuvector !== false] *)
Definition wantsRuvector (useRuvector : option bool) : bool :=
  match useRuvector with
  | Some false => false
  | _ => true
  end.

(** [l.slice(0, n)] for an integer [n]: a negative [n] counts from the end. *)
Definition slice0 {A : Type} (n : Z) (l : list A) : list A :=
  if n <? 0 then take (Z.to_nat (Z.max (Z.of_nat (length l) + n) 0)) l
  else take (Z.to_nat n) l.

(** [filePath.replace(/^\.?\//, '')]: a leading [/] or [./] goes. *)
Definition stripLeadingSlash (filePath : string) : string :=
  match filePath with
  | String "/" r => r
  | String "." (String "/" r) => r
  | _ => filePath
  end.

(** The predicate of the filter to the requested path. *)
Definition underPath (env : Environment) (projectRoot path : string)
    (d : CoverageData.t) : bool :=
  let normalizedPath :=
    if startsWith path "/" then path else path_join (host env) [projectRoot; path] in
  let relativePath := path_relative env projectRoot normalizedPath in
  let filePath := stripLeadingSlash (CoverageData.filePath d) in
  (startsWith filePath relativePath || includes filePath path)%bool.

(** [coverageSuggest].  The call to [callRuvectorSuggest] is left out, as in
    [coverageRoute]. *)
Definition coverageSuggest (env : Environment) (path : string) (options : SuggestOptions.t)
  : outcome CoverageSuggestResult.t :=
  let projectRoot := rootOr (host env) (SuggestOptions.projectRoot options) in
  let threshold := default 80%Q (SuggestOptions.threshold options) in
  let useRuvector := wantsRuvector (SuggestOptions.useRuvector options) in
  let limit := default 20 (SuggestOptions.limit options) in
  (* Load coverage data *)
  loaded ← loadCoverageData (host env) projectRoot;
  (* Filter to requested path *)
  let filteredData :=
    filter (fun d => underPath env projectRoot path d = true) (Loaded.data loaded) in
  (* Analyze gaps *)
  let gaps := analyzeCoverageGaps (host env) filteredData projectRoot threshold in
  (* Try ruvector integration *)
  let ruvectorAvail := if useRuvector then ruvectorAvailable env else false in
  let summary := generateCoverageSummary filteredData threshold in
  Ok (CoverageSuggestResult.mk true path (slice0 limit gaps) summary
        (map CoverageGap.filePath (slice0 10 gaps)) ruvectorAvail).

(** [gap.suggestedAgents[0] || 'tester'] *)
Definition primaryAgentOf (gap : CoverageGap.t) : string :=
  match CoverageGap.suggestedAgents gap with
  | agent :: _ => if truthy agent then agent else "tester"
  | [] => "tester"
  end.

(** Group by suggested agent: the body of the loop.  The keys are agent tags,
    none of which names a member every object inherits. *)
Definition assign (agentAssignments : gmap string (list string)) (gap : CoverageGap.t)
  : gmap string (list string) :=
  let primaryAgent := primaryAgentOf gap in
  let agentAssignments :=
    match agentAssignments !! primaryAgent with
    | Some _ => agentAssignments
    | None => <[primaryAgent := []]> agentAssignments
    end in
  <[primaryAgent := default [] (agentAssignments !! primaryAgent) ++ [CoverageGap.filePath gap]]>
    agentAssignments.

Definition coverageGaps (env : Environment) (options : GapsOptions.t)
  : outcome CoverageGapsResult.t :=
  let projectRoot := rootOr (host env) (GapsOptions.projectRoot options) in
  let threshold := default 80%Q (GapsOptions.threshold options) in
  let useRuvector := wantsRuvector (GapsOptions.useRuvector options) in
  let groupByAgent := default true (GapsOptions.groupByAgent options) in
  (* Load coverage data *)
  loaded ← loadCoverageData (host env) projectRoot;
  let coverageData := Loaded.data loaded in
  (* Analyze all gaps *)
  let gaps := analyzeCoverageGaps (host env) coverageData projectRoot threshold in
  (* Group by suggested agent *)
  let agentAssignments :=
    if groupByAgent then fold_left assign gaps ∅ else ∅ in
  let summary := generateCoverageSummary coverageData threshold in
  let ruvectorAvail := if useRuvector then ruvectorAvailable env else false in
  Ok (CoverageGapsResult.mk true gaps summary agentAssignments ruvectorAvail).

End CoverageApi.

(** * What the specification states *)

(** ** Notions the statements use *)

(** The label the thresholds give to a score: at least 70 critical, at least
    50 high-risk, at least 25 medium-risk, otherwise low-risk. *)
Definition riskOfScore (score : Z) : Diff.RiskLevel :=
  if 70 <=? score then Diff.critical
  else if 50 <=? score then Diff.high_risk
  else if 25 <=? score then Diff.medium_risk
  else Diff.low_risk.

(** The labels from the mildest to the gravest. *)
Definition riskRank (r : Diff.RiskLevel) : nat :=
  match r with
  | Diff.low_risk => 0
  | Diff.medium_risk => 1
  | Diff.high_risk => 2
  | Diff.critical => 3
  end.

(** The fixed enumeration order of the nine categories. *)
Definition categoryOrder : list string :=
  [ "feature"; "bugfix"; "refactor"; "test"; "docs"; "config"; "style"; "infra"; "security" ].

(** [cat] is the first entry of [es] whose counter is the largest one. *)
Definition firstMaximal (es : list (string * nat)) (cat : string) : Prop :=
  exists (i n : nat),
    es !! i = Some (cat, n)
    /\ (forall e, e ∈ es -> (snd e <= n)%nat)
    /\ (forall j e, (j < i)%nat -> es !! j = Some e -> (snd e < n)%nat).

(** The task text mentions testing, or security: the keyword tests of the
    routing, on the lower-cased text. *)
Definition mentionsTesting (task : string) : bool :=
  (JsString.includes (JsString.toLowerCase task) "test"
   || JsString.includes (JsString.toLowerCase task) "coverage")%bool.

Definition mentionsSecurity (task : string) : bool :=
  (JsString.includes (JsString.toLowerCase task) "security"
   || JsString.includes (JsString.toLowerCase task) "auth")%bool.

(** The conventional places of a report: three for LCOV, then three for
    Istanbul/c8. *)
Definition conventionalLocations (host : Coverage.Host) (projectRoot : string) : list string :=
  [ Coverage.path_join host [projectRoot; "coverage"; "lcov.info"];
    Coverage.path_join host [projectRoot; "lcov.info"];
    Coverage.path_join host [projectRoot; "coverage"; "lcov-report"; "lcov.info"];
    Coverage.path_join host [Coverage.path_join host [projectRoot; "coverage"];
                             "coverage-summary.json"];
    Coverage.path_join host [Coverage.path_join host [projectRoot; "coverage"];
                             "coverage-final.json"];
    Coverage.path_join host [projectRoot; ".nyc_output"; "coverage-summary.json"] ].

(** The lines of an LCOV record that carry a tag: the measured units of the
    metric the tag reports ([DA:] lines, [BRDA:] branches, [FNDA:] functions). *)
Definition tagged (tag record : string) : nat :=
  length (filter (fun l => JsString.startsWith l tag = true) (Coverage.recordLines record)).

(** In a detailed Istanbul entry, the hit map [hits] and the position map
    [positions] of a metric are both there. *)
Definition present (fileData : Coverage.jsval) (hits positions : string) : Prop :=
  exists h p,
    Coverage.get fileData hits = Ok h /\ Coverage.get fileData positions = Ok p
    /\ Coverage.truthy_v h = true /\ Coverage.truthy_v p = true.

(** The hit map [hits] has no entry: no statement, or no function, was
    measured. *)
Definition noEntry (fileData : Coverage.jsval) (hits : string) : Prop :=
  exists h, Coverage.get fileData hits = Ok h /\ Coverage.entries h = Ok [].

(** No branch was measured: every entry of [b] has an empty list of hits. *)
Definition noBranchHit (fileData : Coverage.jsval) : Prop :=
  exists b es,
    Coverage.get fileData "b" = Ok b /\ Coverage.entries b = Ok es
    /\ Forall (fun e => Coverage.iterate (snd e) = Ok []) es.

(** An Istanbul entry is in summary shape: [lines] is there and its [pct] is
    a number. *)
Definition summaryShape (fileData : Coverage.jsval) : Prop :=
  exists lines q,
    Coverage.get fileData "lines" = Ok lines /\ Coverage.truthy_v lines = true
    /\ Coverage.get lines "pct" = Ok (Coverage.JNum q).

(** The report gives a percentage for a metric of an entry: the section is
    there and its [pct] is a number. *)
Definition reported (fileData : Coverage.jsval) (metric : string) (p : Q) : Prop :=
  exists section,
    Coverage.get fileData metric = Ok section
    /\ Coverage.get section "pct" = Ok (Coverage.JNum p).

(** The three "found" counters of the LCOV loop, and what a line or a list
    of lines adds to the counter of a tag. *)
Definition counters (st : Coverage.LcovState) : nat * nat * nat :=
  (Coverage.linesFound st, Coverage.branchesFound st, Coverage.functionsFound st).

Definition unit_of (tag line : string) : nat :=
  if JsString.startsWith line tag then 1%nat else 0%nat.

Definition units (tag : string) (lines : list string) : nat :=
  length (filter (fun l => JsString.startsWith l tag = true) lines).

(** ** Sample inputs *)

Module Examples.
Import JsString.

(** The change set of the scenario: a modified login module and a new
    README. *)
Definition login : Diff.DiffFile.t :=
  Diff.DiffFile.mk "src/auth/login.ts" Diff.modified 120 10 1 false None.
Definition readme : Diff.DiffFile.t :=
  Diff.DiffFile.mk "README.md" Diff.added 5 0 1 false None.

(** A repository in which the ref of the query does not exist: the first
    query prints a line and the second one fails. *)
Definition badRefShell : Diff.Shell :=
  Diff.mkShell
    (fun command _ =>
       if String.eqb command "git diff --numstat nowhere"
       then inl ("3" +:+ TAB +:+ "1" +:+ TAB +:+ "src/a.ts" +:+ LF)
       else inr "fatal: bad revision 'nowhere'")
    "/repo".

(** A host given by the files of its disk, with POSIX paths.  The sample
    disks hold LCOV reports only: the source files a report names are not on
    them, and no JSON report is ever read, so the JSON parser of these hosts
    is never called. *)
Fixpoint afterLast (c : ascii) (s : string) : option string :=
  match s with
  | EmptyString => None
  | String a r =>
      match afterLast c r with
      | Some t => Some t
      | None => if Ascii.eqb a c then Some r else None
      end
  end.

Definition lastSegment (p : string) : string := default p (afterLast "/" p).

Definition suffixOf (p : string) : string :=
  match afterLast "." (lastSegment p) with
  | Some e => "." +:+ e
  | None => ""
  end.

Fixpoint allDigits (s : string) : bool :=
  match s with
  | EmptyString => true
  | String c r => (is_digit c && allDigits r)%bool
  end.

Definition numberOfDigits (s : string) : option Q :=
  if allDigits s then Some (inject_Z (fst (digits_value s 0))) else None.

Definition oneDecimal (q : Q) : string :=
  let tenths := Qfloor (q * 10 + 0.5)%Q in
  of_Z (tenths / 10) +:+ "." +:+ of_Z (tenths mod 10).

Fixpoint fileAt (disk : list (string * string)) (p : string) : option string :=
  match disk with
  | [] => None
  | (name, content) :: rest => if String.eqb name p then Some content else fileAt rest p
  end.

Definition hostOf (disk : list (string * string)) : Coverage.Host :=
  Coverage.mkHost
    (fun p => match fileAt disk p with Some _ => true | None => false end)
    (fileAt disk)
    (JsString.join "/")
    (fun root p => root +:+ "/" +:+ p)
    lastSegment
    suffixOf
    "/repo"
    (fun _ => None)
    numberOfDigits
    (fun _ => 0%nat)
    (fun _ => 0%nat)
    oneDecimal.

(** A project without any report. *)
Definition bareHost : Coverage.Host := hostOf [].

(** A project whose LCOV report shows one fully covered file. *)
Definition coveredHost : Coverage.Host :=
  hostOf [ ("/repo/coverage/lcov.info",
            "SF:src/a.ts" +:+ LF +:+ "DA:1,1" +:+ LF +:+ "end_of_record" +:+ LF) ].

(** A project whose LCOV report shows twelve files, none of whose lines
    was run. *)
Definition uncoveredRecord (i : nat) : string :=
  "SF:src/file" +:+ of_nat i +:+ ".ts" +:+ LF +:+ "DA:1,0" +:+ LF
  +:+ "end_of_record" +:+ LF.

Definition twelveHost : Coverage.Host :=
  hostOf [ ("/repo/coverage/lcov.info",
            String.concat "" (map uncoveredRecord (seq 1 12))) ].

(** Parsed Istanbul reports.  A summary entry that measured no line and
    reports 0 percent; a summary entry of an empty file as older Istanbul
    versions print it, with the string "Unknown" for each percentage; a
    detailed entry whose six maps are empty; and a report whose second entry
    is [null]. *)
Definition totals (total covered : Q) (pct : Coverage.jsval) : Coverage.jsval :=
  Coverage.JObj [ ("total", Coverage.JNum total); ("covered", Coverage.JNum covered);
                  ("skipped", Coverage.JNum 0); ("pct", pct) ].

Definition zeroTotalReport : Coverage.jsval :=
  Coverage.JObj
    [ ("src/a.ts", Coverage.JObj [ ("lines", totals 0 0 (Coverage.JNum 0)) ]) ].

Definition unknownPctReport : Coverage.jsval :=
  Coverage.JObj
    [ ("src/empty.ts",
       Coverage.JObj [ ("lines", totals 0 0 (Coverage.JStr "Unknown"));
                       ("statements", totals 0 0 (Coverage.JStr "Unknown"));
                       ("functions", totals 0 0 (Coverage.JStr "Unknown"));
                       ("branches", totals 0 0 (Coverage.JStr "Unknown")) ]) ].

Definition emptyMapsReport : Coverage.jsval :=
  Coverage.JObj
    [ ("src/e.ts",
       Coverage.JObj [ ("s", Coverage.JObj []); ("statementMap", Coverage.JObj []);
                       ("b", Coverage.JObj []); ("branchMap", Coverage.JObj []);
                       ("f", Coverage.JObj []); ("fnMap", Coverage.JObj []) ]) ].

Definition malformedReport : Coverage.jsval :=
  Coverage.JObj
    [ ("src/a.ts", Coverage.JObj [ ("lines", totals 1 1 (Coverage.JNum 100)) ]);
      ("src/b.ts", Coverage.JNull) ].

(** An LCOV report with one record that measures nothing. *)
Definition emptyRecordLcov : string :=
  "SF:src/b.ts" +:+ LF +:+ "end_of_record" +:+ LF.

(** The record the first entry of [malformedReport] contributes. *)
Definition fullyCovered : Coverage.CoverageData.t :=
  Coverage.CoverageData.mk "src/a.ts" 100 100 100 100 [] [] [] 1 1.

(** A record with a mean of 50, one with a mean of 100. *)
Definition halfCovered : Coverage.CoverageData.t :=
  Coverage.CoverageData.mk "src/h.ts" 50 50 50 50 [] [] [] 2 1.

Definition defaultOptions : Coverage.Options.t := Coverage.Options.mk None None None.

End Examples.

(** ** Notions and sample inputs for the further properties *)

(** From the mildest to the gravest gap. *)
Definition gapSeverity (g : Coverage.GapType) : nat :=
  match g with
  | Coverage.low => 0
  | Coverage.medium => 1
  | Coverage.high => 2
  | Coverage.critical => 3
  end.

(** The three places an LCOV report is looked for, and the three places a
    JSON report is, in the order they are tried. *)
Definition lcovLocations (host : Coverage.Host) (projectRoot : string) : list string :=
  [ Coverage.path_join host [projectRoot; "coverage"; "lcov.info"];
    Coverage.path_join host [projectRoot; "lcov.info"];
    Coverage.path_join host [projectRoot; "coverage"; "lcov-report"; "lcov.info"] ].

Definition jsonLocations (host : Coverage.Host) (projectRoot : string) : list string :=
  [ Coverage.path_join host [Coverage.path_join host [projectRoot; "coverage"];
                             "coverage-summary.json"];
    Coverage.path_join host [Coverage.path_join host [projectRoot; "coverage"];
                             "coverage-final.json"];
    Coverage.path_join host [projectRoot; ".nyc_output"; "coverage-summary.json"] ].

(** The format tag a JSON report at [path] gets. *)
Definition jsonFormat (path : string) : Coverage.Format :=
  if JsString.includes path ".nyc_output" then Coverage.istanbul else Coverage.c8.

(** The gap is critical or high: the gaps the routing looks at first. *)
Definition isUrgent (g : Coverage.CoverageGap.t) : bool :=
  (Coverage.isGapType (Coverage.CoverageGap.gapType g) Coverage.critical
   || Coverage.isGapType (Coverage.CoverageGap.gapType g) Coverage.high)%bool.

(** The files of the gaps whose primary agent is [agent], in the order of the
    gaps. *)
Definition filesOf (agent : string) (gaps : list Coverage.CoverageGap.t) : list string :=
  map Coverage.CoverageGap.filePath
    (filter (fun g => CoverageApi.primaryAgentOf g = agent) gaps).

(** The invariants of the LCOV loop: no more hits than units, and every unit
    that was not hit is in the list of the uncovered ones. *)
Definition lcovBalanced (st : Coverage.LcovState) : Prop :=
  Coverage.linesFound st
  = (Coverage.linesHit st + length (Coverage.lcovUncoveredLines st))%nat
  /\ Coverage.branchesFound st
     = (Coverage.branchesHit st + length (Coverage.lcovUncoveredBranches st))%nat
  /\ Coverage.functionsFound st
     = (Coverage.functionsHit st + length (Coverage.lcovUncoveredFunctions st))%nat.

(** The sum of the nine counters. *)
Definition counted (c : Diff.Categories) : nat :=
  fold_left Nat.add (map snd (Diff.entries c)) 0%nat.

(** The gap is critical. *)
Definition isCritical (g : Coverage.CoverageGap.t) : bool :=
  Coverage.isGapType (Coverage.CoverageGap.gapType g) Coverage.critical.

(** Everyone the table of reviewers names. *)
Definition knownReviewers : list string :=
  concat (map snd DiffAnalysis.REVIEWER_PATTERNS).

(** The scores of the reviewers are well kept: no reviewer has two entries
    and every reviewer is one of the table. *)
Definition wellKept (scores : list (string * nat)) : Prop :=
  NoDup (map fst scores) /\ Forall (fun r => r ∈ knownReviewers) (map fst scores).

Module Samples.
Import JsString.

(** A repository whose last commit changed a source file and added an image. *)
Definition goodShell : Diff.Shell :=
  Diff.mkShell
    (fun command _ =>
       if String.eqb command "git diff --numstat HEAD~1"
       then inl ("120" +:+ TAB +:+ "10" +:+ TAB +:+ "src/auth/login.ts" +:+ LF
                 +:+ "-" +:+ TAB +:+ "-" +:+ TAB +:+ "logo.png" +:+ LF)
       else if String.eqb command "git diff --name-status HEAD~1"
       then inl ("M" +:+ TAB +:+ "src/auth/login.ts" +:+ LF
                 +:+ "A" +:+ TAB +:+ "logo.png" +:+ LF)
       else if String.eqb command "git diff HEAD~1"
       then inl "diff --git a/src/auth/login.ts b/src/auth/login.ts"
       else inl ("     12 Ada Lovelace" +:+ LF +:+ "      3 Alan Turing" +:+ LF))
    "/repo".

(** A repository where nothing changed: every query answers with no output. *)
Definition quietShell : Diff.Shell := Diff.mkShell (fun _ _ => inl "") "/repo".

(** A project with an LCOV report and a JSON report that cannot be parsed. *)
Definition bothReportsHost : Coverage.Host :=
  Examples.hostOf
    [ ("/repo/lcov.info",
       "SF:src/a.ts" +:+ LF +:+ "DA:1,1" +:+ LF +:+ "DA:2,0" +:+ LF
       +:+ "end_of_record" +:+ LF);
      ("/repo/coverage/coverage-final.json", "not json") ].

(** A project whose only report is a JSON file that cannot be parsed. *)
Definition brokenJsonHost : Coverage.Host :=
  Examples.hostOf [ ("/repo/coverage/coverage-final.json", "not json") ].

(** A detailed Istanbul entry with four statements, three of them never run
    and two of these on the same line. *)
Definition startingAt (line : Q) : Coverage.jsval :=
  Coverage.JObj [ ("start", Coverage.JObj [ ("line", Coverage.JNum line) ]) ].

Definition repeatedLinesReport : Coverage.jsval :=
  Coverage.JObj
    [ ("src/r.ts",
       Coverage.JObj
         [ ("s", Coverage.JObj [ ("0", Coverage.JNum 0); ("1", Coverage.JNum 0);
                                 ("2", Coverage.JNum 0); ("3", Coverage.JNum 1) ]);
           ("statementMap",
            Coverage.JObj [ ("0", startingAt 9); ("1", startingAt 3);
                            ("2", startingAt 9); ("3", startingAt 5) ]) ]) ].

(** A summary entry that gives a percentage for lines, statements and
    branches and has no [functions] section. *)
Definition summaryReport : Coverage.jsval :=
  Coverage.JObj
    [ ("src/s.ts",
       Coverage.JObj
         [ ("lines", Examples.totals 10 8 (Coverage.JNum 80));
           ("statements", Examples.totals 12 9 (Coverage.JNum 75));
           ("branches", Examples.totals 4 1 (Coverage.JNum 25)) ]) ].

(** Four percentages, each a double, whose exact mean is 80 and whose mean
    in double arithmetic is 79.99999999999999: 89.99999999999993,
    94.99999999999997, 80.00000000000003 and 55.00000000000007. *)
Definition roundedMeanRecord : Coverage.CoverageData.t :=
  Coverage.CoverageData.mk "src/m.ts"
    (6333186975989755 # 70368744177664) (3342515348439039 # 35184372088832)
    (2814749767106561 # 35184372088832) (3870280929771525 # 70368744177664)
    [] [] [] 0 0.

(** An LCOV record with fifteen lines and fifteen functions, eleven of each
    hit, and no branch. *)
Definition tagLines (tag : string) (field : nat -> string) : string :=
  foldr (fun i rest => tag +:+ field i +:+ LF +:+ rest) EmptyString (seq 1 15).

Definition elevenOfFifteenLcov : string :=
  "SF:src/v.ts" +:+ LF
  +:+ tagLines "DA:" (fun i => JsString.of_nat i +:+ (if (i <=? 11)%nat then ",1" else ",0"))
  +:+ tagLines "FNDA:" (fun i => (if (i <=? 11)%nat then "1,f" else "0,f") +:+ JsString.of_nat i)
  +:+ "end_of_record" +:+ LF.

(** Three records whose four percentages are all the double 99.9. *)
Definition nearlyCovered (name : string) : Coverage.CoverageData.t :=
  let p := JsNumber.round64 (999 # 10) in
  Coverage.CoverageData.mk name p p p p [] [] [] 0 0.

Definition twelveEnvironment : CoverageApi.Environment :=
  CoverageApi.mkEnvironment Examples.twelveHost
    (fun from to => default to (strip (from +:+ "/") to)) false.

End Samples.

(** * Properties *)

(** ** Rounding to the nearest double *)

Section Rounding.
Import JsNumber.
Local Open Scope Q_scope.

Lemma pow2_pos (z : Z) : 0 < 2 ^ z.
Proof. apply Qpower_0_lt. reflexivity. Qed.

Lemma pow2_le (x y : Z) : (x <= y)%Z -> 2 ^ x <= 2 ^ y.
Proof. intros H. apply Qpower_le_compat_l; [exact H | discriminate]. Qed.

Lemma pow2_plus (x y : Z) : 2 ^ (x + y) == 2 ^ x * 2 ^ y.
Proof. apply Qpower_plus. discriminate. Qed.

Lemma pow2_Z (n : Z) : (0 <= n)%Z -> 2 ^ n == inject_Z (2 ^ n).
Proof. intros H. symmetry. apply (Zpower_Qpower 2 n H). Qed.

Lemma rne_bounds (x : Q) : (Qfloor x <= rne x <= Qfloor x + 1)%Z.
Proof.
  unfold rne. destruct (x - inject_Z (Qfloor x) ?= 1 # 2);
    [destruct (Z.even (Qfloor x))| |]; lia.
Qed.

Lemma rne_le (x y : Q) : x <= y -> (rne x <= rne y)%Z.
Proof.
  intros H. pose proof (Qfloor_resp_le x y H) as Hf.
  destruct (Z_lt_le_dec (Qfloor x) (Qfloor y)) as [Hlt|Hge].
  - pose proof (rne_bounds x). pose proof (rne_bounds y). lia.
  - assert (E : Qfloor y = Qfloor x) by lia.
    unfold rne. rewrite E.
    destruct (Qcompare_spec (x - inject_Z (Qfloor x)) (1 # 2)) as [Hx|Hx|Hx];
      destruct (Qcompare_spec (y - inject_Z (Qfloor x)) (1 # 2)) as [Hy|Hy|Hy];
      destruct (Z.even (Qfloor x)); try lia; exfalso; lra.
Qed.

Lemma rne_Z (k : Z) : rne (inject_Z k) = k.
Proof.
  unfold rne. rewrite Qfloor_Z.
  destruct (Qcompare_spec (inject_Z k - inject_Z k) (1 # 2)) as [H|H|H];
    [exfalso; lra | reflexivity | exfalso; lra].
Qed.

Lemma rne_comp (x y : Q) : x == y -> rne x = rne y.
Proof.
  intros H. apply Z.le_antisymm; apply rne_le; rewrite H; apply Qle_refl.
Qed.

Lemma rne_half_down (x : Q) : 0 <= x <= 1 # 2 -> rne x = 0%Z.
Proof.
  intros [H0 H1]. apply Z.le_antisymm.
  - assert (E : rne (1 # 2) = 0%Z) by reflexivity. rewrite <- E. apply rne_le. exact H1.
  - rewrite <- (rne_Z 0). apply rne_le. exact H0.
Qed.

Lemma pow2_frac (x y : Z) :
  (0 <= x)%Z -> (0 <= y)%Z -> 2 ^ (x - y) == (2 ^ x)%Z # Z.to_pos (2 ^ y).
Proof.
  intros Hx Hy. rewrite Qpower_minus by discriminate.
  rewrite (pow2_Z x Hx), (pow2_Z y Hy), Qmake_Qdiv.
  rewrite Z2Pos.id by (apply Z.pow_pos_nonneg; lia). reflexivity.
Qed.

Lemma ilog2_spec (a : Q) : 0 < a -> 2 ^ ilog2 a <= a /\ a < 2 ^ (ilog2 a + 1).
Proof.
  intros Ha. destruct a as [n d].
  assert (Hn : (0 < n)%Z) by (unfold Qlt in Ha; simpl in Ha; lia).
  unfold ilog2. cbn [Qnum Qden].
  pose proof (Z.log2_spec n Hn) as [Hn1 Hn2].
  pose proof (Z.log2_spec (Z.pos d) ltac:(lia)) as [Hd1 Hd2].
  pose proof (Z.log2_nonneg n) as Hln. pose proof (Z.log2_nonneg (Z.pos d)) as Hld.
  set (ln := Z.log2 n) in *. set (ld := Z.log2 (Z.pos d)) in *.
  unfold Z.succ in Hn2, Hd2.
  assert (Hpd : (0 < 2 ^ ld)%Z) by (apply Z.pow_pos_nonneg; lia).
  assert (Hpd' : (0 < 2 ^ (ld + 1))%Z) by (apply Z.pow_pos_nonneg; lia).
  assert (Hpn : (0 < 2 ^ ln)%Z) by (apply Z.pow_pos_nonneg; lia).
  assert (Hup : n # d < 2 ^ (ln - ld + 1)).
  { replace (ln - ld + 1)%Z with ((ln + 1) - ld)%Z by lia.
    rewrite pow2_frac by lia. unfold Qlt. cbn [Qnum Qden].
    rewrite Z2Pos.id by exact Hpd. nia. }
  assert (Hlo : 2 ^ (ln - ld - 1) < n # d).
  { replace (ln - ld - 1)%Z with (ln - (ld + 1))%Z by lia.
    rewrite pow2_frac by lia. unfold Qlt. cbn [Qnum Qden].
    rewrite Z2Pos.id by exact Hpd'. nia. }
  destruct (Qle_bool (2 ^ (ln - ld)) (n # d)) eqn:E.
  - apply Qle_bool_iff in E. split; assumption.
  - split; [apply Qlt_le_weak; exact Hlo|].
    replace (ln - ld - 1 + 1)%Z with (ln - ld)%Z by lia.
    apply Qnot_le_lt. intros Hle. apply Qle_bool_iff in Hle. congruence.
Qed.

Lemma ilog2_le (a b : Q) : 0 < a -> a <= b -> (ilog2 a <= ilog2 b)%Z.
Proof.
  intros Ha Hab. assert (Hb : 0 < b) by lra.
  destruct (ilog2_spec a Ha) as [Ha1 _]. destruct (ilog2_spec b Hb) as [_ Hb2].
  destruct (Z_le_gt_dec (ilog2 a) (ilog2 b)) as [H|H]; [exact H|].
  exfalso. pose proof (pow2_le (ilog2 b + 1) (ilog2 a) ltac:(lia)). lra.
Qed.

Lemma ilog2_unique (a : Q) (e : Z) : 2 ^ e <= a -> a < 2 ^ (e + 1) -> ilog2 a = e.
Proof.
  intros H1 H2. pose proof (pow2_pos e) as He. assert (Ha : 0 < a) by lra.
  destruct (ilog2_spec a Ha) as [Ha1 Ha2].
  destruct (Z_lt_le_dec (ilog2 a) e) as [Hlt|Hge].
  - exfalso. pose proof (pow2_le (ilog2 a + 1) e ltac:(lia)). lra.
  - destruct (Z_lt_le_dec e (ilog2 a)) as [Hlt|Hle]; [|lia].
    exfalso. pose proof (pow2_le (e + 1) (ilog2 a) ltac:(lia)). lra.
Qed.

Lemma ulp_exponent_le (a b : Q) : 0 < a -> a <= b -> (ulp_exponent a <= ulp_exponent b)%Z.
Proof. intros Ha Hab. pose proof (ilog2_le a b Ha Hab). unfold ulp_exponent. lia. Qed.

Lemma rne_nonneg (x : Q) : 0 <= x -> (0 <= rne x)%Z.
Proof. intros H. rewrite <- (rne_Z 0) at 1. apply rne_le. exact H. Qed.

Lemma round_pos_nonneg (a : Q) : 0 <= a -> 0 <= round_pos a.
Proof.
  intros Ha. unfold round_pos. pose proof (pow2_pos (ulp_exponent a)) as Hp.
  apply Qmult_le_0_compat; [|lra].
  change 0 with (inject_Z 0). rewrite <- Zle_Qle. apply rne_nonneg.
  apply Qle_shift_div_l; [exact Hp | lra].
Qed.

(** Rounding at a fixed exponent. *)
Lemma scaled_le (u : Z) (a b : Q) :
  a <= b -> inject_Z (rne (a / 2 ^ u)) * 2 ^ u <= inject_Z (rne (b / 2 ^ u)) * 2 ^ u.
Proof.
  intros H. pose proof (pow2_pos u) as Hp.
  apply Qmult_le_compat_r; [|lra]. rewrite <- Zle_Qle. apply rne_le.
  apply Qle_shift_div_l; [exact Hp|].
  assert (E : a / 2 ^ u * 2 ^ u == a) by (field; lra). rewrite E. exact H.
Qed.

Lemma scaled_power (u k : Z) :
  (u <= k)%Z -> inject_Z (rne (2 ^ k / 2 ^ u)) * 2 ^ u == 2 ^ k.
Proof.
  intros H.
  assert (E : 2 ^ k / 2 ^ u == inject_Z (2 ^ (k - u))).
  { rewrite <- Qpower_minus by discriminate. apply pow2_Z. lia. }
  rewrite (rne_comp _ _ E), rne_Z.
  rewrite <- (pow2_Z (k - u)) by lia. rewrite <- pow2_plus.
  replace (k - u + u)%Z with k by lia. reflexivity.
Qed.

Lemma round_pos_le (a b : Q) : 0 < a -> a <= b -> round_pos a <= round_pos b.
Proof.
  intros Ha Hab. assert (Hb : 0 < b) by lra.
  pose proof (ulp_exponent_le a b Ha Hab) as Hu.
  destruct (ilog2_spec a Ha) as [_ Ha2]. destruct (ilog2_spec b Hb) as [Hb1 _].
  unfold round_pos.
  destruct (Z.eq_dec (ulp_exponent a) (ulp_exponent b)) as [E|Hne].
  - rewrite E. apply scaled_le. exact Hab.
  - unfold ulp_exponent in *.
    set (ea := ilog2 a) in *. set (eb := ilog2 b) in *.
    set (ua := Z.max (ea - 52) (-1074)) in *. set (ub := Z.max (eb - 52) (-1074)) in *.
    assert (Hub : ub = (eb - 52)%Z) by lia.
    assert (Hee : (ea + 1 <= eb)%Z) by lia.
    apply Qle_trans with (2 ^ eb).
    + apply Qle_trans with (2 ^ (ea + 1)); [|apply pow2_le; exact Hee].
      destruct (Z_le_gt_dec ua (ea + 1)) as [Hk|Hk].
      * rewrite <- (scaled_power ua (ea + 1) Hk). apply scaled_le.
        apply Qlt_le_weak. exact Ha2.
      * pose proof (pow2_pos ua) as Hp. pose proof (pow2_pos (ea + 1)) as Hp'.
        assert (Hhalf : 2 ^ (ea + 1) <= (1 # 2) * 2 ^ ua).
        { change (1 # 2) with (2 ^ (-1)). rewrite <- pow2_plus. apply pow2_le. lia. }
        generalize dependent (2 ^ (ea + 1)). generalize dependent (2 ^ ua).
        intros pu Hpu pe Ha2 Hpe Hhalf.
        rewrite (rne_half_down (a / pu)); [change (inject_Z 0) with 0; lra|].
        split; [apply Qle_shift_div_l; lra|].
        apply Qle_shift_div_r; [exact Hpu|]. lra.
    + rewrite <- (scaled_power ub eb ltac:(lia)). apply scaled_le. exact Hb1.
Qed.

Lemma Qnum_pos (q : Q) (p : positive) : Qnum q = Z.pos p -> 0 < q.
Proof. intros H. unfold Qlt. simpl. rewrite H. lia. Qed.

Lemma Qnum_neg (q : Q) (p : positive) : Qnum q = Z.neg p -> q < 0.
Proof. intros H. unfold Qlt. simpl. rewrite H. lia. Qed.

Lemma Qnum_zero (q : Q) : Qnum q = 0%Z -> q == 0.
Proof. intros H. unfold Qeq. simpl. rewrite H. reflexivity. Qed.

Lemma round64_rounded (q : Q) : round64 q == rounded q.
Proof. unfold round64. apply Qred_correct. Qed.

Lemma rounded_le (a b : Q) : a <= b -> rounded a <= rounded b.
Proof.
  intros H. unfold rounded.
  destruct (Qnum a) as [|pa|pa] eqn:Ea; destruct (Qnum b) as [|pb|pb] eqn:Eb;
    try (apply Qnum_pos in Ea); try (apply Qnum_neg in Ea); try (apply Qnum_zero in Ea);
    try (apply Qnum_pos in Eb); try (apply Qnum_neg in Eb); try (apply Qnum_zero in Eb);
    try (exfalso; lra).
  - apply Qle_refl.
  - apply round_pos_nonneg. lra.
  - apply round_pos_le; assumption.
  - pose proof (round_pos_nonneg (- a) ltac:(lra)). lra.
  - pose proof (round_pos_nonneg (- a) ltac:(lra)).
    pose proof (round_pos_nonneg b ltac:(lra)). lra.
  - pose proof (round_pos_le (- b) (- a) ltac:(lra) ltac:(lra)). lra.
Qed.

Lemma round64_le (a b : Q) : a <= b -> round64 a <= round64 b.
Proof. intros H. rewrite !round64_rounded. apply rounded_le. exact H. Qed.

Lemma round64_comp (a b : Q) : a == b -> round64 a = round64 b.
Proof.
  intros H. unfold round64. apply Qred_complete.
  apply Qle_antisym; apply rounded_le; rewrite H; apply Qle_refl.
Qed.

Lemma round64_opp (q : Q) : round64 (- q) == - round64 q.
Proof.
  rewrite !round64_rounded. destruct q as [[|p|p] d].
  - reflexivity.
  - reflexivity.
  - change (rounded (- (Z.neg p # d))) with (round_pos (- (Z.neg p # d))).
    change (rounded (Z.neg p # d)) with (- round_pos (- (Z.neg p # d))).
    symmetry. apply Qopp_involutive.
Qed.

(** Whole numbers up to 2^53 are doubles. *)
Lemma round_pos_Z (k : Z) : (0 < k < 2 ^ 53)%Z -> round_pos (inject_Z k) == inject_Z k.
Proof.
  intros [Hk Hk']. pose proof (Z.log2_spec k Hk) as [H1 H2]. unfold Z.succ in H2.
  pose proof (Z.log2_nonneg k) as Hl.
  assert (Hl' : (Z.log2 k < 53)%Z) by (apply Z.log2_lt_pow2; lia).
  assert (He : ilog2 (inject_Z k) = Z.log2 k).
  { apply ilog2_unique.
    - rewrite pow2_Z by lia. rewrite <- Zle_Qle. exact H1.
    - rewrite pow2_Z by lia. rewrite <- Zlt_Qlt. exact H2. }
  unfold round_pos, ulp_exponent. rewrite He.
  replace (Z.max (Z.log2 k - 52) (-1074)) with (- (52 - Z.log2 k))%Z by lia.
  set (s := (52 - Z.log2 k)%Z). assert (Hs : (0 <= s)%Z) by (subst s; lia).
  assert (E : inject_Z k / 2 ^ (- s) == inject_Z (k * 2 ^ s)).
  { rewrite Qpower_opp, inject_Z_mult, <- (pow2_Z s Hs).
    pose proof (pow2_pos s). field. lra. }
  rewrite (rne_comp _ _ E), rne_Z, inject_Z_mult, <- (pow2_Z s Hs), Qpower_opp.
  pose proof (pow2_pos s). field. lra.
Qed.

Lemma Qred_inject_Z (k : Z) : Qred (inject_Z k) = inject_Z k.
Proof.
  unfold Qred, inject_Z.
  pose proof (Z.ggcd_correct_divisors k 1) as H. pose proof (Z.ggcd_gcd k 1) as Hg.
  destruct (Z.ggcd k 1) as [g [aa bb]]. cbn [fst snd] in *.
  rewrite Z.gcd_1_r in Hg. subst g. destruct H as [Ha Hb].
  assert (Hbb : bb = 1%Z) by lia. assert (Haa : aa = k) by lia.
  rewrite Hbb, Haa. reflexivity.
Qed.

Lemma round64_Z (k : Z) : (- 2 ^ 53 <= k <= 2 ^ 53)%Z -> round64 (inject_Z k) = inject_Z k.
Proof.
  intros Hk.
  rewrite <- (Qred_inject_Z k) at 2. unfold round64. apply Qred_complete.
  destruct (Z.eq_dec k (2 ^ 53)%Z) as [->|H1]; [vm_compute; reflexivity|].
  destruct (Z.eq_dec k (- 2 ^ 53)%Z) as [->|H2]; [vm_compute; reflexivity|].
  unfold rounded. destruct k as [|p|p]; cbn [inject_Z Qnum].
  - reflexivity.
  - apply (round_pos_Z (Z.pos p)). lia.
  - change (- inject_Z (Z.neg p)) with (inject_Z (Z.pos p)).
    rewrite (round_pos_Z (Z.pos p)) by lia. reflexivity.
Qed.

Lemma round64_between (lo hi : Z) (x : Q) :
  (- 2 ^ 53 <= lo)%Z -> (hi <= 2 ^ 53)%Z ->
  inject_Z lo <= x <= inject_Z hi ->
  inject_Z lo <= round64 x <= inject_Z hi.
Proof.
  intros Hlo Hhi [H1 H2].
  assert (Hle : (lo <= hi)%Z) by (rewrite Zle_Qle; lra).
  split.
  - rewrite <- (round64_Z lo) by lia. apply round64_le. exact H1.
  - rewrite <- (round64_Z hi) by lia. apply round64_le. exact H2.
Qed.

Lemma round64_nonneg (x : Q) : 0 <= x -> 0 <= round64 x.
Proof.
  intros H. change 0 with (inject_Z 0) at 1. rewrite <- (round64_Z 0) by lia.
  apply round64_le. exact H.
Qed.

Lemma fadd_bounds (l1 h1 l2 h2 : Z) (a b : Q) :
  inject_Z l1 <= a <= inject_Z h1 -> inject_Z l2 <= b <= inject_Z h2 ->
  (- 2 ^ 53 <= l1 + l2)%Z -> (h1 + h2 <= 2 ^ 53)%Z ->
  inject_Z (l1 + l2) <= fadd a b <= inject_Z (h1 + h2).
Proof.
  intros Ha Hb Hl Hh. unfold fadd. apply round64_between; [exact Hl | exact Hh|].
  rewrite !inject_Z_plus. lra.
Qed.

End Rounding.

(** Bounds a sum of doubles between whole numbers, from the bounds of its
    terms. *)
Ltac bound e :=
  lazymatch goal with
  | _ : (inject_Z _ <= e <= inject_Z _)%Q |- _ => idtac
  | _ =>
      lazymatch e with
      | JsNumber.fadd ?a ?b =>
          bound a; bound b;
          match goal with
          | Ha : (inject_Z ?la <= a <= inject_Z ?ha)%Q,
            Hb : (inject_Z ?lb <= b <= inject_Z ?hb)%Q |- _ =>
              pose proof (fadd_bounds la ha lb hb a b Ha Hb ltac:(lia) ltac:(lia))
          end
      | (?n # 1)%Q =>
          pose proof (conj (Qle_refl e) (Qle_refl e)
                      : (inject_Z n <= e <= inject_Z n)%Q)
      end
  end.

(** ** Risk of one file *)

Section FileRiskFacts.
Import Diff.

Lemma fold_left_invariant {A B : Type} (P : A -> Prop) (f : A -> B -> A) (l : list B) :
  forall a, P a -> (forall a x, P a -> P (f a x)) -> P (fold_left f l a).
Proof.
  induction l as [|x l IH]; intros a Ha Hstep; simpl; [assumption|].
  apply IH; [apply Hstep; assumption | assumption].
Qed.

Lemma riskOfScore_monotone (s1 s2 : Z) :
  s1 <= s2 -> (riskRank (riskOfScore s1) <= riskRank (riskOfScore s2))%nat.
Proof.
  intros H. unfold riskOfScore.
  repeat match goal with
         | |- context [?a <=? ?b] => destruct (Z.leb_spec a b)
         end; simpl; lia.
Qed.

Lemma assessFileRisk_score_risk (f : DiffFile.t) :
  0 <= FileRisk.score (assessFileRisk f) <= 100
  /\ FileRisk.risk (assessFileRisk f) = riskOfScore (FileRisk.score (assessFileRisk f)).
Proof.
  unfold assessFileRisk.
  set (size := if 500 <? _ then _ else _).
  assert (Hsize : 0 <= fst size).
  { subst size. repeat match goal with
                       | |- context [?a <? ?b] => destruct (a <? b)
                       end; simpl; lia. }
  destruct size as [s0 r0]; simpl in Hsize.
  match goal with
  | |- context [fold_left ?step HIGH_RISK_PATTERNS ?a] =>
      assert (Hhigh : 0 <= fst (fold_left step HIGH_RISK_PATTERNS a));
      [ apply fold_left_invariant; [exact Hsize|];
        intros [s r] [p reason] Hs; simpl in *;
        destruct (Regex.test_i _ _); simpl; lia
      | destruct (fold_left step HIGH_RISK_PATTERNS a) as [s1 r1]; simpl in Hhigh ]
  end.
  match goal with
  | |- context [fold_left ?step MEDIUM_RISK_PATTERNS ?a] =>
      assert (Hmed : 0 <= fst (fold_left step MEDIUM_RISK_PATTERNS a));
      [ apply fold_left_invariant; [exact Hhigh|];
        intros [s r] [p reason] Hs; simpl in *;
        destruct (Regex.test_i _ _); simpl; lia
      | destruct (fold_left step MEDIUM_RISK_PATTERNS a) as [s2 r2]; simpl in Hmed ]
  end.
  match goal with
  | |- context [fold_left ?step SAFE_PATTERNS ?a] =>
      assert (Hsafe : 0 <= fst (fold_left step SAFE_PATTERNS a));
      [ apply fold_left_invariant; [exact Hmed|];
        intros [s r] [p reason] Hs; simpl in *;
        destruct (Regex.test_i _ _); simpl; lia
      | destruct (fold_left step SAFE_PATTERNS a) as [s3 r3]; simpl in Hsafe ]
  end.
  destruct (DiffFile.status f), (DiffFile.binary f); simpl; split; try lia; reflexivity.
Qed.

End FileRiskFacts.

(** C7.  For every file the score of [assessFileRisk] lies between 0 and 100,
    its label is the one the thresholds 70, 50 and 25 give to that score, and
    a larger score never gets a milder label. *)
Theorem C7_assessFileRisk_score_and_label :
  forall f : Diff.DiffFile.t,
    0 <= Diff.FileRisk.score (Diff.assessFileRisk f) <= 100
    /\ Diff.FileRisk.risk (Diff.assessFileRisk f)
       = riskOfScore (Diff.FileRisk.score (Diff.assessFileRisk f))
    /\ (forall s1 s2 : Z,
          s1 <= s2 -> (riskRank (riskOfScore s1) <= riskRank (riskOfScore s2))%nat).
Proof.
  intros f. destruct (assessFileRisk_score_risk f) as [Hrange Hlabel].
  split; [exact Hrange|]. split; [exact Hlabel|]. apply riskOfScore_monotone.
Qed.

(** ** Classification *)

Section ClassifyFacts.
Import Diff.

Lemma dominant_scan (es : list (string * nat)) :
  forall (m0 : nat) (c0 : string),
    let r := fold_left dominantStep es (m0, c0) in
    (m0 <= fst r)%nat
    /\ Forall (fun e => (snd e <= fst r)%nat) es
    /\ (r = (m0, c0)
        \/ ((m0 < fst r)%nat
            /\ exists pre post,
                 es = pre ++ (snd r, fst r) :: post
                 /\ Forall (fun e => (snd e < fst r)%nat) pre)).
Proof.
  induction es as [|[cat count] rest IH]; intros m0 c0; simpl.
  - split; [lia|]. split; [constructor|]. left; reflexivity.
  - destruct (Nat.ltb_spec m0 count) as [Hlt|Hge].
    + specialize (IH count cat). simpl in IH.
      destruct IH as (Hle & Hall & Hcase).
      split; [lia|]. split; [constructor; [simpl; lia | exact Hall]|].
      right. split; [|destruct Hcase as [Heq | (Hlt' & pre & post & Hes & Hpre)]].
      * destruct Hcase as [Heq | (Hlt' & _)]; [rewrite Heq; simpl; lia | lia].
      * exists [], rest. rewrite Heq. simpl. split; [reflexivity | constructor].
      * exists ((cat, count) :: pre), post. split; [simpl; rewrite <- Hes; reflexivity|].
        constructor; [simpl; lia | exact Hpre].
    + specialize (IH m0 c0). simpl in IH.
      destruct IH as (Hle & Hall & Hcase).
      split; [lia|]. split; [constructor; [simpl; lia | exact Hall]|].
      destruct Hcase as [Heq | (Hlt' & pre & post & Hes & Hpre)]; [left; exact Heq|].
      right. split; [exact Hlt'|].
      exists ((cat, count) :: pre), post. split; [simpl; rewrite <- Hes; reflexivity|].
      constructor; [simpl; lia | exact Hpre].
Qed.

Lemma classifyDiff_category (files : list DiffFile.t) :
  DiffClassification.category (classifyDiff files) = snd (dominant (countCategories files)).
Proof. unfold classifyDiff. destruct (dominant _) as [maxCount category]. reflexivity. Qed.

Lemma dominant_firstMaximal (c : Categories) :
  firstMaximal (entries c) (snd (dominant c)).
Proof.
  unfold dominant.
  destruct (dominant_scan (entries c) 0%nat "feature") as (_ & Hall & Hcase).
  rewrite Forall_forall in Hall.
  destruct Hcase as [Heq | (Hlt & pre & post & Hes & Hpre)].
  - rewrite Heq in *. simpl in *.
    assert (Hf : feature c = 0%nat).
    { specialize (Hall ("feature", feature c)). simpl in Hall.
      assert (Hin : ("feature", feature c) ∈ entries c) by (unfold entries; set_solver).
      specialize (Hall Hin). lia. }
    exists 0%nat, 0%nat. split; [simpl; rewrite Hf; reflexivity|].
    split; [exact Hall | intros j e Hj; lia].
  - set (r := fold_left dominantStep (entries c) (0%nat, "feature")) in *.
    exists (length pre), (fst r). split; [|split].
    + rewrite Hes. apply list_lookup_middle. reflexivity.
    + exact Hall.
    + intros j e Hj Hlook. rewrite Forall_forall in Hpre. apply Hpre.
      rewrite Hes in Hlook. rewrite lookup_app_l in Hlook by exact Hj.
      eapply list_elem_of_lookup_2. exact Hlook.
Qed.

End ClassifyFacts.

(** C2.  The counters are scanned in the fixed enumeration order and
    [classifyDiff] returns the first category whose counter is the largest:
    every counter before it in the order is strictly smaller and none is
    larger, so among categories that tie at the maximum the earliest wins.  In
    particular a change set that counts one docs file and one security file
    and nothing else is classified "docs". *)
Theorem C2_classifyDiff_tie_break :
  forall files : list Diff.DiffFile.t,
    map fst (Diff.entries (Diff.countCategories files)) = categoryOrder
    /\ firstMaximal (Diff.entries (Diff.countCategories files))
         (Diff.DiffClassification.category (Diff.classifyDiff files))
    /\ (Diff.countCategories files = Diff.mkCategories 0 0 0 0 1 0 0 0 1 ->
        Diff.DiffClassification.category (Diff.classifyDiff files) = "docs").
Proof.
  intros files. split; [reflexivity|]. split.
  - rewrite classifyDiff_category. apply dominant_firstMaximal.
  - intros Hc. rewrite classifyDiff_category, Hc. reflexivity.
Qed.

Lemma C2_classifyDiff_tie_break_witness :
  Diff.countCategories [Examples.login; Examples.readme] = Diff.mkCategories 0 0 0 0 1 0 0 0 1
  /\ Diff.DiffClassification.category (Diff.classifyDiff [Examples.login; Examples.readme])
     = "docs".
Proof.
  split; [vm_compute; reflexivity|].
  apply (proj2 (proj2 (C2_classifyDiff_tie_break [Examples.login; Examples.readme]))).
  vm_compute; reflexivity.
Defined.

(** ** The version-control adapter *)

(** C9.  When either query of the version-control tool reports an error,
    [getGitDiffNumstat] throws an error that carries the tool's message and
    returns no list; a list is returned only when both queries succeeded, and
    it is then the one the loop over all the lines of the first query built. *)
Theorem C9_getGitDiffNumstat_all_or_error :
  forall (sh : Diff.Shell) (ref cwd : option string),
    let rev := Diff.refOrDefault ref in
    let dir := Diff.workingDirectory sh cwd in
    (forall message,
        Diff.execSync sh ("git diff --numstat " +:+ rev) dir = inr message ->
        Diff.getGitDiffNumstat sh ref cwd
        = Throw ("Failed to get git diff numstat: " +:+ message))
    /\ (forall numstat message,
          Diff.execSync sh ("git diff --numstat " +:+ rev) dir = inl numstat ->
          Diff.execSync sh ("git diff --name-status " +:+ rev) dir = inr message ->
          Diff.getGitDiffNumstat sh ref cwd
          = Throw ("Failed to get git diff numstat: " +:+ message))
    /\ (forall files,
          Diff.getGitDiffNumstat sh ref cwd = Ok files ->
          exists numstat nameStatus,
            Diff.execSync sh ("git diff --numstat " +:+ rev) dir = inl numstat
            /\ Diff.execSync sh ("git diff --name-status " +:+ rev) dir = inl nameStatus
            /\ for_of (Diff.nonEmptyLines numstat) []
                 (Diff.numstatLine (Diff.parseNameStatus nameStatus)) = Ok files).
Proof.
  intros sh ref cwd rev dir. unfold Diff.getGitDiffNumstat, Diff.exec.
  fold rev. fold dir. split; [|split].
  - intros message H. rewrite H. reflexivity.
  - intros numstat message H1 H2. rewrite H1. simpl. rewrite H2. reflexivity.
  - intros files H.
    destruct (Diff.execSync sh ("git diff --numstat " +:+ rev) dir) as [numstat|m1];
      [|discriminate H].
    simpl in H.
    destruct (Diff.execSync sh ("git diff --name-status " +:+ rev) dir) as [nameStatus|m2];
      [|discriminate H].
    simpl in H. exists numstat, nameStatus. split; [reflexivity|]. split; [reflexivity|].
    destruct (for_of _ _ _) as [fs|e|]; simpl in H; congruence.
Qed.

Lemma C9_getGitDiffNumstat_all_or_error_witness :
  Diff.getGitDiffNumstat Examples.badRefShell (Some "nowhere") None
  = Throw "Failed to get git diff numstat: fatal: bad revision 'nowhere'".
Proof.
  apply (proj1 (proj2 (C9_getGitDiffNumstat_all_or_error
                         Examples.badRefShell (Some "nowhere") None))
           ("3" +:+ JsString.TAB +:+ "1" +:+ JsString.TAB +:+ "src/a.ts" +:+ JsString.LF)).
  - vm_compute; reflexivity.
  - vm_compute; reflexivity.
Defined.

(** ** Loading and routing *)

Section RouteFacts.
Import Coverage.

Lemma determineRouting_empty (task : string) :
  determineRouting task []
  = Routing.mk "coder" 0.75 "Default routing based on task analysis"
      "No coverage data available".
Proof. reflexivity. Qed.

Lemma determineRouting_testing (task : string) (gaps : list CoverageGap.t) :
  gaps <> [] -> mentionsTesting task = true ->
  Routing.primaryAgent (determineRouting task gaps) = "tester"
  /\ Routing.confidence (determineRouting task gaps) = 0.9%Q.
Proof.
  intros Hne Hkw. unfold determineRouting. unfold mentionsTesting in Hkw.
  destruct gaps as [|g gaps]; [congruence|]. cbn [length Nat.ltb Nat.leb].
  destruct (filter _ (g :: gaps)) as [|first rest]; rewrite Hkw; split; reflexivity.
Qed.

Lemma determineRouting_security (task : string) (gaps : list CoverageGap.t) :
  gaps <> [] -> mentionsTesting task = false -> mentionsSecurity task = true ->
  Routing.primaryAgent (determineRouting task gaps) = "security-architect"
  /\ Routing.confidence (determineRouting task gaps) = 0.88%Q.
Proof.
  intros Hne Hkw Hsec. unfold determineRouting.
  unfold mentionsTesting in Hkw. unfold mentionsSecurity in Hsec.
  destruct gaps as [|g gaps]; [congruence|]. cbn [length Nat.ltb Nat.leb].
  destruct (filter _ (g :: gaps)) as [|first rest]; rewrite Hkw, Hsec; split; reflexivity.
Qed.

(** What [coverageRoute] returns, spelled out from what was loaded. *)
Lemma coverageRoute_loaded (host : Host) (task : string) (options : Options.t)
    (loaded : Loaded.t) :
  loadCoverageData host (projectRootOf host options) = Ok loaded ->
  let all := routeGaps host (projectRootOf host options) (thresholdOf options)
               (Loaded.data loaded) in
  exists r,
    coverageRoute host task options = Ok r
    /\ CoverageRouteResult.gaps r = take 10 all
    /\ CoverageRouteResult.routing r = determineRouting task all
    /\ Metrics.totalGaps (CoverageRouteResult.metrics r) = length all.
Proof.
  intros Hload all. unfold coverageRoute. rewrite Hload. cbn [mbind outcome_bind].
  eexists. split; [reflexivity|]. cbn. repeat split; reflexivity.
Qed.

Lemma coverageRoute_inv (host : Host) (task : string) (options : Options.t)
    (r : CoverageRouteResult.t) :
  coverageRoute host task options = Ok r ->
  exists loaded, loadCoverageData host (projectRootOf host options) = Ok loaded.
Proof.
  unfold coverageRoute.
  destruct (loadCoverageData host (projectRootOf host options)) as [loaded|e|];
    cbn [mbind outcome_bind]; intros H; [|discriminate H|discriminate H].
  exists loaded. reflexivity.
Qed.

Lemma findCoverageReports_nothing (host : Host) (projectRoot : string) :
  Forall (fun p => existsSync host p = false) (conventionalLocations host projectRoot) ->
  findCoverageReports host projectRoot = [].
Proof.
  intros H. unfold conventionalLocations in H.
  repeat match goal with
         | H : Forall _ (_ :: _) |- _ => apply Forall_cons_1 in H; destruct H as [? H]
         end.
  unfold findCoverageReports. cbn [fold_left].
  repeat match goal with
         | E : existsSync host ?p = false |- _ => rewrite E; clear E
         end.
  reflexivity.
Qed.

End RouteFacts.

(** C8.  When the host has no file at any of the six conventional places of a
    report, [loadCoverageData] completes normally with no coverage data, the
    format "none" and no report path. *)
Theorem C8_loadCoverageData_no_report :
  forall (host : Coverage.Host) (projectRoot : string),
    Forall (fun p => Coverage.existsSync host p = false)
      (conventionalLocations host projectRoot) ->
    Coverage.loadCoverageData host projectRoot
    = Ok (Coverage.Loaded.mk [] Coverage.none None).
Proof.
  intros host projectRoot H. unfold Coverage.loadCoverageData.
  rewrite (findCoverageReports_nothing host projectRoot H). reflexivity.
Qed.

Lemma C8_loadCoverageData_no_report_witness :
  Coverage.loadCoverageData Examples.bareHost "/repo"
  = Ok (Coverage.Loaded.mk [] Coverage.none None).
Proof.
  apply (C8_loadCoverageData_no_report Examples.bareHost "/repo").
  repeat constructor.
Defined.

(** C10.  Whenever the coverage data loads, [coverageRoute] returns a result
    whose gap list is the first ten of the gaps found, so at most ten, while
    [metrics.totalGaps] counts all of them. *)
Theorem C10_coverageRoute_gaps_limited :
  forall (host : Coverage.Host) (task : string) (options : Coverage.Options.t)
         (loaded : Coverage.Loaded.t),
    Coverage.loadCoverageData host (Coverage.projectRootOf host options) = Ok loaded ->
    let all := Coverage.routeGaps host (Coverage.projectRootOf host options)
                 (Coverage.thresholdOf options) (Coverage.Loaded.data loaded) in
    exists r,
      Coverage.coverageRoute host task options = Ok r
      /\ Coverage.CoverageRouteResult.gaps r = take 10 all
      /\ (length (Coverage.CoverageRouteResult.gaps r) <= 10)%nat
      /\ Coverage.Metrics.totalGaps (Coverage.CoverageRouteResult.metrics r) = length all.
Proof.
  intros host task options loaded Hload all.
  destruct (coverageRoute_loaded host task options loaded Hload) as (r & Hr & Hg & _ & Ht).
  exists r. split; [exact Hr|]. split; [exact Hg|]. split; [|exact Ht].
  rewrite Hg, length_take. lia.
Qed.

(** ** Coverage gaps *)

Section SortFacts.
Import Coverage JsNumber.
Context {A : Type} (key : A -> Q).

(** The comparator [(a, b) => key(b) - key(a)], and the order it sorts
    into. *)
Local Abbreviation descending := (fun a b : A => key b - key a)%Q.
Local Abbreviation fromHigh := (fun a b : A => key b <= key a)%Q.

Lemma descending_leb (x y : A) :
  leb (descending x y) 0 = true <-> (key y <= key x)%Q.
Proof.
  unfold leb. rewrite Qle_bool_iff. split; intros H; lra.
Qed.

Lemma insertBy_perm (x : A) (l : list A) :
  insertBy descending x l ≡ₚ x :: l.
Proof.
  induction l as [|y l IH]; simpl; [reflexivity|].
  destruct (leb (descending x y) 0); [reflexivity|].
  rewrite IH. apply Permutation_swap.
Qed.

Lemma sortBy_perm (l : list A) : sortBy descending l ≡ₚ l.
Proof.
  induction l as [|x l IH]; simpl; [reflexivity|].
  unfold sortBy in IH. rewrite insertBy_perm, IH. reflexivity.
Qed.

Lemma insertBy_sorted (x : A) (l : list A) :
  StronglySorted fromHigh l -> StronglySorted fromHigh (insertBy descending x l).
Proof.
  induction l as [|y l IH]; intros Hs; simpl.
  - constructor; [constructor | constructor].
  - destruct (leb (descending x y) 0) eqn:E.
    + apply descending_leb in E.
      constructor; [exact Hs|].
      apply StronglySorted_inv in Hs. destruct Hs as [_ Hy].
      constructor; [exact E|].
      eapply Forall_impl; [exact Hy|]. intros z Hz. simpl in *.
      eapply Qle_trans; eassumption.
    + assert (Hxy : (key x <= key y)%Q).
      { destruct (Qlt_le_dec (key y) (key x)) as [Hlt|Hle]; [|exact Hle].
        apply Qlt_le_weak in Hlt. apply descending_leb in Hlt. congruence. }
      apply StronglySorted_inv in Hs. destruct Hs as [Hl Hy].
      constructor; [apply IH; exact Hl|].
      rewrite insertBy_perm. constructor; [exact Hxy | exact Hy].
Qed.

Lemma sortBy_sorted (l : list A) : StronglySorted fromHigh (sortBy descending l).
Proof.
  induction l as [|x l IH]; simpl; [constructor|].
  apply insertBy_sorted. exact IH.
Qed.

End SortFacts.

Section GapFacts.
Import Coverage JsNumber.

Lemma ltb_lt (a b : Q) : ltb a b = true <-> (a < b)%Q.
Proof.
  unfold ltb. rewrite negb_true_iff. split; intros H.
  - apply Qnot_le_lt. intros Hle. apply Qle_bool_iff in Hle. congruence.
  - destruct (Qle_bool b a) eqn:E; [|reflexivity].
    apply Qle_bool_iff in E. exfalso. eapply Qlt_not_le; eassumption.
Qed.

Lemma ltb_leb (a b : Q) : ltb a b = negb (leb b a).
Proof. reflexivity. Qed.

(** The loop of [analyzeCoverageGaps]: one gap for each record whose mean
    is below the threshold, in the order of the records. *)
Lemma gaps_loop (host : Host) (projectRoot : string) (threshold : Q)
    (coverageData : list CoverageData.t) :
  forall acc,
    fold_left
      (fun gaps data =>
         if leb threshold (averageCoverage data) then gaps
         else gaps ++ [gapOf host projectRoot threshold data])
      coverageData acc
    = acc ++ map (gapOf host projectRoot threshold)
               (filter (fun d => ltb (averageCoverage d) threshold = true) coverageData).
Proof.
  induction coverageData as [|d l IH]; intros acc; simpl.
  - rewrite app_nil_r. reflexivity.
  - rewrite IH, filter_cons. destruct (decide _) as [Hlt|Hge].
    + rewrite ltb_leb in Hlt. destruct (leb threshold (averageCoverage d)); [discriminate|].
      simpl. rewrite <- app_assoc. reflexivity.
    + rewrite ltb_leb in Hge. destruct (leb threshold (averageCoverage d)); [reflexivity|].
      simpl in Hge. congruence.
Qed.

Lemma analyzeCoverageGaps_perm (host : Host) (coverageData : list CoverageData.t)
    (projectRoot : string) (threshold : Q) :
  analyzeCoverageGaps host coverageData projectRoot threshold
  ≡ₚ map (gapOf host projectRoot threshold)
       (filter (fun d => ltb (averageCoverage d) threshold = true) coverageData).
Proof.
  unfold analyzeCoverageGaps. rewrite gaps_loop. simpl.
  apply (sortBy_perm CoverageGap.priority).
Qed.

Lemma dedupe_NoDup (l : list string) : NoDup (dedupe String.eqb l).
Proof.
  induction l as [|x l IH]; simpl; [constructor|].
  apply NoDup_cons. split.
  - intros Hin. apply list_elem_of_filter in Hin. destruct Hin as [Hne _].
    rewrite String.eqb_refl in Hne. discriminate.
  - apply NoDup_filter. exact IH.
Qed.

Lemma suggestAgentsForFile_bounded (host : Host) (filePath : string)
    (coverageData : CoverageData.t) (gapType : GapType) :
  (length (suggestAgentsForFile host filePath coverageData gapType) <= 4)%nat
  /\ NoDup (suggestAgentsForFile host filePath coverageData gapType).
Proof.
  unfold suggestAgentsForFile.
  destruct (_ || _)%bool.
  - split; [simpl; lia|].
    apply NoDup_cons. split; [|apply NoDup_singleton].
    intros Hin. apply list_elem_of_singleton in Hin. discriminate Hin.
  - split; [rewrite length_take; lia|].
    eapply sublist_NoDup; [apply dedupe_NoDup | apply sublist_take].
Qed.

End GapFacts.


(** C6.  The list [analyzeCoverageGaps] returns is in non-increasing order of
    priority, and every gap in it suggests at most four agents, no agent
    twice. *)
Theorem C6_analyzeCoverageGaps_sorted_agents_bounded :
  forall (host : Coverage.Host) (coverageData : list Coverage.CoverageData.t)
         (projectRoot : string) (threshold : Q),
    StronglySorted
      (fun a b => (Coverage.CoverageGap.priority b <= Coverage.CoverageGap.priority a)%Q)
      (Coverage.analyzeCoverageGaps host coverageData projectRoot threshold)
    /\ Forall
         (fun g =>
            (length (Coverage.CoverageGap.suggestedAgents g) <= 4)%nat
            /\ NoDup (Coverage.CoverageGap.suggestedAgents g))
         (Coverage.analyzeCoverageGaps host coverageData projectRoot threshold).
Proof.
  intros host coverageData projectRoot threshold. split.
  - unfold Coverage.analyzeCoverageGaps. apply (sortBy_sorted Coverage.CoverageGap.priority).
  - rewrite Forall_forall. intros g Hg.
    rewrite (analyzeCoverageGaps_perm host coverageData projectRoot threshold) in Hg.
    apply list_elem_of_fmap in Hg. destruct Hg as (d & -> & _).
    apply suggestAgentsForFile_bounded.
Qed.

(** ** The parsers *)

Section ParserFacts.
Import Coverage JsString.

Lemma bind_Ok {A B : Type} (m : outcome A) (k : A -> outcome B) (b : B) :
  (m ≫= k) = Ok b -> exists a, m = Ok a /\ k a = Ok b.
Proof.
  destruct m as [a|e|]; cbn [mbind outcome_bind]; intros H;
    [exists a; split; [reflexivity | exact H] | discriminate H | discriminate H].
Qed.

Lemma percentage_none (hit : nat) : percentage hit 0 = Ok 100%Q.
Proof. reflexivity. Qed.

(** *** LCOV: the counters count the tagged lines *)

Lemma lcovDA_counters (host : Host) (st st' : LcovState) (line : string) :
  lcovDA host st line = Ok st' ->
  counters st' = (S (linesFound st), branchesFound st, functionsFound st).
Proof.
  unfold lcovDA. destruct (positive _).
  - intros H. injection H as <-. reflexivity.
  - intros H. apply bind_Ok in H. destruct H as (n & _ & H).
    injection H as <-. reflexivity.
Qed.

Lemma lcovBRDA_counters (st st' : LcovState) (line : string) :
  lcovBRDA st line = Ok st' ->
  counters st' = (linesFound st, S (branchesFound st), functionsFound st).
Proof.
  unfold lcovBRDA. destruct (positive _).
  - intros H. injection H as <-. reflexivity.
  - intros H. apply bind_Ok in H. destruct H as (n & _ & H).
    injection H as <-. reflexivity.
Qed.

Lemma lcovFNDA_counters (st st' : LcovState) (line : string) :
  lcovFNDA st line = Ok st' ->
  counters st' = (linesFound st, branchesFound st, S (functionsFound st)).
Proof.
  unfold lcovFNDA. destruct (positive _).
  - intros H. injection H as <-. reflexivity.
  - intros H. apply bind_Ok in H. destruct H as (n & _ & H).
    injection H as <-. reflexivity.
Qed.

Lemma lcovLF_counters (st st' : LcovState) (line : string) :
  lcovLF st line = Ok st' -> counters st' = counters st.
Proof.
  unfold lcovLF. intros H. apply bind_Ok in H. destruct H as (n & _ & H).
  injection H as <-. reflexivity.
Qed.

Lemma lcovLH_counters (st st' : LcovState) (line : string) :
  lcovLH st line = Ok st' -> counters st' = counters st.
Proof.
  unfold lcovLH. intros H. apply bind_Ok in H. destruct H as (n & _ & H).
  injection H as <-. reflexivity.
Qed.

Lemma lcovLine_counters (host : Host) (st st' : LcovState) (line : string) :
  lcovLine host st line = Ok st' ->
  counters st'
  = ((linesFound st + unit_of "DA:" line)%nat,
     (branchesFound st + unit_of "BRDA:" line)%nat,
     (functionsFound st + unit_of "FNDA:" line)%nat).
Proof.
  unfold lcovLine, whenTagged, unit_of. intros H.
  apply bind_Ok in H. destruct H as (s1 & H1 & H).
  apply bind_Ok in H. destruct H as (s2 & H2 & H).
  apply bind_Ok in H. destruct H as (s3 & H3 & H).
  apply bind_Ok in H. destruct H as (s4 & H4 & H5).
  assert (E5 : counters st' = counters s4).
  { destruct (startsWith line "LH:"); [eapply lcovLH_counters; eassumption|].
    injection H5 as <-. reflexivity. }
  assert (E4 : counters s4 = counters s3).
  { destruct (startsWith line "LF:"); [eapply lcovLF_counters; eassumption|].
    injection H4 as <-. reflexivity. }
  rewrite E5, E4. clear E5 E4 H5 H4.
  destruct (startsWith line "FNDA:");
    [apply lcovFNDA_counters in H3 | injection H3 as <-];
    (destruct (startsWith line "BRDA:");
     [apply lcovBRDA_counters in H2 | injection H2 as <-]);
    (destruct (startsWith line "DA:");
     [apply lcovDA_counters in H1 | injection H1 as <-]);
    unfold counters in *; simplify_eq; f_equal; try f_equal; lia.
Qed.

Lemma units_cons (tag line : string) (lines : list string) :
  units tag (line :: lines) = (unit_of tag line + units tag lines)%nat.
Proof.
  unfold units, unit_of. rewrite filter_cons.
  destruct (decide _) as [E|E].
  - rewrite E. reflexivity.
  - destruct (startsWith line tag); [congruence | reflexivity].
Qed.

Lemma lcov_loop_counters (host : Host) (lines : list string) :
  forall st st',
    for_of lines st (lcovLine host) = Ok st' ->
    counters st'
    = ((linesFound st + units "DA:" lines)%nat,
       (branchesFound st + units "BRDA:" lines)%nat,
       (functionsFound st + units "FNDA:" lines)%nat).
Proof.
  induction lines as [|line lines IH]; intros st st' H; simpl in H.
  - injection H as <-. unfold counters, units. simpl. f_equal; [f_equal|]; lia.
  - apply bind_Ok in H. destruct H as (s1 & H1 & H).
    apply lcovLine_counters in H1. apply IH in H.
    rewrite !units_cons. unfold counters in *. simplify_eq.
    f_equal; [f_equal|]; lia.
Qed.

Lemma lcovRecord_vacuous (host : Host) (record : string) (d : CoverageData.t) :
  lcovRecord host record = Ok (Some d) ->
  (tagged "DA:" record = 0%nat ->
   CoverageData.lineCoverage d = 100%Q /\ CoverageData.statementCoverage d = 100%Q)
  /\ (tagged "BRDA:" record = 0%nat -> CoverageData.branchCoverage d = 100%Q)
  /\ (tagged "FNDA:" record = 0%nat -> CoverageData.functionCoverage d = 100%Q).
Proof.
  unfold lcovRecord, tagged. destruct (negb _); [discriminate|].
  destruct (find _ _) as [sfLine|]; [|discriminate].
  intros H. apply bind_Ok in H. destruct H as (st & Hloop & H).
  apply lcov_loop_counters in Hloop. unfold counters, units in Hloop. simpl in Hloop.
  injection Hloop as HL HB HF.
  apply bind_Ok in H. destruct H as (lineCoverage & Hline & H).
  apply bind_Ok in H. destruct H as (branchCoverage & Hbranch & H).
  apply bind_Ok in H. destruct H as (functionCoverage & Hfunction & H).
  injection H as <-. simpl.
  rewrite HL in Hline. rewrite HB in Hbranch. rewrite HF in Hfunction.
  split; [|split]; intros E.
  - rewrite E, percentage_none in Hline. injection Hline as <-. split; reflexivity.
  - rewrite E, percentage_none in Hbranch. injection Hbranch as <-. reflexivity.
  - rewrite E, percentage_none in Hfunction. injection Hfunction as <-. reflexivity.
Qed.

Lemma parseLcov_records (host : Host) (records : list string) :
  forall acc files d,
    for_of records acc
      (fun files record =>
         data ← lcovRecord host record;
         Ok (match data with
             | Some d => files ++ [d]
             | None => files
             end)) = Ok files ->
    d ∈ files ->
    d ∈ acc \/ exists record, record ∈ records /\ lcovRecord host record = Ok (Some d).
Proof.
  induction records as [|record records IH]; intros acc files d H Hin; simpl in H.
  - injection H as <-. left. exact Hin.
  - apply bind_Ok in H. destruct H as (acc' & Hrec & H).
    apply bind_Ok in Hrec. destruct Hrec as (data & Hdata & Hacc).
    injection Hacc as <-.
    destruct (IH _ _ _ H Hin) as [Hacc | (r & Hr & Hd)].
    + destruct data as [d'|]; [|left; exact Hacc].
      apply elem_of_app in Hacc. destruct Hacc as [Hacc|Hnew]; [left; exact Hacc|].
      apply list_elem_of_singleton in Hnew. subst d'.
      right. exists record. split; [left | exact Hdata].
    + right. exists r. split; [right; exact Hr | exact Hd].
Qed.

End ParserFacts.

Section IstanbulFacts.
Import Coverage JsString.

Ltac same_value :=
  match goal with
  | H1 : ?x = Ok ?a, H2 : ?x = Ok ?b |- _ =>
      rewrite H1 in H2; injection H2 as <-
  end.

Lemma detailedStatements_vacuous (fileData : jsval) (r : Q * Q * Q * Q * list Q) :
  detailedStatements fileData = Ok r ->
  present fileData "s" "statementMap" -> noEntry fileData "s" ->
  r = (100%Q, 100%Q, 0%Q, 0%Q, []).
Proof.
  intros H (h & p & Hh & Hp & Th & Tp) (h' & Hh' & He). same_value.
  unfold detailedStatements in H. rewrite Hh, Hp in H. cbn [mbind outcome_bind] in H.
  rewrite Th, Tp, He in H. cbn in H. injection H as <-. reflexivity.
Qed.

Lemma branch_loop_empty (branchMap : jsval) (es : list (string * jsval)) :
  Forall (fun e => iterate (snd e) = Ok []) es ->
  forall st, for_of es st (branchStep branchMap) = Ok st.
Proof.
  induction 1 as [|[branchId hits] es Hhits _ IH]; intros st; simpl; [reflexivity|].
  simpl in Hhits. rewrite Hhits. cbn [mbind outcome_bind for_of]. apply IH.
Qed.

Lemma detailedBranches_vacuous (fileData : jsval) (r : Q * list UncoveredBranch.t) :
  detailedBranches fileData = Ok r ->
  present fileData "b" "branchMap" -> noBranchHit fileData ->
  r = (100%Q, []).
Proof.
  intros H (h & p & Hh & Hp & Th & Tp) (h' & es & Hh' & He & Hes). same_value.
  unfold detailedBranches in H. rewrite Hh, Hp in H. cbn [mbind outcome_bind] in H.
  rewrite Th, Tp, He in H. cbn [andb mbind outcome_bind] in H.
  rewrite (branch_loop_empty p es Hes) in H. cbn in H. injection H as <-. reflexivity.
Qed.

Lemma detailedFunctions_vacuous (fileData : jsval) (r : Q * list string) :
  detailedFunctions fileData = Ok r ->
  present fileData "f" "fnMap" -> noEntry fileData "f" ->
  r = (100%Q, []).
Proof.
  intros H (h & p & Hh & Hp & Th & Tp) (h' & Hh' & He). same_value.
  unfold detailedFunctions in H. rewrite Hh, Hp in H. cbn [mbind outcome_bind] in H.
  rewrite Th, Tp, He in H. cbn in H. injection H as <-. reflexivity.
Qed.

Lemma istanbulDetailed_vacuous (name : string) (fileData : jsval) (d : CoverageData.t) :
  istanbulDetailed name fileData = Ok d ->
  (present fileData "s" "statementMap" -> noEntry fileData "s" ->
   CoverageData.statementCoverage d = 100%Q /\ CoverageData.lineCoverage d = 100%Q)
  /\ (present fileData "b" "branchMap" -> noBranchHit fileData ->
      CoverageData.branchCoverage d = 100%Q)
  /\ (present fileData "f" "fnMap" -> noEntry fileData "f" ->
      CoverageData.functionCoverage d = 100%Q).
Proof.
  unfold istanbulDetailed. intros H.
  apply bind_Ok in H. destruct H as ([[[[sc lc] tl] cl] ul] & Hs & H).
  apply bind_Ok in H. destruct H as ([bc ub] & Hb & H).
  apply bind_Ok in H. destruct H as ([fc uf] & Hf & H).
  injection H as <-. simpl. split; [|split]; intros Hp Hn.
  - pose proof (detailedStatements_vacuous _ _ Hs Hp Hn) as E. injection E as -> -> _ _ _.
    split; reflexivity.
  - pose proof (detailedBranches_vacuous _ _ Hb Hp Hn) as E. injection E as -> _. reflexivity.
  - pose proof (detailedFunctions_vacuous _ _ Hf Hp Hn) as E. injection E as -> _. reflexivity.
Qed.

Lemma istanbulEntry_detailed (filePath : string) (fileData : jsval) (d : CoverageData.t) :
  istanbulEntry filePath fileData = Ok d -> ~ summaryShape fileData ->
  exists name, istanbulDetailed name fileData = Ok d.
Proof.
  unfold istanbulEntry. intros H Hns.
  apply bind_Ok in H. destruct H as (path & _ & H).
  apply bind_Ok in H. destruct H as (name & _ & H).
  apply bind_Ok in H. destruct H as (lines & Hlines & H).
  apply bind_Ok in H. destruct H as (pct & Hpct & H).
  destruct (truthy_v lines) eqn:Tl; simpl in H; [|exists name; exact H].
  destruct pct as [| | |q| | |]; simpl in H; try (exists name; exact H).
  exfalso. apply Hns. exists lines, q. auto.
Qed.

Lemma istanbulEntry_summary (filePath : string) (fileData lines : jsval) (q : Q)
    (d : CoverageData.t) :
  istanbulEntry filePath fileData = Ok d ->
  get fileData "lines" = Ok lines -> truthy_v lines = true ->
  get lines "pct" = Ok (JNum q) ->
  exists name, istanbulSummary name fileData lines (JNum q) = Ok d.
Proof.
  unfold istanbulEntry. intros H Hlines Tl Hpct.
  apply bind_Ok in H. destruct H as (path & _ & H).
  apply bind_Ok in H. destruct H as (name & _ & H).
  rewrite Hlines in H. cbn [mbind outcome_bind] in H.
  rewrite Tl, Hpct in H. cbn [mbind outcome_bind] in H. simpl in H.
  exists name. exact H.
Qed.

Lemma pctOr_absent (fileData : jsval) (metric : string) (fallback : jsval) :
  get fileData metric = Ok JUndefined -> pctOr fileData metric fallback = Ok fallback.
Proof. intros H. unfold pctOr. rewrite H. reflexivity. Qed.

Lemma pctOr_present (fileData section : jsval) (metric : string) (fallback : jsval)
    (p : Q) :
  get fileData metric = Ok section -> get section "pct" = Ok (JNum p) ->
  pctOr fileData metric fallback = Ok (JNum p).
Proof.
  intros Hm Hp. unfold pctOr. rewrite Hm. cbn [mbind outcome_bind].
  destruct section; try discriminate Hp; cbn [nullish]; rewrite Hp; reflexivity.
Qed.

Lemma pctOr_reported (fileData : jsval) (metric : string) (fallback stored : Q) :
  (v ← pctOr fileData metric (JNum fallback); asNumber v) = Ok stored ->
  (get fileData metric = Ok JUndefined -> stored = fallback)
  /\ (forall p, reported fileData metric p -> stored = p).
Proof.
  intros H. split.
  - intros Habs. rewrite (pctOr_absent _ _ _ Habs) in H. cbn in H. congruence.
  - intros p (section & Hm & Hp). rewrite (pctOr_present _ _ _ _ _ Hm Hp) in H.
    cbn in H. congruence.
Qed.

(** What the summary branch stores: each percentage is the [pct] of its
    section when the report gives one, the fallback when the section is
    absent; the two line counts are the ones of [lines]. *)
Lemma istanbulSummary_copies (name : string) (fileData lines : jsval) (q : Q)
    (d : CoverageData.t) :
  istanbulSummary name fileData lines (JNum q) = Ok d ->
  CoverageData.lineCoverage d = q
  /\ (get fileData "branches" = Ok JUndefined -> CoverageData.branchCoverage d = 100%Q)
  /\ (get fileData "functions" = Ok JUndefined -> CoverageData.functionCoverage d = 100%Q)
  /\ (get fileData "statements" = Ok JUndefined -> CoverageData.statementCoverage d = q)
  /\ (forall p, reported fileData "statements" p -> CoverageData.statementCoverage d = p)
  /\ (forall p, reported fileData "branches" p -> CoverageData.branchCoverage d = p)
  /\ (forall p, reported fileData "functions" p -> CoverageData.functionCoverage d = p)
  /\ get lines "total" = Ok (JNum (CoverageData.totalLines d))
  /\ get lines "covered" = Ok (JNum (CoverageData.coveredLines d)).
Proof.
  unfold istanbulSummary. cbn [asNumber mbind outcome_bind]. intros H.
  apply bind_Ok in H. destruct H as (sc & Hs & H).
  apply bind_Ok in H. destruct H as (bc & Hb & H).
  apply bind_Ok in H. destruct H as (fc & Hf & H).
  apply bind_Ok in H. destruct H as (tl & Ht & H).
  apply bind_Ok in H. destruct H as (cl & Hc & H).
  injection H as <-. cbn [CoverageData.lineCoverage CoverageData.statementCoverage
    CoverageData.branchCoverage CoverageData.functionCoverage CoverageData.totalLines
    CoverageData.coveredLines].
  destruct (pctOr_reported _ _ _ _ Hs) as [Hs0 Hs1].
  destruct (pctOr_reported _ _ _ _ Hb) as [Hb0 Hb1].
  destruct (pctOr_reported _ _ _ _ Hf) as [Hf0 Hf1].
  repeat split; try assumption.
  - apply bind_Ok in Ht. destruct Ht as (v & Hv & Ht).
    destruct v; try discriminate Ht. injection Ht as ->. exact Hv.
  - apply bind_Ok in Hc. destruct Hc as (v & Hv & Hc).
    destruct v; try discriminate Hc. injection Hc as ->. exact Hv.
Qed.

(** Every record [parseIstanbulJson] returns comes from an entry of the
    report other than [total]. *)
Lemma istanbulLoop_entries (es : list (string * jsval)) :
  forall acc d,
    d ∈ fst (istanbulLoop es acc) ->
    d ∈ acc
    \/ exists filePath fileData,
         (filePath, fileData) ∈ es /\ filePath <> "total"
         /\ istanbulEntry filePath fileData = Ok d.
Proof.
  induction es as [|[filePath fileData] es IH]; intros acc d Hin; simpl in Hin.
  - left. exact Hin.
  - destruct (String.eqb_spec filePath "total") as [Ht|Hnt].
    + destruct (IH _ _ Hin) as [Hacc | (fp & fd & Hm & Hne & He)]; [left; exact Hacc|].
      right. exists fp, fd. split; [right; exact Hm | auto].
    + destruct (istanbulEntry filePath fileData) as [data|e|] eqn:E; simpl in Hin;
        [|left; exact Hin|left; exact Hin].
      destruct (IH _ _ Hin) as [Hacc | (fp & fd & Hm & Hne & He)].
      * apply elem_of_app in Hacc. destruct Hacc as [Hacc|Hnew]; [left; exact Hacc|].
        apply list_elem_of_singleton in Hnew. subst data.
        right. exists filePath, fileData. split; [left | auto].
      * right. exists fp, fd. split; [right; exact Hm | auto].
Qed.

Lemma istanbulFiles_entries (coverage : jsval) (files : list CoverageData.t)
    (d : CoverageData.t) :
  istanbulFiles coverage = Ok files -> d ∈ files ->
  exists es filePath fileData,
    entries coverage = Ok es /\ (filePath, fileData) ∈ es /\ filePath <> "total"
    /\ istanbulEntry filePath fileData = Ok d.
Proof.
  unfold istanbulFiles, istanbulBody. intros H Hin.
  destruct (entries coverage) as [es|e|] eqn:E.
  - assert (Hfst : files = fst (istanbulLoop es [])).
    { destruct (istanbulLoop es []) as [fs [u|e|]]; simpl; congruence. }
    rewrite Hfst in Hin.
    destruct (istanbulLoop_entries es [] d Hin) as [Hnil | (fp & fd & Hm & Hne & He)].
    + apply elem_of_nil in Hnil. contradiction.
    + exists es, fp, fd. auto.
  - injection H as <-. apply elem_of_nil in Hin. contradiction.
  - discriminate H.
Qed.

(** When the turn of an entry throws, the loop stops with the records of
    the entries before it. *)
Lemma istanbulLoop_keeps_prefix (pre post : list (string * jsval))
    (filePath : string) (fileData : jsval) (e : string) (ds : list CoverageData.t) :
  Forall2 (fun entry d => fst entry <> "total" /\ istanbulEntry (fst entry) (snd entry) = Ok d)
    pre ds ->
  filePath <> "total" -> istanbulEntry filePath fileData = Throw e ->
  forall acc,
    istanbulLoop (pre ++ (filePath, fileData) :: post) acc = (acc ++ ds, Throw e).
Proof.
  intros Hpre Hnt Hthrow. induction Hpre as [|[p v] d pre ds [Hp Hd] _ IH]; intros acc.
  - simpl. destruct (String.eqb_spec filePath "total") as [Ht|_]; [contradiction|].
    rewrite Hthrow, app_nil_r. reflexivity.
  - simpl in *. destruct (String.eqb_spec p "total") as [Ht|_]; [contradiction|].
    rewrite Hd, IH, <- app_assoc. reflexivity.
Qed.

(** No exception leaves [parseIstanbulJson], and a text that is not JSON
    gives the empty list. *)
Lemma parseIstanbulJson_never_throws (host : Host) (jsonContent : string) (e : string) :
  parseIstanbulJson host jsonContent <> Throw e.
Proof.
  unfold parseIstanbulJson, istanbulFiles.
  destruct (JSON_parse host jsonContent) as [coverage|]; [|discriminate].
  destruct (istanbulBody coverage) as [files [u|e'|]]; discriminate.
Qed.

Lemma parseIstanbulJson_invalid_json (host : Host) (jsonContent : string) :
  JSON_parse host jsonContent = None -> parseIstanbulJson host jsonContent = Ok [].
Proof. intros H. unfold parseIstanbulJson. rewrite H. reflexivity. Qed.

End IstanbulFacts.

(** C3 (as amended).  In [parseLcov] a metric without measured units gets
    exactly 100: a record without [DA:] line has line and statement coverage
    100, without [BRDA:] line branch coverage 100, without [FNDA:] line
    function coverage 100.  In [parseIstanbulJson] every record comes from an
    entry of the report; for an entry in detailed shape a metric whose hit map
    and position map are both there and hold no hit gets exactly 100; for an
    entry in summary shape the four percentages and the two line counts are
    the ones the report gives, whatever its totals: the line percentage is
    [lines.pct], each of the statement, branch and function percentages is
    the [pct] of its section when that is a number, an absent [branches] or
    [functions] section gives 100 and an absent [statements] section gives
    [lines.pct]. *)
Theorem C3_zero_units_give_100 :
  (forall (host : Coverage.Host) (lcovContent : string)
          (files : list Coverage.CoverageData.t) (d : Coverage.CoverageData.t),
      Coverage.parseLcov host lcovContent = Ok files -> d ∈ files ->
      exists record,
        record ∈ JsString.split lcovContent "end_of_record"
        /\ Coverage.lcovRecord host record = Ok (Some d)
        /\ (tagged "DA:" record = 0%nat ->
            Coverage.CoverageData.lineCoverage d = 100%Q
            /\ Coverage.CoverageData.statementCoverage d = 100%Q)
        /\ (tagged "BRDA:" record = 0%nat -> Coverage.CoverageData.branchCoverage d = 100%Q)
        /\ (tagged "FNDA:" record = 0%nat ->
            Coverage.CoverageData.functionCoverage d = 100%Q))
  /\ (forall (coverage : Coverage.jsval) (files : list Coverage.CoverageData.t)
             (d : Coverage.CoverageData.t),
        Coverage.istanbulFiles coverage = Ok files -> d ∈ files ->
        exists es filePath fileData,
          Coverage.entries coverage = Ok es /\ (filePath, fileData) ∈ es
          /\ Coverage.istanbulEntry filePath fileData = Ok d
          /\ (~ summaryShape fileData ->
              (present fileData "s" "statementMap" -> noEntry fileData "s" ->
               Coverage.CoverageData.statementCoverage d = 100%Q
               /\ Coverage.CoverageData.lineCoverage d = 100%Q)
              /\ (present fileData "b" "branchMap" -> noBranchHit fileData ->
                  Coverage.CoverageData.branchCoverage d = 100%Q)
              /\ (present fileData "f" "fnMap" -> noEntry fileData "f" ->
                  Coverage.CoverageData.functionCoverage d = 100%Q))
          /\ (forall lines q,
                Coverage.get fileData "lines" = Ok lines ->
                Coverage.truthy_v lines = true ->
                Coverage.get lines "pct" = Ok (Coverage.JNum q) ->
                Coverage.CoverageData.lineCoverage d = q
                /\ (Coverage.get fileData "branches" = Ok Coverage.JUndefined ->
                    Coverage.CoverageData.branchCoverage d = 100%Q)
                /\ (Coverage.get fileData "functions" = Ok Coverage.JUndefined ->
                    Coverage.CoverageData.functionCoverage d = 100%Q)
                /\ (Coverage.get fileData "statements" = Ok Coverage.JUndefined ->
                    Coverage.CoverageData.statementCoverage d = q)
                /\ (forall p, reported fileData "statements" p ->
                    Coverage.CoverageData.statementCoverage d = p)
                /\ (forall p, reported fileData "branches" p ->
                    Coverage.CoverageData.branchCoverage d = p)
                /\ (forall p, reported fileData "functions" p ->
                    Coverage.CoverageData.functionCoverage d = p)
                /\ Coverage.get lines "total"
                   = Ok (Coverage.JNum (Coverage.CoverageData.totalLines d))
                /\ Coverage.get lines "covered"
                   = Ok (Coverage.JNum (Coverage.CoverageData.coveredLines d)))).
Proof.
  split.
  - intros host lcovContent files d H Hin. unfold Coverage.parseLcov in H.
    destruct (parseLcov_records host _ _ _ _ H Hin) as [Hnil | (record & Hr & Hd)].
    + apply elem_of_nil in Hnil. contradiction.
    + exists record. split; [exact Hr|]. split; [exact Hd|].
      exact (lcovRecord_vacuous host record d Hd).
  - intros coverage files d H Hin.
    destruct (istanbulFiles_entries coverage files d H Hin)
      as (es & filePath & fileData & He & Hm & _ & Hd).
    exists es, filePath, fileData. split; [exact He|]. split; [exact Hm|].
    split; [exact Hd|]. split.
    + intros Hns. destruct (istanbulEntry_detailed _ _ _ Hd Hns) as (name & Hdet).
      apply (istanbulDetailed_vacuous name). exact Hdet.
    + intros lines q Hl Tl Hp.
      destruct (istanbulEntry_summary _ _ _ _ _ Hd Hl Tl Hp) as (name & Hsum).
      apply (istanbulSummary_copies name fileData lines). exact Hsum.
Qed.

Lemma C3_zero_units_give_100_witness :
  (exists d,
      Coverage.parseLcov Examples.bareHost Examples.emptyRecordLcov = Ok [d]
      /\ tagged "DA:" ("SF:src/b.ts" +:+ JsString.LF) = 0%nat
      /\ Coverage.CoverageData.lineCoverage d = 100%Q
      /\ Coverage.CoverageData.statementCoverage d = 100%Q)
  /\ (exists d,
        Coverage.istanbulFiles Examples.emptyMapsReport = Ok [d]
        /\ Coverage.CoverageData.statementCoverage d = 100%Q
        /\ Coverage.CoverageData.branchCoverage d = 100%Q
        /\ Coverage.CoverageData.functionCoverage d = 100%Q)
  /\ (exists d,
        Coverage.istanbulFiles Samples.summaryReport = Ok [d]
        /\ Coverage.CoverageData.lineCoverage d = 80%Q
        /\ Coverage.CoverageData.statementCoverage d = 75%Q
        /\ Coverage.CoverageData.branchCoverage d = 25%Q
        /\ Coverage.CoverageData.functionCoverage d = 100%Q).
Proof.
  split; [|split].
  - pose (d := Coverage.CoverageData.mk "src/b.ts" 100 100 100 100 [] [] [] 0 0).
    assert (Hparse : Coverage.parseLcov Examples.bareHost Examples.emptyRecordLcov = Ok [d])
      by (vm_compute; reflexivity).
    assert (Hin : d ∈ [d]) by (left).
    destruct (proj1 C3_zero_units_give_100 Examples.bareHost Examples.emptyRecordLcov [d] d
                Hparse Hin) as (record & Hr & Hd & Hlines & _).
    exists d. split; [exact Hparse|]. split; [vm_compute; reflexivity|].
    assert (Hsplit : JsString.split Examples.emptyRecordLcov "end_of_record"
                     = ["SF:src/b.ts" +:+ JsString.LF; JsString.LF])
      by (vm_compute; reflexivity).
    rewrite Hsplit in Hr.
    apply elem_of_cons in Hr. destruct Hr as [-> | Hr].
    + apply Hlines. vm_compute; reflexivity.
    + apply list_elem_of_singleton in Hr. subst record. vm_compute in Hd. discriminate Hd.
  - pose (d := Coverage.CoverageData.mk "src/e.ts" 100 100 100 100 [] [] [] 0 0).
    assert (Hfiles : Coverage.istanbulFiles Examples.emptyMapsReport = Ok [d])
      by (vm_compute; reflexivity).
    assert (Hin : d ∈ [d]) by (left).
    destruct (proj2 C3_zero_units_give_100 Examples.emptyMapsReport [d] d Hfiles Hin)
      as (es & filePath & fileData & Hes & Hm & _ & Hdetailed & _).
    exists d. split; [exact Hfiles|].
    injection Hes as <-. apply list_elem_of_singleton in Hm. injection Hm as -> ->.
    assert (Hns : ~ summaryShape
                      (Coverage.JObj
                         [ ("s", Coverage.JObj []); ("statementMap", Coverage.JObj []);
                           ("b", Coverage.JObj []); ("branchMap", Coverage.JObj []);
                           ("f", Coverage.JObj []); ("fnMap", Coverage.JObj []) ])).
    { intros (lines & q & Hl & Tl & _). injection Hl as <-. discriminate Tl. }
    destruct (Hdetailed Hns) as (Hs & Hb & Hf).
    split; [|split].
    + apply Hs.
      * exists (Coverage.JObj []), (Coverage.JObj []). repeat split; reflexivity.
      * exists (Coverage.JObj []). split; reflexivity.
    + apply Hb.
      * exists (Coverage.JObj []), (Coverage.JObj []). repeat split; reflexivity.
      * exists (Coverage.JObj []), []. split; [reflexivity|]. split; [reflexivity|constructor].
    + apply Hf.
      * exists (Coverage.JObj []), (Coverage.JObj []). repeat split; reflexivity.
      * exists (Coverage.JObj []). split; reflexivity.
  - pose (d := Coverage.CoverageData.mk "src/s.ts" 80 25 100 75 [] [] [] 10 8).
    assert (Hfiles : Coverage.istanbulFiles Samples.summaryReport = Ok [d])
      by (vm_compute; reflexivity).
    assert (Hin : d ∈ [d]) by (left).
    destruct (proj2 C3_zero_units_give_100 Samples.summaryReport [d] d Hfiles Hin)
      as (es & filePath & fileData & Hes & Hm & _ & _ & Hsummary).
    exists d. split; [exact Hfiles|].
    injection Hes as <-. apply list_elem_of_singleton in Hm. injection Hm as -> ->.
    destruct (Hsummary (Examples.totals 10 8 (Coverage.JNum 80)) 80%Q)
      as (Hl & _ & Hf & _ & Hs & Hb & _); [reflexivity..|].
    split; [exact Hl|]. split; [|split].
    + apply Hs. exists (Examples.totals 12 9 (Coverage.JNum 75)). split; reflexivity.
    + apply Hb. exists (Examples.totals 4 1 (Coverage.JNum 25)). split; reflexivity.
    + apply Hf. reflexivity.
Defined.

(** C3 does not hold as the specification states it for the Istanbul summary
    shape.  An entry that measured no line and reports 0 percent gets line
    and statement coverage 0, not 100; and an entry whose percentages are the
    string "Unknown" is handled as a detailed one and gets 0 for all four
    metrics. *)
Lemma C3_istanbul_zero_units_not_100 :
  (exists d,
      Coverage.istanbulFiles Examples.zeroTotalReport = Ok [d]
      /\ Coverage.CoverageData.totalLines d = 0%Q
      /\ Coverage.CoverageData.lineCoverage d = 0%Q
      /\ ~ (Coverage.CoverageData.lineCoverage d == 100)%Q)
  /\ (exists d,
        Coverage.istanbulFiles Examples.unknownPctReport = Ok [d]
        /\ Coverage.CoverageData.totalLines d = 0%Q
        /\ ~ (Coverage.CoverageData.lineCoverage d == 100)%Q
        /\ ~ (Coverage.CoverageData.branchCoverage d == 100)%Q
        /\ ~ (Coverage.CoverageData.functionCoverage d == 100)%Q
        /\ ~ (Coverage.CoverageData.statementCoverage d == 100)%Q).
Proof.
  split.
  - exists (Coverage.CoverageData.mk "src/a.ts" 0 100 100 0 [] [] [] 0 0).
    split; [vm_compute; reflexivity|]. split; [reflexivity|]. split; [reflexivity|].
    simpl. intros H. discriminate H.
  - exists (Coverage.CoverageData.mk "src/empty.ts" 0 0 0 0 [] [] [] 0 0).
    split; [vm_compute; reflexivity|]. split; [reflexivity|].
    simpl. repeat split; intros H; discriminate H.
Qed.

(** C4.  On a report whose second entry is [null] the loop of
    [parseIstanbulJson] throws a [TypeError] after the record of the first
    entry was pushed; the exception is swallowed and the function returns
    that record, not the empty list. *)
Theorem C4_parseIstanbulJson_keeps_earlier_files :
  Coverage.istanbulBody Examples.malformedReport
  = ([Examples.fullyCovered], Throw "TypeError")
  /\ Coverage.istanbulFiles Examples.malformedReport = Ok [Examples.fullyCovered].
Proof. split; vm_compute; reflexivity. Qed.

(** C1 (as amended).  When the list of gaps is not empty, a task that
    mentions testing or coverage is routed to "tester" with confidence 0.9,
    and otherwise a task that mentions security or auth is routed to
    "security-architect" with confidence 0.88, whatever agent the gaps
    suggest; when the list is empty the routing is the default, "coder" with
    confidence 0.75, whatever the task says.  [coverageRoute] routes by this
    rule on the gaps it found. *)
Theorem C1_keyword_override_when_gaps :
  (forall (task : string) (gaps : list Coverage.CoverageGap.t),
      gaps <> [] ->
      (mentionsTesting task = true ->
       Coverage.Routing.primaryAgent (Coverage.determineRouting task gaps) = "tester"
       /\ Coverage.Routing.confidence (Coverage.determineRouting task gaps) = 0.9%Q)
      /\ (mentionsTesting task = false -> mentionsSecurity task = true ->
          Coverage.Routing.primaryAgent (Coverage.determineRouting task gaps)
          = "security-architect"
          /\ Coverage.Routing.confidence (Coverage.determineRouting task gaps) = 0.88%Q))
  /\ (forall task : string,
        Coverage.Routing.primaryAgent (Coverage.determineRouting task []) = "coder"
        /\ Coverage.Routing.confidence (Coverage.determineRouting task []) = 0.75%Q)
  /\ (forall (host : Coverage.Host) (task : string) (options : Coverage.Options.t)
             (loaded : Coverage.Loaded.t),
        Coverage.loadCoverageData host (Coverage.projectRootOf host options) = Ok loaded ->
        exists r,
          Coverage.coverageRoute host task options = Ok r
          /\ Coverage.CoverageRouteResult.routing r
             = Coverage.determineRouting task
                 (Coverage.routeGaps host (Coverage.projectRootOf host options)
                    (Coverage.thresholdOf options) (Coverage.Loaded.data loaded))).
Proof.
  split; [|split].
  - intros task gaps Hne. split.
    + apply determineRouting_testing; assumption.
    + apply determineRouting_security; assumption.
  - intros task. rewrite determineRouting_empty. split; reflexivity.
  - intros host task options loaded Hload.
    destruct (coverageRoute_loaded host task options loaded Hload) as (r & Hr & _ & Hrt & _).
    exists r. split; assumption.
Qed.

Lemma C1_keyword_override_when_gaps_witness :
  exists loaded r,
    Coverage.loadCoverageData Examples.twelveHost "/repo" = Ok loaded
    /\ Coverage.coverageRoute Examples.twelveHost "write unit tests for the payment module"
         Examples.defaultOptions = Ok r
    /\ Coverage.Metrics.totalGaps (Coverage.CoverageRouteResult.metrics r) = 12%nat
    /\ Coverage.Routing.primaryAgent (Coverage.CoverageRouteResult.routing r) = "tester"
    /\ Coverage.Routing.confidence (Coverage.CoverageRouteResult.routing r) = 0.9%Q.
Proof.
  pose (task := "write unit tests for the payment module").
  pose (loaded := match Coverage.loadCoverageData Examples.twelveHost "/repo" with
                  | Ok l => l
                  | _ => Coverage.Loaded.mk [] Coverage.none None
                  end).
  assert (Hload : Coverage.loadCoverageData Examples.twelveHost
                    (Coverage.projectRootOf Examples.twelveHost Examples.defaultOptions)
                  = Ok loaded) by (vm_compute; reflexivity).
  destruct (proj2 (proj2 C1_keyword_override_when_gaps)
              Examples.twelveHost task Examples.defaultOptions loaded Hload)
    as (r & Hr & Hrouting).
  destruct (coverageRoute_loaded Examples.twelveHost task Examples.defaultOptions loaded Hload)
    as (r' & Hr' & _ & _ & Htotal).
  assert (r' = r) by congruence. subst r'.
  exists loaded, r. split; [exact Hload|]. split; [exact Hr|].
  split; [rewrite Htotal; vm_compute; reflexivity|].
  rewrite Hrouting.
  apply (proj1 C1_keyword_override_when_gaps task).
  - vm_compute. discriminate.
  - vm_compute; reflexivity.
Defined.

(** C1 does not hold as the specification states it when no gap is found.
    On a project whose report shows every file covered, the task "write unit
    tests for the payment module" mentions testing and is still routed to
    "coder" with confidence 0.75. *)
Lemma C1_no_override_without_gaps :
  mentionsTesting "write unit tests for the payment module" = true
  /\ exists r,
       Coverage.coverageRoute Examples.coveredHost "write unit tests for the payment module"
         Examples.defaultOptions = Ok r
       /\ Coverage.CoverageRouteResult.coverageAware r = true
       /\ Coverage.Metrics.totalGaps (Coverage.CoverageRouteResult.metrics r) = 0%nat
       /\ Coverage.Routing.primaryAgent (Coverage.CoverageRouteResult.routing r) = "coder"
       /\ Coverage.Routing.confidence (Coverage.CoverageRouteResult.routing r) = 0.75%Q
       /\ Coverage.Routing.primaryAgent (Coverage.CoverageRouteResult.routing r) <> "tester".
Proof.
  split; [vm_compute; reflexivity|].
  destruct (Coverage.coverageRoute Examples.coveredHost
              "write unit tests for the payment module" Examples.defaultOptions)
    as [r|e|] eqn:E; vm_compute in E; try discriminate E.
  injection E as <-. eexists. split; [reflexivity|]. cbn.
  repeat split; try reflexivity. discriminate.
Qed.

Lemma C10_coverageRoute_gaps_limited_witness :
  exists loaded r,
    Coverage.loadCoverageData Examples.twelveHost "/repo" = Ok loaded
    /\ Coverage.coverageRoute Examples.twelveHost "fix the login bug"
         Examples.defaultOptions = Ok r
    /\ length (Coverage.CoverageRouteResult.gaps r) = 10%nat
    /\ Coverage.Metrics.totalGaps (Coverage.CoverageRouteResult.metrics r) = 12%nat.
Proof.
  pose (loaded := match Coverage.loadCoverageData Examples.twelveHost "/repo" with
                  | Ok l => l
                  | _ => Coverage.Loaded.mk [] Coverage.none None
                  end).
  assert (Hload : Coverage.loadCoverageData Examples.twelveHost
                    (Coverage.projectRootOf Examples.twelveHost Examples.defaultOptions)
                  = Ok loaded) by (vm_compute; reflexivity).
  destruct (C10_coverageRoute_gaps_limited Examples.twelveHost "fix the login bug"
              Examples.defaultOptions loaded Hload) as (r & Hr & Hgaps & _ & Htotal).
  exists loaded, r. split; [exact Hload|]. split; [exact Hr|].
  rewrite Hgaps, Htotal. split; vm_compute; reflexivity.
Defined.


Lemma C7_assessFileRisk_score_and_label_witness :
  0 <= Diff.FileRisk.score (Diff.assessFileRisk Examples.login) <= 100
  /\ Diff.FileRisk.risk (Diff.assessFileRisk Examples.login) = Diff.medium_risk
  /\ (riskRank (riskOfScore 35) <= riskRank (riskOfScore 70))%nat.
Proof.
  destruct (C7_assessFileRisk_score_and_label Examples.login) as (Hrange & Hlabel & Hmono).
  split; [exact Hrange|]. split; [rewrite Hlabel; vm_compute; reflexivity|].
  apply Hmono. lia.
Defined.

(** ** The scenarios of the specification, evaluated *)

(** The login module of the scenario: 130 changed lines and a
    security-sensitive path give the score 35, medium-risk. *)
Example scenario_login_risk :
  Diff.assessFileRisk Examples.login
  = Diff.FileRisk.mk "src/auth/login.ts" Diff.medium_risk 35 ["Security-sensitive code"].
Proof. vm_compute; reflexivity. Qed.

(** The README of the scenario: the documentation pattern brings the score
    to 0, low-risk. *)
Example scenario_readme_risk :
  Diff.assessFileRisk Examples.readme
  = Diff.FileRisk.mk "README.md" Diff.low_risk 0 ["Documentation (lower risk)"].
Proof. vm_compute; reflexivity. Qed.

(** The empty change set is a "feature" with confidence 0.5. *)
Example scenario_classify_empty :
  Diff.DiffClassification.category (Diff.classifyDiff []) = "feature"
  /\ Diff.DiffClassification.confidence (Diff.classifyDiff []) = 0.5%Q.
Proof. split; reflexivity. Qed.

(** Without any report the route is not coverage-aware and reports no gap. *)
Example scenario_route_without_report :
  exists r,
    Coverage.coverageRoute Examples.bareHost "fix the login bug" Examples.defaultOptions = Ok r
    /\ Coverage.CoverageRouteResult.coverageAware r = false
    /\ Coverage.CoverageRouteResult.gaps r = []
    /\ Coverage.Routing.coverageImpact (Coverage.CoverageRouteResult.routing r)
       = "No coverage data available".
Proof. eexists. split; [vm_compute; reflexivity|]. repeat split. Qed.

(** ** Double arithmetic, evaluated *)

(** The mean of a record is the one of double arithmetic: for percentages
    whose exact mean is 80 the code computes 79.99999999999999, and with the
    threshold 80 the record gets a gap that reports this number. *)
Example rounded_mean_of_four_doubles :
  ((Coverage.CoverageData.lineCoverage Samples.roundedMeanRecord
    + Coverage.CoverageData.branchCoverage Samples.roundedMeanRecord
    + Coverage.CoverageData.functionCoverage Samples.roundedMeanRecord
    + Coverage.CoverageData.statementCoverage Samples.roundedMeanRecord) / 4 == 80)%Q
  /\ Coverage.averageCoverage Samples.roundedMeanRecord
     = (5629499534213119 # 70368744177664)%Q
  /\ map Coverage.CoverageGap.coveragePercent
       (Coverage.analyzeCoverageGaps Examples.bareHost [Samples.roundedMeanRecord]
          "/repo" 80)
     = [(5629499534213119 # 70368744177664)%Q].
Proof. split; [reflexivity|]. split; vm_compute; reflexivity. Qed.

(** Eleven of fifteen lines and functions hit give the percentage
    73.33333333333333, the double of [11 / 15 * 100]; with no branch the
    mean is 79.99999999999999 and the record is a gap at the threshold 80. *)
Example percentages_of_eleven_in_fifteen :
  exists d,
    Coverage.parseLcov Examples.bareHost Samples.elevenOfFifteenLcov = Ok [d]
    /\ Coverage.CoverageData.lineCoverage d = (5160374573028693 # 70368744177664)%Q
    /\ Coverage.CoverageData.functionCoverage d = (5160374573028693 # 70368744177664)%Q
    /\ Coverage.CoverageData.branchCoverage d = 100%Q
    /\ Coverage.averageCoverage d = (5629499534213119 # 70368744177664)%Q
    /\ length (Coverage.analyzeCoverageGaps Examples.bareHost [d] "/repo" 80) = 1%nat.
Proof.
  eexists. split; [vm_compute; reflexivity|].
  repeat split; vm_compute; reflexivity.
Qed.

(** The overall percentage of three records at 99.9 is 99.90000000000002. *)
Example summary_of_three_at_99_9 :
  Coverage.CoverageSummary.overallLineCoverage
    (Coverage.generateCoverageSummary
       [Samples.nearlyCovered "a.ts"; Samples.nearlyCovered "b.ts";
        Samples.nearlyCovered "c.ts"] 80)
  = (7029837543348635 # 70368744177664)%Q
  /\ JsNumber.round64 (999 # 10) = (3514918771674317 # 35184372088832)%Q.
Proof. split; vm_compute; reflexivity. Qed.

(** With the limit -2 [coverageSuggest] leaves out the last two of the twelve
    gaps: the suggestions are the first ten. *)
Example coverageSuggest_negative_limit :
  exists r,
    CoverageApi.coverageSuggest Samples.twelveEnvironment "src"
      (CoverageApi.SuggestOptions.mk None None None (Some (-2))) = Ok r
    /\ length (CoverageApi.CoverageSuggestResult.suggestions r) = 10%nat
    /\ map Coverage.CoverageGap.filePath (CoverageApi.CoverageSuggestResult.suggestions r)
       = CoverageApi.CoverageSuggestResult.prioritizedFiles r.
Proof. eexists. split; [vm_compute; reflexivity|]. split; vm_compute; reflexivity. Qed.

(** * Further properties of the code *)

(** ** Coverage gaps: what every gap satisfies *)

Section GapInvariants.
Import Coverage JsNumber.

Lemma calculateComplexity_range (host : Host) (filePath projectRoot : string) :
  (1 <= calculateComplexity host filePath projectRoot <= 10)%nat.
Proof.
  unfold calculateComplexity.
  destruct (negb _); [lia|]. destruct (readFileSync _ _) as [content|]; [|lia].
  repeat match goal with
         | |- context [(?a <? ?b)%nat] => destruct (a <? b)%nat
         end; lia.
Qed.

Lemma of_nat_nonneg (n : nat) : (0 <= of_nat n)%Q.
Proof. unfold of_nat, Qle. simpl. lia. Qed.

Lemma of_nat_le (n m : nat) : (n <= m)%nat -> (of_nat n <= of_nat m)%Q.
Proof. intros H. unfold of_nat, Qle. simpl. lia. Qed.

Lemma leb_le (a b : Q) : leb a b = true <-> (a <= b)%Q.
Proof. unfold leb. apply Qle_bool_iff. Qed.

Lemma leb_gt (a b : Q) : leb a b = false <-> (b < a)%Q.
Proof.
  unfold leb. split; intros H.
  - apply Qnot_le_lt. intros Hle. apply Qle_bool_iff in Hle. congruence.
  - destruct (Qle_bool a b) eqn:E; [|reflexivity].
    apply Qle_bool_iff in E. exfalso. eapply Qlt_not_le; eassumption.
Qed.

Lemma Math_max_one_positive (t : Q) : (0 < Math_max 1 t)%Q.
Proof.
  unfold Math_max. destruct (leb 1 t) eqn:E; [|reflexivity].
  apply leb_le in E. lra.
Qed.

Lemma Math_min_range (cap x : Q) :
  (0 <= cap)%Q -> (0 <= x)%Q -> (0 <= Math_min cap x <= cap)%Q.
Proof.
  intros Hc Hx. unfold Math_min. destruct (leb cap x) eqn:E.
  - split; [exact Hc | apply Qle_refl].
  - apply leb_gt in E. split; [exact Hx | lra].
Qed.

Lemma uncoveredRatio_nonneg (n : nat) (t : Q) :
  (0 <= fmul (fdiv (of_nat n) (Math_max 1 t)) 50)%Q.
Proof.
  unfold fmul, fdiv. apply round64_nonneg.
  apply Qmult_le_0_compat; [|lra]. apply round64_nonneg.
  apply Qle_shift_div_l; [apply Math_max_one_positive|].
  pose proof (of_nat_nonneg n). lra.
Qed.

(** The priority before the cap. *)
Lemma calculatePriority_range (host : Host) (coverageData : CoverageData.t)
    (complexity : nat) (gapType : GapType) :
  (complexity <= 10)%nat ->
  (25 + of_nat complexity * 3 <= calculatePriority host coverageData complexity gapType
   <= 160 + of_nat complexity * 3)%Q.
Proof.
  intros Hc. unfold calculatePriority.
  pose proof (Math_min_range 20 _ ltac:(lra)
                (uncoveredRatio_nonneg (length (CoverageData.uncoveredLines coverageData))
                   (CoverageData.totalLines coverageData))) as Hmin.
  set (ratioPoints := Math_min 20 _) in *.
  change (inject_Z 0 <= ratioPoints <= inject_Z 20)%Q in Hmin.
  set (C := Z.of_nat complexity). assert (HC : (0 <= C <= 10)%Z) by lia.
  assert (Hthree : (inject_Z (C * 3) <= of_nat complexity * 3 <= inject_Z (C * 3))%Q).
  { unfold of_nat. fold C. rewrite inject_Z_mult. split; apply Qle_refl. }
  set (points := (of_nat complexity * 3)%Q) in *.
  assert (Hgoal : forall priority (L H : Z),
             (inject_Z L <= priority <= inject_Z H)%Q ->
             (25 + C * 3 <= L)%Z -> (H <= 160 + C * 3)%Z ->
             (25 + points <= Math_min 200 priority <= 160 + points)%Q).
  { intros priority L H [Hl Hh] HL HH.
    rewrite Zle_Qle, inject_Z_plus in HL, HH.
    assert (HC10 : (inject_Z C <= 10)%Q) by (change 10%Q with (inject_Z 10);
                                             rewrite <- Zle_Qle; lia).
    rewrite inject_Z_mult in Hthree, HL, HH.
    change (inject_Z 25) with 25%Q in HL. change (inject_Z 160) with 160%Q in HH.
    change (inject_Z 3) with 3%Q in *.
    unfold Math_min. destruct (leb 200 priority) eqn:E;
      [apply leb_le in E | apply leb_gt in E]; lra. }
  destruct gapType;
    repeat match goal with
           | |- context [if ?b then _ else _] => destruct b
           end;
    match goal with
    | |- (_ <= Math_min 200 ?p <= _)%Q =>
        bound p;
        match goal with
        | Hp : (inject_Z ?L <= p <= inject_Z ?H)%Q |- _ =>
            apply (Hgoal p L H Hp); lia
        end
    end.
Qed.

Lemma extAgentMap_first (ext : string) (agents : list string) :
  extAgentMap !! ext = Some agents -> exists rest, agents = "coder" :: rest.
Proof.
  unfold extAgentMap. intros H. apply elem_of_list_to_map_2 in H.
  repeat (apply elem_of_cons in H; destruct H as [H|H];
          [injection H as _ ->; eexists; reflexivity|]).
  apply elem_of_nil in H. contradiction.
Qed.

Lemma dedupe_head {A : Type} (eqb : A -> A -> bool) (x : A) (l : list A) :
  exists rest, dedupe eqb (x :: l) = x :: rest.
Proof. simpl. eexists. reflexivity. Qed.

Lemma suggestAgentsForFile_primary (host : Host) (filePath : string)
    (coverageData : CoverageData.t) (gapType : GapType) :
  exists first rest,
    suggestAgentsForFile host filePath coverageData gapType = first :: rest
    /\ (first = "tester" \/ first = "coder" \/ first = "security-architect").
Proof.
  unfold suggestAgentsForFile.
  destruct (_ || _)%bool; [exists "tester", ["reviewer"]; auto|].
  match goal with
  | |- context [take 4 (dedupe String.eqb ?l)] =>
      assert (Hl : exists first rest,
                 l = first :: rest
                 /\ (first = "tester" \/ first = "coder" \/ first = "security-architect"))
  end.
  { match goal with
    | |- context [if (5 <? ?n)%nat then _ else _] => generalize (5 <? n)%nat
    end.
    intros longBranches.
    match goal with
    | |- context [isGapType gapType critical && negb (hasAgent ?a "reviewer")] =>
        assert (Ha : exists first rest,
                   a = first :: rest
                   /\ (first = "tester" \/ first = "coder" \/ first = "security-architect"))
    end.
    { repeat match goal with
             | |- context [if (?x || ?y)%bool then _ else _] => destruct (x || y)%bool
             | |- context [if JsString.includes ?x ?y then _ else _] => destruct (JsString.includes x y)
             end; try (eexists; eexists; split; [reflexivity|]; auto; fail).
      destruct (extAgentMap !! _) as [agents|] eqn:E; simpl.
      - destruct (extAgentMap_first _ _ E) as (rest & ->). eexists; eexists; split; eauto.
      - eexists; eexists; split; [reflexivity|]; auto. }
    destruct Ha as (first & rest & Ha & Hfirst). rewrite Ha.
    destruct (_ && _)%bool; destruct longBranches; simpl;
      repeat match goal with
             | |- context [if ?b then _ else _] => destruct b
             end; simpl; eexists; eexists; split; try reflexivity; assumption. }
  destruct Hl as (first & rest & -> & Hfirst).
  destruct (dedupe_head String.eqb first rest) as (rest' & ->). simpl.
  exists first, (take 3 rest'). split; [reflexivity | exact Hfirst].
Qed.

End GapInvariants.

(** X1.  [calculateComplexity] always answers between 1 and 10, and answers 1
    when the file is not on the disk or cannot be read. *)
Theorem X1_calculateComplexity_bounds :
  forall (host : Coverage.Host) (filePath projectRoot : string),
    (1 <= Coverage.calculateComplexity host filePath projectRoot <= 10)%nat
    /\ (Coverage.existsSync host (Coverage.path_resolve host projectRoot filePath) = false ->
        Coverage.calculateComplexity host filePath projectRoot = 1%nat)
    /\ (Coverage.readFileSync host (Coverage.path_resolve host projectRoot filePath) = None ->
        Coverage.calculateComplexity host filePath projectRoot = 1%nat).
Proof.
  intros host filePath projectRoot. split; [apply calculateComplexity_range|].
  unfold Coverage.calculateComplexity. split; intros H; rewrite H.
  - reflexivity.
  - destruct (negb _); reflexivity.
Qed.

(** X2.  Every gap [analyzeCoverageGaps] returns has the gap type of its mean
    coverage, a complexity between 1 and 10, at most twenty uncovered lines
    and a reason that is not empty. *)
Theorem X2_gap_fields_consistent :
  forall (host : Coverage.Host) (coverageData : list Coverage.CoverageData.t)
         (projectRoot : string) (threshold : Q),
    Forall
      (fun g =>
         Coverage.CoverageGap.gapType g
         = Coverage.determineGapType (Coverage.CoverageGap.coveragePercent g)
         /\ (1 <= Coverage.CoverageGap.complexity g <= 10)%nat
         /\ (length (Coverage.CoverageGap.uncoveredLines g) <= 20)%nat
         /\ Coverage.CoverageGap.reason g <> "")
      (Coverage.analyzeCoverageGaps host coverageData projectRoot threshold).
Proof.
  intros host coverageData projectRoot threshold. rewrite Forall_forall. intros g Hg.
  rewrite (analyzeCoverageGaps_perm host coverageData projectRoot threshold) in Hg.
  apply list_elem_of_fmap in Hg. destruct Hg as (d & -> & _).
  unfold Coverage.gapOf. cbn [Coverage.CoverageGap.gapType Coverage.CoverageGap.coveragePercent
                               Coverage.CoverageGap.complexity Coverage.CoverageGap.uncoveredLines
                               Coverage.CoverageGap.reason].
  split; [reflexivity|]. split; [apply calculateComplexity_range|].
  split; [rewrite length_take; lia|].
  destruct (JsString.truthy _) eqn:E; [|discriminate].
  intros Hempty. rewrite Hempty in E. discriminate E.
Qed.

(** X3.  Every gap [analyzeCoverageGaps] returns has a priority between 28 and
    190: the cap at 200 is never reached. *)
Theorem X3_gap_priority_range :
  forall (host : Coverage.Host) (coverageData : list Coverage.CoverageData.t)
         (projectRoot : string) (threshold : Q),
    Forall
      (fun g => (28 <= Coverage.CoverageGap.priority g <= 190)%Q)
      (Coverage.analyzeCoverageGaps host coverageData projectRoot threshold).
Proof.
  intros host coverageData projectRoot threshold. rewrite Forall_forall. intros g Hg.
  rewrite (analyzeCoverageGaps_perm host coverageData projectRoot threshold) in Hg.
  apply list_elem_of_fmap in Hg. destruct Hg as (d & -> & _).
  unfold Coverage.gapOf. cbn [Coverage.CoverageGap.priority].
  pose proof (calculateComplexity_range host (Coverage.CoverageData.filePath d) projectRoot)
    as [Hlo Hhi].
  set (c := Coverage.calculateComplexity host (Coverage.CoverageData.filePath d) projectRoot)
    in *.
  pose proof (calculatePriority_range host d c
                (Coverage.determineGapType (Coverage.averageCoverage d)) Hhi) as Hp.
  pose proof (of_nat_le 1 c Hlo) as H1. pose proof (of_nat_le c 10 Hhi) as H10.
  assert (E1 : JsNumber.of_nat 1 = 1%Q) by reflexivity.
  assert (E10 : JsNumber.of_nat 10 = 10%Q) by reflexivity.
  rewrite E1 in H1. rewrite E10 in H10. lra.
Qed.

(** X4.  Every gap [analyzeCoverageGaps] returns suggests at least one agent,
    and the first one is "tester", "coder" or "security-architect": the
    fallback of [suggestedAgents[0] || 'tester'] is never needed. *)
Theorem X4_gap_primary_agent :
  forall (host : Coverage.Host) (coverageData : list Coverage.CoverageData.t)
         (projectRoot : string) (threshold : Q),
    Forall
      (fun g =>
         exists first rest,
           Coverage.CoverageGap.suggestedAgents g = first :: rest
           /\ CoverageApi.primaryAgentOf g = first
           /\ (first = "tester" \/ first = "coder" \/ first = "security-architect"))
      (Coverage.analyzeCoverageGaps host coverageData projectRoot threshold).
Proof.
  intros host coverageData projectRoot threshold. rewrite Forall_forall. intros g Hg.
  rewrite (analyzeCoverageGaps_perm host coverageData projectRoot threshold) in Hg.
  apply list_elem_of_fmap in Hg. destruct Hg as (d & -> & _).
  unfold CoverageApi.primaryAgentOf, Coverage.gapOf.
  cbn [Coverage.CoverageGap.suggestedAgents].
  destruct (suggestAgentsForFile_primary host (Coverage.CoverageData.filePath d) d
              (Coverage.determineGapType (Coverage.averageCoverage d)))
    as (first & rest & -> & Hfirst).
  exists first, rest. split; [reflexivity|]. split; [|exact Hfirst].
  destruct Hfirst as [-> | [-> | ->]]; reflexivity.
Qed.

(** X5.  [determineGapType] never gives a milder type to a lower coverage. *)
Theorem X5_determineGapType_antitone :
  forall c1 c2 : Q,
    (c1 <= c2)%Q ->
    (gapSeverity (Coverage.determineGapType c2)
     <= gapSeverity (Coverage.determineGapType c1))%nat.
Proof.
  intros c1 c2 H. unfold Coverage.determineGapType.
  repeat match goal with
         | |- context [JsNumber.ltb ?a ?b] =>
             let E := fresh "E" in
             destruct (JsNumber.ltb a b) eqn:E;
             [apply ltb_lt in E | apply (f_equal negb) in E; rewrite ltb_leb in E;
                                  rewrite negb_involutive in E; simpl in E;
                                  apply leb_le in E]
         end; simpl; try lia; exfalso; lra.
Qed.

Lemma X5_determineGapType_antitone_witness :
  (gapSeverity (Coverage.determineGapType 75) <= gapSeverity (Coverage.determineGapType 10))%nat.
Proof. apply X5_determineGapType_antitone. unfold Qle; simpl; lia. Defined.

(** ** The summary and the loader *)

Section SummaryFacts.
Import Coverage JsNumber.

Lemma gaps_count (host : Host) (coverageData : list CoverageData.t)
    (projectRoot : string) (threshold : Q) :
  length (analyzeCoverageGaps host coverageData projectRoot threshold)
  = length (filter (fun d => ltb (averageCoverage d) threshold = true) coverageData).
Proof.
  rewrite (analyzeCoverageGaps_perm host coverageData projectRoot threshold).
  apply length_map.
Qed.

Lemma generateCoverageSummary_counts (coverageData : list CoverageData.t) (threshold : Q) :
  CoverageSummary.totalFiles (generateCoverageSummary coverageData threshold)
  = length coverageData
  /\ CoverageSummary.filesBelowThreshold (generateCoverageSummary coverageData threshold)
     = length (filter (fun d => ltb (averageCoverage d) threshold = true) coverageData).
Proof.
  unfold generateCoverageSummary. destruct coverageData as [|d l]; [split; reflexivity|].
  cbn [length Nat.eqb]. destruct (fold_left _ _ _) as [[[line branch] function] statement].
  split; reflexivity.
Qed.

(** The running totals of the [reduce], for percentages between two whole
    numbers: after [k] records each total lies between [k] times the one and
    [k] times the other, which are doubles. *)
Lemma totals_between (lo hi : Z) (l : list CoverageData.t) :
  (0 <= lo <= hi)%Z ->
  Forall (fun d =>
            (inject_Z lo <= CoverageData.lineCoverage d <= inject_Z hi)%Q
            /\ (inject_Z lo <= CoverageData.branchCoverage d <= inject_Z hi)%Q
            /\ (inject_Z lo <= CoverageData.functionCoverage d <= inject_Z hi)%Q
            /\ (inject_Z lo <= CoverageData.statementCoverage d <= inject_Z hi)%Q) l ->
  forall (k : Z) (a b c e : Q),
    (0 <= k)%Z -> (hi * (k + Z.of_nat (length l)) <= 2 ^ 53)%Z ->
    (inject_Z (lo * k) <= a <= inject_Z (hi * k))%Q ->
    (inject_Z (lo * k) <= b <= inject_Z (hi * k))%Q ->
    (inject_Z (lo * k) <= c <= inject_Z (hi * k))%Q ->
    (inject_Z (lo * k) <= e <= inject_Z (hi * k))%Q ->
    let n := (k + Z.of_nat (length l))%Z in
    let '(a', b', c', e') :=
      fold_left
        (fun '(line, branch, function, statement) data =>
           (fadd line (CoverageData.lineCoverage data),
            fadd branch (CoverageData.branchCoverage data),
            fadd function (CoverageData.functionCoverage data),
            fadd statement (CoverageData.statementCoverage data)))
        l (a, b, c, e) in
    (inject_Z (lo * n) <= a' <= inject_Z (hi * n))%Q
    /\ (inject_Z (lo * n) <= b' <= inject_Z (hi * n))%Q
    /\ (inject_Z (lo * n) <= c' <= inject_Z (hi * n))%Q
    /\ (inject_Z (lo * n) <= e' <= inject_Z (hi * n))%Q.
Proof.
  intros Hlohi.
  induction 1 as [|d l (Hl & Hb & Hf & Hs) _ IH]; intros k a b c e Hk Hn Ha Hb' Hc He n;
    subst n.
  - simpl. rewrite Z.add_0_r. auto.
  - cbn [fold_left length] in *.
    replace (k + Z.of_nat (S (length l)))%Z with ((k + 1) + Z.of_nat (length l))%Z in * by lia.
    assert (Hstep : forall total x,
               (inject_Z (lo * k) <= total <= inject_Z (hi * k))%Q ->
               (inject_Z lo <= x <= inject_Z hi)%Q ->
               (inject_Z (lo * (k + 1)) <= fadd total x <= inject_Z (hi * (k + 1)))%Q).
    { intros total x Ht Hx.
      replace (lo * (k + 1))%Z with (lo * k + lo)%Z by lia.
      replace (hi * (k + 1))%Z with (hi * k + hi)%Z by lia.
      apply fadd_bounds; [exact Ht | exact Hx | nia | nia]. }
    apply (IH (k + 1)%Z); [lia | exact Hn | apply Hstep; assumption ..].
Qed.

Lemma mean_between (lo hi : Z) (total : Q) (n : nat) :
  (0 < n)%nat -> (0 <= lo)%Z -> (hi <= 2 ^ 53)%Z ->
  (inject_Z (lo * Z.of_nat n) <= total <= inject_Z (hi * Z.of_nat n))%Q ->
  (inject_Z lo <= fdiv total (of_nat n) <= inject_Z hi)%Q.
Proof.
  intros Hn Hlo Hhi [H1 H2]. unfold fdiv.
  assert (Hpos : (0 < of_nat n)%Q) by (unfold of_nat, Qlt; simpl; lia).
  rewrite inject_Z_mult in H1, H2. fold (of_nat n) in H1, H2.
  apply round64_between; [lia | exact Hhi|]. split.
  - apply Qle_shift_div_l; assumption.
  - apply Qle_shift_div_r; assumption.
Qed.

Lemma findCoverageReports_lists (host : Host) (projectRoot : string) :
  findCoverageReports host projectRoot
  = map (Report.mk lcov) (List.filter (existsSync host) (lcovLocations host projectRoot))
    ++ map (fun p => Report.mk (jsonFormat p) p)
         (List.filter (existsSync host) (jsonLocations host projectRoot)).
Proof.
  unfold findCoverageReports, lcovLocations, jsonLocations, jsonFormat.
  cbn [fold_left List.filter].
  repeat match goal with
         | |- context [existsSync host ?p] => destruct (existsSync host p)
         end; reflexivity.
Qed.

End SummaryFacts.

(** X6.  The summary counts what the analysis finds: [filesBelowThreshold] is
    the number of gaps [analyzeCoverageGaps] returns for the same data and
    threshold, [totalFiles] is the number of records, and the first never
    exceeds the second. *)
Theorem X6_summary_counts_the_gaps :
  forall (host : Coverage.Host) (coverageData : list Coverage.CoverageData.t)
         (projectRoot : string) (threshold : Q),
    let summary := Coverage.generateCoverageSummary coverageData threshold in
    Coverage.CoverageSummary.filesBelowThreshold summary
    = length (Coverage.analyzeCoverageGaps host coverageData projectRoot threshold)
    /\ Coverage.CoverageSummary.totalFiles summary = length coverageData
    /\ (Coverage.CoverageSummary.filesBelowThreshold summary
        <= Coverage.CoverageSummary.totalFiles summary)%nat.
Proof.
  intros host coverageData projectRoot threshold summary. subst summary.
  destruct (generateCoverageSummary_counts coverageData threshold) as [Ht Hb].
  rewrite Ht, Hb, gaps_count. split; [reflexivity|]. split; [reflexivity|].
  apply length_filter.
Qed.

(** X7.  The means of the summary are computed in doubles, a running sum
    divided by the number of records.  When every record has its four
    percentages between two whole numbers [lo] and [hi], not negative, and
    the data set is small enough for the sums of whole numbers to be exact
    ([hi] times the number of records is at most 2^53), the four overall
    percentages lie between [lo] and [hi] too; for no data the summary is all
    zeros. *)
Theorem X7_summary_means_between :
  forall (coverageData : list Coverage.CoverageData.t) (threshold : Q) (lo hi : Z),
    (coverageData = [] ->
     Coverage.generateCoverageSummary coverageData threshold
     = Coverage.CoverageSummary.mk 0 0 0 0 0 0 threshold)
    /\ (coverageData <> [] ->
        (0 <= lo)%Z -> (hi * Z.of_nat (length coverageData) <= 2 ^ 53)%Z ->
        Forall (fun d =>
                  (inject_Z lo <= Coverage.CoverageData.lineCoverage d <= inject_Z hi)%Q
                  /\ (inject_Z lo <= Coverage.CoverageData.branchCoverage d <= inject_Z hi)%Q
                  /\ (inject_Z lo <= Coverage.CoverageData.functionCoverage d
                      <= inject_Z hi)%Q
                  /\ (inject_Z lo <= Coverage.CoverageData.statementCoverage d
                      <= inject_Z hi)%Q)
          coverageData ->
        let summary := Coverage.generateCoverageSummary coverageData threshold in
        (inject_Z lo <= Coverage.CoverageSummary.overallLineCoverage summary
         <= inject_Z hi)%Q
        /\ (inject_Z lo <= Coverage.CoverageSummary.overallBranchCoverage summary
            <= inject_Z hi)%Q
        /\ (inject_Z lo <= Coverage.CoverageSummary.overallFunctionCoverage summary
            <= inject_Z hi)%Q
        /\ (inject_Z lo <= Coverage.CoverageSummary.overallStatementCoverage summary
            <= inject_Z hi)%Q).
Proof.
  intros coverageData threshold lo hi. split; [intros ->; reflexivity|].
  intros Hne Hlo Hsize Hall summary. subst summary.
  unfold Coverage.generateCoverageSummary.
  destruct coverageData as [|d l]; [congruence|].
  assert (Hlohi : (lo <= hi)%Z).
  { apply Forall_cons_1 in Hall. destruct Hall as [((H1 & H2) & _) _].
    rewrite Zle_Qle. lra. }
  cbn [length Nat.eqb].
  pose proof (totals_between lo hi (d :: l) ltac:(lia) Hall 0 0 0 0 0 ltac:(lia)
                ltac:(rewrite Z.add_0_l; exact Hsize)) as Htot.
  assert (H0 : (inject_Z (lo * 0) <= 0 <= inject_Z (hi * 0))%Q).
  { rewrite !Z.mul_0_r. split; apply Qle_refl. }
  specialize (Htot H0 H0 H0 H0). cbv zeta in Htot. rewrite Z.add_0_l in Htot.
  destruct (fold_left _ (d :: l) _) as [[[line branch] function] statement].
  destruct Htot as (Ha & Hb & Hc & He).
  cbn [Coverage.CoverageSummary.overallLineCoverage
         Coverage.CoverageSummary.overallBranchCoverage
         Coverage.CoverageSummary.overallFunctionCoverage
         Coverage.CoverageSummary.overallStatementCoverage].
  assert (Hhi : (hi <= 2 ^ 53)%Z) by (cbn [length] in Hsize; nia).
  split; [|split; [|split]]; apply mean_between; try assumption; cbn [length]; lia.
Qed.

Lemma X7_summary_means_between_witness :
  (0 <= Coverage.CoverageSummary.overallLineCoverage
          (Coverage.generateCoverageSummary [Examples.fullyCovered; Examples.halfCovered] 80)
   <= 100)%Q.
Proof.
  apply (proj2 (X7_summary_means_between [Examples.fullyCovered; Examples.halfCovered]
                  80 0 100)).
  - discriminate.
  - lia.
  - vm_compute. discriminate.
  - repeat constructor; unfold Qle; simpl; lia.
Defined.

(** X8.  An LCOV report wins over any JSON report: when a file exists at one
    of the three LCOV places, [loadCoverageData] reads the first such place
    and nothing else, answers with the format "lcov" and that path, and
    throws when the file cannot be read. *)
Theorem X8_loadCoverageData_prefers_lcov :
  forall (host : Coverage.Host) (projectRoot p : string),
    List.find (Coverage.existsSync host) (lcovLocations host projectRoot) = Some p ->
    Coverage.loadCoverageData host projectRoot
    = (content ← Coverage.readFile host p;
       data ← Coverage.parseLcov host content;
       Ok (Coverage.Loaded.mk data Coverage.lcov (Some p))).
Proof.
  intros host projectRoot p Hfind. unfold Coverage.loadCoverageData.
  rewrite findCoverageReports_lists. unfold lcovLocations, jsonLocations in *.
  cbn [List.find List.filter] in *.
  repeat match goal with
         | H : context [Coverage.existsSync host ?q] |- _ =>
             destruct (Coverage.existsSync host q)
         end;
    try discriminate Hfind; injection Hfind as <-;
    repeat match goal with
           | |- context [Coverage.existsSync host ?q] => destruct (Coverage.existsSync host q)
           end; reflexivity.
Qed.

Lemma X8_loadCoverageData_prefers_lcov_witness :
  exists data,
    Coverage.loadCoverageData Samples.bothReportsHost "/repo"
    = Ok (Coverage.Loaded.mk data Coverage.lcov (Some "/repo/lcov.info"))
    /\ length data = 1%nat.
Proof.
  rewrite (X8_loadCoverageData_prefers_lcov Samples.bothReportsHost "/repo" "/repo/lcov.info")
    by (vm_compute; reflexivity).
  eexists. split; [vm_compute; reflexivity | reflexivity].
Defined.

(** X9.  Without an LCOV report, [loadCoverageData] reads the first JSON
    report that exists and tags the result "istanbul" when the path contains
    [.nyc_output] and "c8" otherwise.  A report that is not JSON still counts
    as a report: the data is empty but the format is not "none". *)
Theorem X9_loadCoverageData_json_fallback :
  forall (host : Coverage.Host) (projectRoot p : string),
    List.find (Coverage.existsSync host) (lcovLocations host projectRoot) = None ->
    List.find (Coverage.existsSync host) (jsonLocations host projectRoot) = Some p ->
    Coverage.loadCoverageData host projectRoot
    = (content ← Coverage.readFile host p;
       data ← Coverage.parseIstanbulJson host content;
       Ok (Coverage.Loaded.mk data (jsonFormat p) (Some p)))
    /\ (forall content,
          Coverage.readFileSync host p = Some content ->
          Coverage.JSON_parse host content = None ->
          Coverage.loadCoverageData host projectRoot
          = Ok (Coverage.Loaded.mk [] (jsonFormat p) (Some p)))
    /\ jsonFormat p <> Coverage.none.
Proof.
  intros host projectRoot p Hnone Hfind.
  assert (Hload : Coverage.loadCoverageData host projectRoot
                  = (content ← Coverage.readFile host p;
                     data ← Coverage.parseIstanbulJson host content;
                     Ok (Coverage.Loaded.mk data (jsonFormat p) (Some p)))).
  { unfold Coverage.loadCoverageData.
    rewrite findCoverageReports_lists. unfold lcovLocations, jsonLocations in *.
    cbn [List.find List.filter] in *.
    repeat match goal with
           | H : context [Coverage.existsSync host ?q] |- _ =>
               destruct (Coverage.existsSync host q)
           end;
      try discriminate Hnone; try discriminate Hfind; injection Hfind as <-;
      repeat match goal with
             | |- context [Coverage.existsSync host ?q] =>
                 destruct (Coverage.existsSync host q)
             end;
      unfold jsonFormat; cbn [List.map app];
      repeat match goal with
             | |- context [JsString.includes ?a ?b] => destruct (JsString.includes a b)
             end; reflexivity. }
  split; [exact Hload|]. split.
  - intros content Hread Hparse. rewrite Hload. unfold Coverage.readFile.
    rewrite Hread. cbn [mbind outcome_bind]. unfold Coverage.parseIstanbulJson.
    rewrite Hparse. reflexivity.
  - unfold jsonFormat. destruct (JsString.includes p ".nyc_output"); discriminate.
Qed.

Lemma X9_loadCoverageData_json_fallback_witness :
  Coverage.loadCoverageData Samples.brokenJsonHost "/repo"
  = Ok (Coverage.Loaded.mk [] Coverage.c8 (Some "/repo/coverage/coverage-final.json")).
Proof.
  apply (proj1 (proj2 (X9_loadCoverageData_json_fallback Samples.brokenJsonHost "/repo"
                         "/repo/coverage/coverage-final.json"
                         ltac:(vm_compute; reflexivity) ltac:(vm_compute; reflexivity)))
           "not json").
  - vm_compute; reflexivity.
  - vm_compute; reflexivity.
Defined.

(** ** The parsers, continued *)

Section LcovBalance.
Import Coverage JsNumber.

Lemma percentage_range (hit found : nat) (p : Q) :
  (hit <= found)%nat -> percentage hit found = Ok p -> (0 <= p <= 100)%Q.
Proof.
  intros H. unfold percentage. destruct (Nat.ltb_spec 0 found) as [Hpos|_];
    [|intros E; injection E as <-; lra].
  destruct (Z.of_nat found <? 2 ^ 53)%Z; [|discriminate].
  intros E. injection E as <-.
  assert (Hf : (0 < of_nat found)%Q) by (unfold of_nat, Qlt; simpl; lia).
  pose proof (of_nat_nonneg hit) as Hh. pose proof (of_nat_le hit found H) as Hle.
  assert (Hq : (inject_Z 0 <= of_nat hit / of_nat found <= inject_Z 1)%Q).
  { split.
    - apply Qle_shift_div_l; [exact Hf|]. change (inject_Z 0) with 0%Q. lra.
    - apply Qle_shift_div_r; [exact Hf|]. change (inject_Z 1) with 1%Q. lra. }
  apply (round64_between 0 1) in Hq; [|lia|lia].
  unfold fmul, fdiv. change 0%Q with (inject_Z 0). change 100%Q with (inject_Z 100).
  apply round64_between; [lia | lia|].
  change (inject_Z 0) with 0%Q in *. change (inject_Z 1) with 1%Q in *.
  change (inject_Z 100) with 100%Q. lra.
Qed.

Lemma of_nat_inj (n m : nat) : (of_nat n == of_nat m)%Q -> n = m.
Proof. unfold of_nat, Qeq. simpl. lia. Qed.

(** Of fewer than 2^53 units, all are hit exactly when the rounded quotient
    is 1, and then only the percentage is 100: the largest quotient below 1
    is at most 1 - 2^-53, a double, and 100 times that rounds below 100. *)
Lemma percentage_full (hit uncovered : nat) (p : Q) :
  percentage hit (hit + uncovered) = Ok p -> (p == 100)%Q <-> uncovered = 0%nat.
Proof.
  unfold percentage. destruct (Nat.ltb_spec 0 (hit + uncovered)) as [Hpos|Hzero];
    [|intros E; injection E as <-; split; [lia | reflexivity]].
  destruct (Z.ltb_spec (Z.of_nat (hit + uncovered)) (2 ^ 53)) as [Hsmall|_]; [|discriminate].
  intros E. injection E as <-. unfold fmul, fdiv.
  assert (Hf : (0 < of_nat (hit + uncovered))%Q) by (unfold of_nat, Qlt; simpl; lia).
  split.
  - intros E. destruct uncovered as [|u]; [reflexivity|]. exfalso.
    pose (below := (9007199254740991 # 9007199254740992)%Q).
    assert (Hq : (of_nat hit / of_nat (hit + S u) <= below)%Q).
    { apply Qle_shift_div_r; [exact Hf|]. unfold of_nat, below, Qle. simpl.
      change (2 ^ 53)%Z with 9007199254740992%Z in Hsmall. lia. }
    apply round64_le in Hq.
    assert (Hbelow : (round64 below <= below)%Q) by (vm_compute; discriminate).
    assert (Hp : (round64 (of_nat hit / of_nat (hit + S u)) * 100 <= below * 100)%Q) by lra.
    apply round64_le in Hp.
    assert (Hless : (round64 (below * 100) < 100)%Q) by (vm_compute; reflexivity).
    lra.
  - intros ->. rewrite Nat.add_0_r in *.
    assert (Hone : (of_nat hit / of_nat hit == 1)%Q) by (field; lra).
    rewrite (round64_comp _ _ Hone).
    change (round64 1) with 1%Q. reflexivity.
Qed.

Ltac step_balanced :=
  intros H (Hl & Hb & Hf);
  repeat match goal with
         | H : (if ?b then _ else _) = Ok _ |- _ => destruct b
         | H : (_ ≫= _) = Ok _ |- _ =>
             apply bind_Ok in H; let x := fresh "x" in destruct H as (x & _ & H)
         end;
  injection H as <-; unfold lcovBalanced; cbn; rewrite ?length_app; cbn; lia.

Lemma lcovDA_balanced (host : Host) (st st' : LcovState) (line : string) :
  lcovDA host st line = Ok st' -> lcovBalanced st -> lcovBalanced st'.
Proof. unfold lcovDA. step_balanced. Qed.

Lemma lcovBRDA_balanced (st st' : LcovState) (line : string) :
  lcovBRDA st line = Ok st' -> lcovBalanced st -> lcovBalanced st'.
Proof. unfold lcovBRDA. step_balanced. Qed.

Lemma lcovFNDA_balanced (st st' : LcovState) (line : string) :
  lcovFNDA st line = Ok st' -> lcovBalanced st -> lcovBalanced st'.
Proof. unfold lcovFNDA. step_balanced. Qed.

Lemma lcovLF_balanced (st st' : LcovState) (line : string) :
  lcovLF st line = Ok st' -> lcovBalanced st -> lcovBalanced st'.
Proof. unfold lcovLF. step_balanced. Qed.

Lemma lcovLH_balanced (st st' : LcovState) (line : string) :
  lcovLH st line = Ok st' -> lcovBalanced st -> lcovBalanced st'.
Proof. unfold lcovLH. step_balanced. Qed.

Lemma whenTagged_balanced (tag line : string) (st st' : LcovState)
    (body : LcovState -> string -> outcome LcovState) :
  (forall s s', body s line = Ok s' -> lcovBalanced s -> lcovBalanced s') ->
  whenTagged tag line st body = Ok st' -> lcovBalanced st -> lcovBalanced st'.
Proof.
  intros Hbody. unfold whenTagged. destruct (JsString.startsWith line tag).
  - apply Hbody.
  - intros H. injection H as <-. auto.
Qed.

Lemma lcovLine_balanced (host : Host) (st st' : LcovState) (line : string) :
  lcovLine host st line = Ok st' -> lcovBalanced st -> lcovBalanced st'.
Proof.
  unfold lcovLine. intros H Hst.
  apply bind_Ok in H. destruct H as (s1 & H1 & H).
  apply bind_Ok in H. destruct H as (s2 & H2 & H).
  apply bind_Ok in H. destruct H as (s3 & H3 & H).
  apply bind_Ok in H. destruct H as (s4 & H4 & H5).
  eapply whenTagged_balanced in H1; [|intros s s'; apply lcovDA_balanced | exact Hst].
  eapply whenTagged_balanced in H2; [|intros s s'; apply lcovBRDA_balanced | exact H1].
  eapply whenTagged_balanced in H3; [|intros s s'; apply lcovFNDA_balanced | exact H2].
  eapply whenTagged_balanced in H4; [|intros s s'; apply lcovLF_balanced | exact H3].
  eapply whenTagged_balanced in H5; [|intros s s'; apply lcovLH_balanced | exact H4].
  exact H5.
Qed.

Lemma lcov_loop_balanced (host : Host) (lines : list string) :
  forall st st',
    for_of lines st (lcovLine host) = Ok st' -> lcovBalanced st -> lcovBalanced st'.
Proof.
  induction lines as [|line lines IH]; intros st st' H Hst; simpl in H.
  - injection H as <-. exact Hst.
  - apply bind_Ok in H. destruct H as (s1 & H1 & H).
    eapply IH; [exact H|]. eapply lcovLine_balanced; eassumption.
Qed.

Lemma length_zero_nil {A : Type} (l : list A) : length l = 0%nat <-> l = [].
Proof. destruct l; simpl; split; intros H; congruence || lia. Qed.

Lemma lcovRecord_percentages (host : Host) (record : string) (d : CoverageData.t) :
  lcovRecord host record = Ok (Some d) ->
  ((0 <= CoverageData.lineCoverage d <= 100)%Q
   /\ ((CoverageData.lineCoverage d == 100)%Q <-> CoverageData.uncoveredLines d = []))
  /\ ((0 <= CoverageData.branchCoverage d <= 100)%Q
      /\ ((CoverageData.branchCoverage d == 100)%Q <-> CoverageData.uncoveredBranches d = []))
  /\ ((0 <= CoverageData.functionCoverage d <= 100)%Q
      /\ ((CoverageData.functionCoverage d == 100)%Q
          <-> CoverageData.uncoveredFunctions d = []))
  /\ CoverageData.statementCoverage d = CoverageData.lineCoverage d.
Proof.
  unfold lcovRecord. destruct (negb _); [discriminate|].
  destruct (find _ _) as [sfLine|]; [|discriminate].
  intros H. apply bind_Ok in H. destruct H as (st & Hloop & H).
  apply lcov_loop_balanced in Hloop; [|unfold lcovBalanced; cbn; lia].
  destruct Hloop as (Hl & Hb & Hf).
  apply bind_Ok in H. destruct H as (lineCoverage & Hline & H).
  apply bind_Ok in H. destruct H as (branchCoverage & Hbranch & H).
  apply bind_Ok in H. destruct H as (functionCoverage & Hfunction & H).
  injection H as <-. cbn.
  rewrite Hl in Hline. rewrite Hb in Hbranch. rewrite Hf in Hfunction.
  rewrite <- !length_zero_nil.
  rewrite (percentage_full _ _ _ Hline), (percentage_full _ _ _ Hbranch),
    (percentage_full _ _ _ Hfunction).
  repeat split; auto; eapply percentage_range; try eassumption; lia.
Qed.

End LcovBalance.

(** X10.  Every record [parseLcov] returns has line, branch and function
    coverage between 0 and 100, its statement coverage is its line coverage,
    and a metric is at 100 exactly when the record lists no uncovered line,
    branch or function for it. *)
Theorem X10_parseLcov_percentages :
  forall (host : Coverage.Host) (lcovContent : string) (files : list Coverage.CoverageData.t),
    Coverage.parseLcov host lcovContent = Ok files ->
    Forall
      (fun d =>
         ((0 <= Coverage.CoverageData.lineCoverage d <= 100)%Q
          /\ ((Coverage.CoverageData.lineCoverage d == 100)%Q
              <-> Coverage.CoverageData.uncoveredLines d = []))
         /\ ((0 <= Coverage.CoverageData.branchCoverage d <= 100)%Q
             /\ ((Coverage.CoverageData.branchCoverage d == 100)%Q
                 <-> Coverage.CoverageData.uncoveredBranches d = []))
         /\ ((0 <= Coverage.CoverageData.functionCoverage d <= 100)%Q
             /\ ((Coverage.CoverageData.functionCoverage d == 100)%Q
                 <-> Coverage.CoverageData.uncoveredFunctions d = []))
         /\ Coverage.CoverageData.statementCoverage d = Coverage.CoverageData.lineCoverage d)
      files.
Proof.
  intros host lcovContent files H. rewrite Forall_forall. intros d Hin.
  unfold Coverage.parseLcov in H.
  destruct (parseLcov_records host _ _ _ _ H Hin) as [Hnil | (record & _ & Hd)].
  - apply elem_of_nil in Hnil. contradiction.
  - exact (lcovRecord_percentages host record d Hd).
Qed.

Lemma X10_parseLcov_percentages_witness :
  exists files,
    Coverage.parseLcov Examples.bareHost
      ("SF:src/a.ts" +:+ JsString.LF +:+ "DA:1,1" +:+ JsString.LF +:+ "DA:2,0" +:+ JsString.LF
       +:+ "end_of_record" +:+ JsString.LF) = Ok files
    /\ Forall (fun d => (0 <= Coverage.CoverageData.lineCoverage d <= 100)%Q
                        /\ Coverage.CoverageData.uncoveredLines d <> []) files
    /\ length files = 1%nat.
Proof.
  eexists. split; [vm_compute; reflexivity|]. split; [|reflexivity].
  match goal with
  | |- Forall _ ?files =>
      pose proof (X10_parseLcov_percentages Examples.bareHost
                    ("SF:src/a.ts" +:+ JsString.LF +:+ "DA:1,1" +:+ JsString.LF
                     +:+ "DA:2,0" +:+ JsString.LF +:+ "end_of_record" +:+ JsString.LF)
                    files ltac:(vm_compute; reflexivity)) as Hall
  end.
  apply Forall_cons_1 in Hall. destruct Hall as [((Hrange & _) & _) _].
  constructor; [|constructor]. split; [exact Hrange | discriminate].
Defined.

Section AscendingLines.
Import Coverage JsNumber.

Local Abbreviation ascending := (fun a b : Q => a - b)%Q.
Local Abbreviation apart := (fun a b : Q => ~ (a == b)%Q).

Lemma insertBy_perm_any {A : Type} (comparefn : A -> A -> Q) (x : A) (l : list A) :
  insertBy comparefn x l ≡ₚ x :: l.
Proof.
  induction l as [|y l IH]; simpl; [reflexivity|].
  destruct (leb (comparefn x y) 0); [reflexivity|].
  rewrite IH. apply Permutation_swap.
Qed.

Lemma sortBy_perm_any {A : Type} (comparefn : A -> A -> Q) (l : list A) :
  sortBy comparefn l ≡ₚ l.
Proof.
  induction l as [|x l IH]; simpl; [reflexivity|].
  unfold sortBy in IH. rewrite insertBy_perm_any, IH. reflexivity.
Qed.

Lemma insert_strict (x : Q) (l : list Q) :
  StronglySorted Qlt l -> Forall (apart x) l ->
  StronglySorted Qlt (insertBy ascending x l).
Proof.
  induction l as [|y l IH]; intros Hs Hx; simpl.
  - constructor; constructor.
  - apply Forall_cons_1 in Hx. destruct Hx as [Hxy Hxl].
    apply StronglySorted_inv in Hs. destruct Hs as [Hl Hy].
    destruct (leb (x - y) 0) eqn:E.
    + apply leb_le in E.
      assert (Hlt : (x < y)%Q).
      { destruct (Qlt_le_dec x y) as [Hlt|Hge]; [exact Hlt|].
        exfalso. apply Hxy. apply Qle_antisym; lra. }
      constructor; [constructor; assumption|].
      constructor; [exact Hlt|].
      eapply Forall_impl; [exact Hy|]. intros z Hz. simpl in Hz. lra.
    + apply leb_gt in E.
      constructor; [apply IH; assumption|].
      rewrite insertBy_perm_any. constructor; [lra | exact Hy].
Qed.

Lemma filter_apart (P : Q -> Prop) `{!forall x, Decision (P x)} (l : list Q) :
  StronglySorted apart l -> StronglySorted apart (filter P l).
Proof.
  induction 1 as [|x l Hl IH Hx]; [constructor|].
  rewrite filter_cons. destruct (decide (P x)); [|exact IH].
  constructor; [exact IH|].
  rewrite Forall_forall in *. intros y Hy. apply list_elem_of_filter in Hy. apply Hx, Hy.
Qed.

Lemma dedupe_apart (l : list Q) : StronglySorted apart (dedupe eqb l).
Proof.
  induction l as [|x l IH]; simpl; [constructor|].
  constructor; [apply filter_apart; exact IH|].
  rewrite Forall_forall. intros y Hy. apply list_elem_of_filter in Hy.
  destruct Hy as [Hne _]. intros Heq. unfold eqb in Hne.
  apply Qeq_bool_iff in Heq. congruence.
Qed.

Lemma sort_strict (l : list Q) :
  StronglySorted apart l -> StronglySorted Qlt (sortBy ascending l).
Proof.
  induction 1 as [|x l Hl IH Hx]; simpl; [constructor|].
  apply insert_strict; [exact IH|]. rewrite sortBy_perm_any. exact Hx.
Qed.

Lemma istanbulEntry_uncoveredLines (filePath : string) (fileData : jsval)
    (d : CoverageData.t) :
  istanbulEntry filePath fileData = Ok d ->
  CoverageData.uncoveredLines d = []
  \/ exists l, CoverageData.uncoveredLines d = sortBy ascending (dedupe eqb l).
Proof.
  unfold istanbulEntry. intros H.
  apply bind_Ok in H. destruct H as (path & _ & H).
  apply bind_Ok in H. destruct H as (name & _ & H).
  apply bind_Ok in H. destruct H as (lines & _ & H).
  apply bind_Ok in H. destruct H as (pct & _ & H).
  destruct (_ && _)%bool.
  - left. unfold istanbulSummary in H.
    repeat (apply bind_Ok in H; let x := fresh "x" in destruct H as (x & _ & H)).
    injection H as <-. reflexivity.
  - right. unfold istanbulDetailed in H.
    apply bind_Ok in H. destruct H as ([[[[sc lc] tl] cl] ul] & _ & H).
    apply bind_Ok in H. destruct H as ([bc ub] & _ & H).
    apply bind_Ok in H. destruct H as ([fc uf] & _ & H).
    injection H as <-. exists ul. reflexivity.
Qed.

End AscendingLines.

(** X11.  In every record [parseIstanbulJson] returns the uncovered line
    numbers are in strictly ascending order: sorted, and none twice. *)
Theorem X11_istanbul_uncovered_lines_ascending :
  forall (coverage : Coverage.jsval) (files : list Coverage.CoverageData.t),
    Coverage.istanbulFiles coverage = Ok files ->
    Forall (fun d => StronglySorted Qlt (Coverage.CoverageData.uncoveredLines d)) files.
Proof.
  intros coverage files H. rewrite Forall_forall. intros d Hin.
  destruct (istanbulFiles_entries coverage files d H Hin)
    as (es & filePath & fileData & _ & _ & _ & Hd).
  destruct (istanbulEntry_uncoveredLines filePath fileData d Hd) as [-> | (l & ->)].
  - constructor.
  - apply sort_strict, dedupe_apart.
Qed.

Lemma X11_istanbul_uncovered_lines_ascending_witness :
  exists files,
    Coverage.istanbulFiles Samples.repeatedLinesReport = Ok files
    /\ map Coverage.CoverageData.uncoveredLines files = [[3; 9]%Q]
    /\ Forall (fun d => StronglySorted Qlt (Coverage.CoverageData.uncoveredLines d)) files.
Proof.
  eexists. split; [vm_compute; reflexivity|]. split; [reflexivity|].
  apply (X11_istanbul_uncovered_lines_ascending Samples.repeatedLinesReport).
  vm_compute; reflexivity.
Defined.

(** ** Routing by the gaps *)

Section UrgentGaps.
Import Coverage JsNumber.

Lemma find_head_filter {A : Type} (f : A -> bool) (l : list A) :
  List.find f l = head (filter (fun x => f x = true) l).
Proof.
  induction l as [|x l IH]; simpl; [reflexivity|].
  rewrite filter_cons. destruct (f x) eqn:E.
  - rewrite decide_True by reflexivity. reflexivity.
  - rewrite decide_False by discriminate. exact IH.
Qed.

Lemma find_split {A : Type} (f : A -> bool) (l : list A) (x : A) :
  List.find f l = Some x ->
  exists pre post, l = pre ++ x :: post /\ Forall (fun y => f y = false) pre /\ f x = true.
Proof.
  induction l as [|y l IH]; simpl; [discriminate|].
  destruct (f y) eqn:E.
  - intros H. injection H as ->. exists [], l. split; [reflexivity|]. split; [constructor | exact E].
  - intros H. destruct (IH H) as (pre & post & -> & Hpre & Hx).
    exists (y :: pre), post. split; [reflexivity|]. split; [constructor; assumption | exact Hx].
Qed.

Lemma determineRouting_by_gaps (task : string) (gaps : list CoverageGap.t) :
  mentionsTesting task = false -> mentionsSecurity task = false ->
  determineRouting task gaps
  = match List.find isUrgent gaps with
    | Some first =>
        Routing.mk (CoverageApi.primaryAgentOf first) 0.85%Q
          ("Critical coverage gap in " +:+ CoverageGap.filePath first)
          (JsString.of_nat (length (filter (fun g => isUrgent g = true) gaps))
           +:+ " high-priority files need attention")
    | None =>
        Routing.mk "coder" 0.75%Q "Default routing based on task analysis"
          "No coverage data available"
    end.
Proof.
  intros Ht Hs. unfold mentionsTesting in Ht. unfold mentionsSecurity in Hs.
  rewrite find_head_filter. unfold determineRouting.
  destruct gaps as [|g gaps]; [reflexivity|].
  cbn [length Nat.ltb Nat.leb]. rewrite Ht, Hs.
  change (fun g0 : CoverageGap.t =>
            (isGapType (CoverageGap.gapType g0) critical
             || isGapType (CoverageGap.gapType g0) high)%bool = true)
    with (fun g0 : CoverageGap.t => isUrgent g0 = true).
  destruct (filter (fun g0 => isUrgent g0 = true) (g :: gaps)) as [|first rest];
    reflexivity.
Qed.

End UrgentGaps.

(** X12.  For a task that mentions neither testing nor security, the routing
    follows the gaps [analyzeCoverageGaps] found: when one of them is critical
    or high, the agent is the first suggestion of the first such gap, with
    confidence 0.85, and no critical or high gap has a larger priority than
    that one; when none is, the routing is the default, "coder" with
    confidence 0.75. *)
Theorem X12_routing_follows_most_urgent_gap :
  forall (host : Coverage.Host) (coverageData : list Coverage.CoverageData.t)
         (projectRoot : string) (threshold : Q) (task : string),
    mentionsTesting task = false -> mentionsSecurity task = false ->
    let gaps := Coverage.analyzeCoverageGaps host coverageData projectRoot threshold in
    let routing := Coverage.determineRouting task gaps in
    (forall first,
        List.find isUrgent gaps = Some first ->
        Coverage.Routing.primaryAgent routing = CoverageApi.primaryAgentOf first
        /\ Coverage.Routing.confidence routing = 0.85%Q
        /\ Forall (fun g =>
                     isUrgent g = true ->
                     (Coverage.CoverageGap.priority g
                      <= Coverage.CoverageGap.priority first)%Q) gaps)
    /\ (List.find isUrgent gaps = None ->
        Coverage.Routing.primaryAgent routing = "coder"
        /\ Coverage.Routing.confidence routing = 0.75%Q).
Proof.
  intros host coverageData projectRoot threshold task Ht Hs gaps routing.
  subst routing. rewrite (determineRouting_by_gaps task gaps Ht Hs). split.
  - intros first Hfind. rewrite Hfind. split; [reflexivity|]. split; [reflexivity|].
    destruct (find_split _ _ _ Hfind) as (pre & post & Hgaps & Hpre & Hfirst).
    assert (Hsorted : StronglySorted
                        (fun a b => (Coverage.CoverageGap.priority b
                                     <= Coverage.CoverageGap.priority a)%Q) gaps).
    { subst gaps. unfold Coverage.analyzeCoverageGaps.
      apply (sortBy_sorted Coverage.CoverageGap.priority). }
    rewrite Hgaps in *. clear Hgaps.
    apply StronglySorted_app in Hsorted. destruct Hsorted as (_ & _ & Hpost).
    apply StronglySorted_inv in Hpost. destruct Hpost as [_ Hpost].
    apply Forall_app. split.
    + eapply Forall_impl; [exact Hpre|]. intros g Hg Hu. simpl in Hg. congruence.
    + constructor; [intros _; apply Qle_refl|].
      eapply Forall_impl; [exact Hpost|]. intros g Hg _. exact Hg.
  - intros Hnone. rewrite Hnone. split; reflexivity.
Qed.

Lemma X12_routing_follows_most_urgent_gap_witness :
  exists first,
    List.find isUrgent
      (Coverage.analyzeCoverageGaps Examples.bareHost
         [Coverage.CoverageData.mk "src/auth/session.ts" 10 10 10 10 [] [] [] 10 1;
          Examples.halfCovered] "/repo" 80) = Some first
    /\ Coverage.CoverageGap.filePath first = "src/auth/session.ts"
    /\ Coverage.Routing.primaryAgent
         (Coverage.determineRouting "fix the parser"
            (Coverage.analyzeCoverageGaps Examples.bareHost
               [Coverage.CoverageData.mk "src/auth/session.ts" 10 10 10 10 [] [] [] 10 1;
                Examples.halfCovered] "/repo" 80))
       = "security-architect".
Proof.
  eexists. split; [vm_compute; reflexivity|]. split; [reflexivity|].
  match goal with
  | |- Coverage.Routing.primaryAgent (Coverage.determineRouting ?t
         (Coverage.analyzeCoverageGaps ?h ?d ?r ?th)) = _ =>
      pose proof (proj1 (X12_routing_follows_most_urgent_gap h d r th t
                           ltac:(vm_compute; reflexivity) ltac:(vm_compute; reflexivity)))
        as Hx
  end.
  cbv zeta in Hx.
  match type of Hx with
  | forall first, ?f = Some first -> _ =>
      let v := eval vm_compute in f in
      match v with
      | Some ?g => destruct (Hx g ltac:(vm_compute; reflexivity)) as (-> & _)
      end
  end.
  vm_compute; reflexivity.
Defined.

(** ** The two other entry points *)

Section EntryPoints.
Import Coverage CoverageApi.

Lemma assign_lookup (m : gmap string (list string)) (g : CoverageGap.t) (a : string) :
  assign m g !! a
  = if decide (primaryAgentOf g = a)
    then Some (default [] (m !! a) ++ [CoverageGap.filePath g])
    else m !! a.
Proof.
  unfold assign. cbv zeta.
  destruct (decide (primaryAgentOf g = a)) as [<-|Hne].
  - rewrite lookup_insert_eq. destruct (m !! primaryAgentOf g) as [l|] eqn:E.
    + rewrite E. reflexivity.
    + rewrite lookup_insert_eq. reflexivity.
  - rewrite lookup_insert_ne by exact Hne.
    destruct (m !! primaryAgentOf g); [reflexivity|].
    rewrite lookup_insert_ne by exact Hne. reflexivity.
Qed.

Lemma filesOf_cons (a : string) (g : CoverageGap.t) (gaps : list CoverageGap.t) :
  filesOf a (g :: gaps)
  = if decide (primaryAgentOf g = a)
    then CoverageGap.filePath g :: filesOf a gaps
    else filesOf a gaps.
Proof.
  unfold filesOf. rewrite filter_cons.
  destruct (decide (primaryAgentOf g = a)); reflexivity.
Qed.

Lemma assign_loop (gaps : list CoverageGap.t) (a : string) :
  forall m : gmap string (list string),
    fold_left assign gaps m !! a
    = match m !! a, filesOf a gaps with
      | None, [] => None
      | o, fs => Some (default [] o ++ fs)
      end.
Proof.
  induction gaps as [|g gaps IH]; intros m.
  - simpl. destruct (m !! a) as [l|]; [rewrite app_nil_r|]; reflexivity.
  - cbn [fold_left]. rewrite IH, assign_lookup, filesOf_cons.
    destruct (decide (primaryAgentOf g = a)) as [_|_].
    + destruct (m !! a) as [l|]; simpl; rewrite <- ?app_assoc; reflexivity.
    + reflexivity.
Qed.

Lemma slice0_length {A : Type} (n : Z) (l : list A) :
  (0 <= n -> length (slice0 n l) = Nat.min (Z.to_nat n) (length l))
  /\ (n < 0 -> length (slice0 n l) = (length l - Z.to_nat (- n))%nat).
Proof.
  unfold slice0. split; intros H.
  - destruct (Z.ltb_spec n 0); [lia|]. apply length_take.
  - destruct (Z.ltb_spec n 0); [|lia]. rewrite length_take. lia.
Qed.

Lemma slice0_take {A : Type} (n : Z) (l : list A) :
  (0 <= n -> slice0 n l = take (Z.to_nat n) l)
  /\ (n < 0 -> slice0 n l = take (length l - Z.to_nat (- n)) l).
Proof.
  unfold slice0. split; intros H.
  - destruct (Z.ltb_spec n 0) as [Hn|Hn]; [lia|reflexivity].
  - destruct (Z.ltb_spec n 0) as [Hn|Hn]; [|lia]. f_equal. lia.
Qed.

Lemma slice0_sublist {A : Type} (n : Z) (l : list A) : slice0 n l `sublist_of` l.
Proof. unfold slice0. destruct (n <? 0); apply sublist_take. Qed.

End EntryPoints.

(** X13.  Whenever the coverage data loads, [coverageGaps] returns every gap
    of the analysis, a summary whose [filesBelowThreshold] is their number,
    and assignments that group the gaps by their first suggested agent: the
    entry of an agent lists, in the order of the gaps, the files of exactly
    the gaps that suggest this agent first, and an agent without such a gap
    has no entry.  With [groupByAgent: false] there are no assignments. *)
Theorem X13_coverageGaps_groups_by_primary_agent :
  forall (env : CoverageApi.Environment) (options : CoverageApi.GapsOptions.t)
         (loaded : Coverage.Loaded.t),
    let projectRoot :=
      CoverageApi.rootOr (CoverageApi.host env) (CoverageApi.GapsOptions.projectRoot options) in
    let threshold := default 80%Q (CoverageApi.GapsOptions.threshold options) in
    Coverage.loadCoverageData (CoverageApi.host env) projectRoot = Ok loaded ->
    exists r,
      CoverageApi.coverageGaps env options = Ok r
      /\ CoverageApi.CoverageGapsResult.gaps r
         = Coverage.analyzeCoverageGaps (CoverageApi.host env) (Coverage.Loaded.data loaded)
             projectRoot threshold
      /\ Coverage.CoverageSummary.filesBelowThreshold (CoverageApi.CoverageGapsResult.summary r)
         = length (CoverageApi.CoverageGapsResult.gaps r)
      /\ (CoverageApi.GapsOptions.groupByAgent options <> Some false ->
          forall agent,
            CoverageApi.CoverageGapsResult.agentAssignments r !! agent
            = match filesOf agent (CoverageApi.CoverageGapsResult.gaps r) with
              | [] => None
              | files => Some files
              end)
      /\ (CoverageApi.GapsOptions.groupByAgent options = Some false ->
          CoverageApi.CoverageGapsResult.agentAssignments r = ∅).
Proof.
  intros env options loaded projectRoot threshold Hload.
  unfold CoverageApi.coverageGaps. fold projectRoot. fold threshold.
  rewrite Hload. cbn [mbind outcome_bind].
  eexists. split; [reflexivity|].
  cbn [CoverageApi.CoverageGapsResult.gaps CoverageApi.CoverageGapsResult.summary
         CoverageApi.CoverageGapsResult.agentAssignments].
  split; [reflexivity|]. split.
  { destruct (generateCoverageSummary_counts (Coverage.Loaded.data loaded) threshold)
      as [_ Hb].
    rewrite Hb, gaps_count. reflexivity. }
  split.
  - intros Hgroup agent.
    destruct (CoverageApi.GapsOptions.groupByAgent options) as [[|]|]; try congruence;
      cbn [default from_option id]; rewrite assign_loop, lookup_empty;
      destruct (filesOf agent _); reflexivity.
  - intros ->. reflexivity.
Qed.

Lemma X13_coverageGaps_groups_by_primary_agent_witness :
  exists r,
    CoverageApi.coverageGaps Samples.twelveEnvironment
      (CoverageApi.GapsOptions.mk None None None None) = Ok r
    /\ length (CoverageApi.CoverageGapsResult.gaps r) = 12%nat
    /\ (length <$> CoverageApi.CoverageGapsResult.agentAssignments r !! "coder") = Some 12%nat
    /\ CoverageApi.CoverageGapsResult.agentAssignments r !! "tester" = None.
Proof.
  pose (loaded := match Coverage.loadCoverageData Examples.twelveHost "/repo" with
                  | Ok l => l
                  | _ => Coverage.Loaded.mk [] Coverage.none None
                  end).
  destruct (X13_coverageGaps_groups_by_primary_agent Samples.twelveEnvironment
              (CoverageApi.GapsOptions.mk None None None None) loaded
              ltac:(vm_compute; reflexivity))
    as (r & Hr & Hgaps & _ & Hgroup & _).
  exists r. split; [exact Hr|].
  rewrite !(Hgroup ltac:(discriminate)), Hgaps.
  split; [vm_compute; reflexivity|]. split; vm_compute; reflexivity.
Defined.

(** X14.  Whenever the coverage data loads, [coverageSuggest] returns gaps of
    records under the requested path only, each with a mean, as the code
    computes it, below the threshold; with a limit that is not negative the
    suggestions are the first [limit] gaps, with a negative limit they are
    the gaps without the last [- limit] of them; the prioritized files are
    those of the first ten gaps; and the summary counts the records under
    the path. *)
Theorem X14_coverageSuggest_filters_and_limits :
  forall (env : CoverageApi.Environment) (path : string)
         (options : CoverageApi.SuggestOptions.t) (loaded : Coverage.Loaded.t),
    let projectRoot :=
      CoverageApi.rootOr (CoverageApi.host env)
        (CoverageApi.SuggestOptions.projectRoot options) in
    let threshold := default 80%Q (CoverageApi.SuggestOptions.threshold options) in
    let limit := default 20 (CoverageApi.SuggestOptions.limit options) in
    let selected :=
      filter (fun d => CoverageApi.underPath env projectRoot path d = true)
        (Coverage.Loaded.data loaded) in
    let gaps := Coverage.analyzeCoverageGaps (CoverageApi.host env) selected projectRoot
                  threshold in
    Coverage.loadCoverageData (CoverageApi.host env) projectRoot = Ok loaded ->
    exists r,
      CoverageApi.coverageSuggest env path options = Ok r
      /\ (0 <= limit ->
          length (CoverageApi.CoverageSuggestResult.suggestions r)
          = Nat.min (Z.to_nat limit) (length gaps))
      /\ (limit < 0 ->
          length (CoverageApi.CoverageSuggestResult.suggestions r)
          = (length gaps - Z.to_nat (- limit))%nat)
      /\ (0 <= limit ->
          CoverageApi.CoverageSuggestResult.suggestions r = take (Z.to_nat limit) gaps)
      /\ (limit < 0 ->
          CoverageApi.CoverageSuggestResult.suggestions r
          = take (length gaps - Z.to_nat (- limit)) gaps)
      /\ Forall
           (fun g =>
              exists d,
                d ∈ Coverage.Loaded.data loaded
                /\ CoverageApi.underPath env projectRoot path d = true
                /\ Coverage.CoverageGap.filePath g = Coverage.CoverageData.filePath d
                /\ (Coverage.averageCoverage d < threshold)%Q)
           (CoverageApi.CoverageSuggestResult.suggestions r)
      /\ CoverageApi.CoverageSuggestResult.prioritizedFiles r
         = map Coverage.CoverageGap.filePath (take 10 gaps)
      /\ Coverage.CoverageSummary.totalFiles (CoverageApi.CoverageSuggestResult.summary r)
         = length selected.
Proof.
  intros env path options loaded projectRoot threshold limit selected gaps Hload.
  unfold CoverageApi.coverageSuggest. fold projectRoot. fold threshold. fold limit.
  rewrite Hload. cbn [mbind outcome_bind]. fold selected. fold gaps.
  eexists. split; [reflexivity|].
  cbn [CoverageApi.CoverageSuggestResult.suggestions
         CoverageApi.CoverageSuggestResult.prioritizedFiles
         CoverageApi.CoverageSuggestResult.summary].
  split; [apply slice0_length|]. split; [apply slice0_length|].
  split; [apply slice0_take|]. split; [apply slice0_take|]. split; [|split].
  - rewrite Forall_forall. intros g Hg.
    apply (fun H => elem_of_sublist _ _ _ H (slice0_sublist limit gaps)) in Hg.
    subst gaps. rewrite analyzeCoverageGaps_perm in Hg.
    apply list_elem_of_fmap in Hg. destruct Hg as (d & -> & Hd).
    apply list_elem_of_filter in Hd. destruct Hd as [Hlt Hd].
    subst selected. apply list_elem_of_filter in Hd. destruct Hd as [Hunder Hd].
    exists d. split; [exact Hd|]. split; [exact Hunder|]. split; [reflexivity|].
    apply ltb_lt. exact Hlt.
  - reflexivity.
  - apply generateCoverageSummary_counts.
Qed.

Lemma X14_coverageSuggest_filters_and_limits_witness :
  exists r,
    CoverageApi.coverageSuggest Samples.twelveEnvironment "src"
      (CoverageApi.SuggestOptions.mk None None None (Some 5)) = Ok r
    /\ length (CoverageApi.CoverageSuggestResult.suggestions r) = 5%nat
    /\ length (CoverageApi.CoverageSuggestResult.prioritizedFiles r) = 10%nat.
Proof.
  pose (loaded := match Coverage.loadCoverageData Examples.twelveHost "/repo" with
                  | Ok l => l
                  | _ => Coverage.Loaded.mk [] Coverage.none None
                  end).
  destruct (X14_coverageSuggest_filters_and_limits Samples.twelveEnvironment "src"
              (CoverageApi.SuggestOptions.mk None None None (Some 5)) loaded
              ltac:(vm_compute; reflexivity))
    as (r & Hr & Hlen & _ & _ & _ & _ & Hprio & _).
  exists r. split; [exact Hr|].
  rewrite Hprio, (Hlen ltac:(simpl; lia)). split; vm_compute; reflexivity.
Defined.

(** ** The classification and the risk of a change set *)

Section ClassifyCounts.
Import Diff JsNumber.

Lemma countFile_counted (c : Categories) (f : DiffFile.t) :
  counted (countFile c f) = S (counted c).
Proof.
  unfold countFile.
  repeat match goal with
         | |- context [if ?b then _ else _] => destruct b
         end;
    try destruct (DiffFile.status f); destruct c; unfold counted; simpl; lia.
Qed.

Lemma countFiles_counted (files : list DiffFile.t) :
  forall c, counted (fold_left countFile files c) = (length files + counted c)%nat.
Proof.
  induction files as [|f files IH]; intros c; simpl; [reflexivity|].
  rewrite IH, countFile_counted. lia.
Qed.

Lemma dominant_bounds (c : Categories) :
  (fst (dominant c) <= counted c <= 9 * fst (dominant c))%nat.
Proof.
  unfold dominant.
  destruct (dominant_scan (entries c) 0%nat "feature") as (_ & Hall & Hcase).
  destruct (fold_left dominantStep (entries c) (0%nat, "feature")) as [m cat].
  simpl in *. split.
  - destruct Hcase as [Heq | (_ & pre & post & Hes & _)];
      [injection Heq as -> _; lia|].
    assert (Hin : (cat, m) ∈ entries c) by (rewrite Hes; set_solver).
    clear Hes Hall. unfold entries in Hin.
    repeat (apply elem_of_cons in Hin; destruct Hin as [Hin|Hin];
            [injection Hin as _ ->; destruct c; unfold counted; simpl; lia|]).
    apply elem_of_nil in Hin. contradiction.
  - unfold entries in Hall. rewrite !Forall_cons in Hall.
    destruct c; unfold counted; simpl in *. lia.
Qed.

Lemma share_at_least_ninth (m t : nat) :
  (0 < t)%nat -> (m <= t <= 9 * m)%nat ->
  ((1 # 9) <= of_nat m / of_nat t <= 1)%Q.
Proof.
  intros Ht [Hm H9].
  assert (Hpos : (0 < of_nat t)%Q) by (unfold of_nat, Qlt; simpl; lia).
  split.
  - apply Qle_shift_div_l; [exact Hpos|]. unfold of_nat, Qle. simpl. lia.
  - apply Qle_shift_div_r; [exact Hpos|]. unfold of_nat, Qle. simpl. lia.
Qed.

End ClassifyCounts.

(** X15.  [classifyDiff] puts every file in exactly one of the nine
    categories, so the counters add up to the number of files.  Without a
    file the answer is "feature" with a confidence of one half; with files
    the confidence is at least 1/9 + 0.2, the share the dominant one of nine
    categories has at least, and never more than 0.95. *)
Theorem X15_classifyDiff_counts_and_confidence :
  forall files : list Diff.DiffFile.t,
    counted (Diff.countCategories files) = length files
    /\ match files with
       | [] =>
           Diff.DiffClassification.category (Diff.classifyDiff files) = "feature"
           /\ Diff.DiffClassification.confidence (Diff.classifyDiff files) = 0.5%Q
       | _ :: _ =>
           ((14 # 45) <= Diff.DiffClassification.confidence (Diff.classifyDiff files)
            <= (19 # 20))%Q
       end.
Proof.
  intros files.
  assert (Hcount : counted (Diff.countCategories files) = length files).
  { unfold Diff.countCategories. rewrite countFiles_counted. cbn. lia. }
  split; [exact Hcount|].
  destruct files as [|f files]; [split; reflexivity|].
  pose proof (dominant_bounds (Diff.countCategories (f :: files))) as Hb.
  unfold Diff.classifyDiff.
  destruct (Diff.dominant (Diff.countCategories (f :: files))) as [maxCount category].
  cbn [Diff.DiffClassification.confidence fst] in *.
  change (fold_left Nat.add (map snd (Diff.entries (Diff.countCategories (f :: files)))) 0%nat)
    with (counted (Diff.countCategories (f :: files))).
  rewrite Hcount in *. cbn [length] in *.
  set (t := S (length files)) in *.
  assert (Ht : (0 < t)%nat) by (subst t; lia).
  destruct (Nat.ltb_spec 0 t) as [_|]; [|lia].
  pose proof (share_at_least_ninth maxCount t Ht Hb) as Hshare.
  set (share := (JsNumber.of_nat maxCount / JsNumber.of_nat t)%Q) in *.
  unfold JsNumber.fadd, JsNumber.fdiv. fold share.
  assert (Hcap : ((14 # 45) <= JsNumber.round64 0.95 <= (19 # 20))%Q)
    by (split; vm_compute; discriminate).
  assert (Hninth : (JsNumber.round64 (1 # 9) <= JsNumber.round64 share)%Q)
    by (apply round64_le; lra).
  assert (Hsum : (JsNumber.round64 (JsNumber.round64 (1 # 9) + JsNumber.round64 0.2)
                  <= JsNumber.round64 (JsNumber.round64 share + JsNumber.round64 0.2))%Q)
    by (apply round64_le; lra).
  assert (Hleast : ((14 # 45)
                    <= JsNumber.round64 (JsNumber.round64 (1 # 9) + JsNumber.round64 0.2))%Q)
    by (vm_compute; discriminate).
  set (sum := JsNumber.round64 (JsNumber.round64 share + JsNumber.round64 0.2)) in *.
  set (cap := JsNumber.round64 0.95) in *.
  unfold JsNumber.Math_min.
  destruct (JsNumber.leb cap sum) eqn:E;
    [apply leb_le in E | apply leb_gt in E]; split; lra.
Qed.

Section FileRiskReasons.
Import Diff.

(** Every reason stands for at most 25 points, and the ten points of a
    change of 51 to 200 lines come without one. *)
Local Abbreviation accounted :=
  (fun p : Z * list string => fst p <= 10 + 25 * Z.of_nat (length (snd p))).

Lemma assessFileRisk_reasons_account (f : DiffFile.t) :
  FileRisk.score (assessFileRisk f)
  <= 10 + 25 * Z.of_nat (length (FileRisk.reasons (assessFileRisk f))).
Proof.
  unfold assessFileRisk.
  set (size := if 500 <? _ then _ else _).
  assert (Hsize : accounted size).
  { subst size. repeat match goal with
                       | |- context [?a <? ?b] => destruct (a <? b)
                       end; simpl; lia. }
  destruct size as [s0 r0]; simpl in Hsize.
  match goal with
  | |- context [fold_left ?step HIGH_RISK_PATTERNS ?a] =>
      assert (Hhigh : accounted (fold_left step HIGH_RISK_PATTERNS a));
      [ apply (fold_left_invariant accounted); [exact Hsize|];
        intros [s r] [p reason] Hs; simpl in *;
        destruct (Regex.test_i _ _); simpl; rewrite ?length_app; simpl; lia
      | destruct (fold_left step HIGH_RISK_PATTERNS a) as [s1 r1]; simpl in Hhigh ]
  end.
  match goal with
  | |- context [fold_left ?step MEDIUM_RISK_PATTERNS ?a] =>
      assert (Hmed : accounted (fold_left step MEDIUM_RISK_PATTERNS a));
      [ apply (fold_left_invariant accounted); [exact Hhigh|];
        intros [s r] [p reason] Hs; simpl in *;
        destruct (Regex.test_i _ _); simpl; rewrite ?length_app; simpl; lia
      | destruct (fold_left step MEDIUM_RISK_PATTERNS a) as [s2 r2]; simpl in Hmed ]
  end.
  match goal with
  | |- context [fold_left ?step SAFE_PATTERNS ?a] =>
      assert (Hsafe : accounted (fold_left step SAFE_PATTERNS a));
      [ apply (fold_left_invariant accounted); [exact Hmed|];
        intros [s r] [p reason] Hs; simpl in *;
        destruct (Regex.test_i _ _); simpl; rewrite ?length_app; simpl; lia
      | destruct (fold_left step SAFE_PATTERNS a) as [s3 r3]; simpl in Hsafe ]
  end.
  destruct (DiffFile.status f), (DiffFile.binary f); simpl; rewrite ?length_app; simpl; lia.
Qed.

Lemma assessFileRisk_path (f : DiffFile.t) :
  FileRisk.path (assessFileRisk f) = DiffFile.path f.
Proof.
  unfold assessFileRisk.
  repeat match goal with
         | |- context [let '(_, _) := ?x in _] => destruct x
         end; reflexivity.
Qed.

End FileRiskReasons.

(** X16.  [assessFileRisk] accounts for its score: the record keeps the path
    of the file, every reason it lists stands for at most 25 points and only
    ten points come without a reason, so a file with a label above low-risk
    has a reason, a high-risk one has two and a critical one three. *)
Theorem X16_assessFileRisk_score_has_reasons :
  forall f : Diff.DiffFile.t,
    let r := Diff.assessFileRisk f in
    Diff.FileRisk.path r = Diff.DiffFile.path f
    /\ Diff.FileRisk.score r <= 10 + 25 * Z.of_nat (length (Diff.FileRisk.reasons r))
    /\ (Diff.FileRisk.risk r <> Diff.low_risk -> (1 <= length (Diff.FileRisk.reasons r))%nat)
    /\ (Diff.FileRisk.risk r = Diff.high_risk -> (2 <= length (Diff.FileRisk.reasons r))%nat)
    /\ (Diff.FileRisk.risk r = Diff.critical -> (3 <= length (Diff.FileRisk.reasons r))%nat).
Proof.
  intros f r.
  pose proof (assessFileRisk_reasons_account f) as Hacc.
  destruct (assessFileRisk_score_risk f) as [_ Hlabel].
  fold r in Hacc, Hlabel.
  split; [apply assessFileRisk_path|].
  split; [exact Hacc|].
  rewrite Hlabel. unfold riskOfScore.
  repeat match goal with
         | |- context [?a <=? ?b] => destruct (Z.leb_spec a b)
         end; repeat split; intros Hrisk; try congruence; lia.
Qed.

Section OverallRisk.
Import Diff DiffAnalysis JsNumber.

Lemma pushes_length {A B : Type} (step : list B -> A -> list B) (l : list A) :
  (forall acc x, (length acc <= length (step acc x) <= S (length acc))%nat) ->
  forall acc,
    (length acc <= length (fold_left step l acc) <= length acc + length l)%nat.
Proof.
  intros Hstep. induction l as [|x l IH]; intros acc; simpl; [lia|].
  specialize (IH (step acc x)). specialize (Hstep acc x). lia.
Qed.

Lemma scores_sum_nonneg (fileRisks : list FileRisk.t) :
  Forall (fun r => 0 <= FileRisk.score r) fileRisks ->
  forall acc,
    0 <= acc -> 0 <= fold_left (fun sum f => sum + FileRisk.score f) fileRisks acc.
Proof.
  induction 1 as [|r l Hr _ IH]; intros acc Hacc; simpl; [exact Hacc|].
  apply IH. lia.
Qed.

Lemma Math_round_at_least (k : Z) (x : Q) : (inject_Z k <= x)%Q -> k <= Math_round x.
Proof.
  intros H. unfold Math_round. rewrite <- (Qfloor_Z k).
  apply Qfloor_resp_le. lra.
Qed.

Lemma round64_at_least (k : Z) (x : Q) :
  - 2 ^ 53 <= k <= 2 ^ 53 -> (inject_Z k <= x)%Q -> (inject_Z k <= round64 x)%Q.
Proof.
  intros Hk H. rewrite <- (round64_Z k Hk). apply round64_le. exact H.
Qed.

Lemma of_nat_times_ten (n : nat) : (of_nat n * 10 == inject_Z (10 * Z.of_nat n))%Q.
Proof. unfold of_nat, Qeq. simpl. lia. Qed.

Lemma assessOverallRisk_at_least (files : list DiffFile.t) (fileRisks : list FileRisk.t) :
  Forall (fun r => 0 <= FileRisk.score r) fileRisks ->
  let a := assessOverallRisk files fileRisks in
  Z.min 100
    (10 * (Z.of_nat (length (Breakdown.securityConcerns (DiffRiskAssessment.breakdown a)))
           + Z.of_nat (length (Breakdown.breakingChanges (DiffRiskAssessment.breakdown a)))))
  <= DiffRiskAssessment.score a.
Proof.
  intros Hscores a. subst a. unfold assessOverallRisk.
  cbn [DiffRiskAssessment.breakdown DiffRiskAssessment.score Breakdown.securityConcerns
         Breakdown.breakingChanges].
  match goal with
  | |- context [Z.min 100 (Math_round (fadd (fadd ?base (of_nat (length ?sec) * 10))
                                          (of_nat (length ?brk) * 10)))] =>
      set (concerns := length sec); set (breaking := length brk);
      assert (Hbase : (0 <= base)%Q); [|set (score := base) in *]
  end.
  { match goal with
    | |- context [if (0 <? length fileRisks)%nat then ?avg else _] =>
        assert (Havg : (0 <= (if (0 <? length fileRisks)%nat then avg else 0))%Q)
    end.
    { destruct (Nat.ltb_spec 0 (length fileRisks)) as [Hlen|_]; [|lra].
      unfold fdiv. apply round64_nonneg.
      apply Qle_shift_div_l; [unfold of_nat, Qlt; simpl; lia|].
      pose proof (scores_sum_nonneg fileRisks Hscores 0 ltac:(lia)) as Hsum.
      unfold Qle. simpl. lia. }
    repeat match goal with
           | |- context [if (?n <? length files)%nat then _ else _] =>
               destruct (n <? length files)%nat
           end; try exact Havg; unfold fadd; apply round64_nonneg; lra. }
  pose proof (of_nat_times_ten concerns) as Hc. pose proof (of_nat_times_ten breaking) as Hb.
  set (m1 := Z.min 100 (10 * Z.of_nat concerns)).
  assert (H1 : (inject_Z m1 <= fadd score (of_nat concerns * 10))%Q).
  { unfold fadd. apply round64_at_least; [lia|].
    assert (Hm : (inject_Z m1 <= inject_Z (10 * Z.of_nat concerns))%Q)
      by (rewrite <- Zle_Qle; lia).
    lra. }
  set (m2 := Z.min 100 (10 * (Z.of_nat concerns + Z.of_nat breaking))).
  assert (H2 : (inject_Z m2
                <= fadd (fadd score (of_nat concerns * 10)) (of_nat breaking * 10))%Q).
  { unfold fadd at 1. apply round64_at_least; [lia|].
    assert (Hm : (inject_Z m2 <= inject_Z m1 + inject_Z (10 * Z.of_nat breaking))%Q)
      by (rewrite <- inject_Z_plus, <- Zle_Qle; lia).
    lra. }
  apply Math_round_at_least in H2. lia.
Qed.

Lemma assessOverallRisk_capped (files : list DiffFile.t) (fileRisks : list FileRisk.t) :
  DiffRiskAssessment.score (assessOverallRisk files fileRisks) <= 100
  /\ DiffRiskAssessment.overall (assessOverallRisk files fileRisks)
     = riskOfScore (DiffRiskAssessment.score (assessOverallRisk files fileRisks)).
Proof.
  unfold assessOverallRisk. cbn [DiffRiskAssessment.score DiffRiskAssessment.overall].
  split; [lia | reflexivity].
Qed.

End OverallRisk.

(** X17.  [assessOverallRisk] on file risks whose scores are not negative:
    the score is a whole number from 0 to 100, it is at least ten for every
    security concern and every potential breaking change (up to the cap),
    the label follows the score by the thresholds 70, 50 and 25, there is at
    most one concern and one breaking change for each file, and the breakdown
    counts the files. *)
Theorem X17_assessOverallRisk_score :
  forall (files : list Diff.DiffFile.t) (fileRisks : list Diff.FileRisk.t),
    Forall (fun r => 0 <= Diff.FileRisk.score r) fileRisks ->
    let a := DiffAnalysis.assessOverallRisk files fileRisks in
    let b := DiffAnalysis.DiffRiskAssessment.breakdown a in
    let concerns := length (DiffAnalysis.Breakdown.securityConcerns b) in
    let breaking := length (DiffAnalysis.Breakdown.breakingChanges b) in
    Z.min 100 (10 * (Z.of_nat concerns + Z.of_nat breaking))
    <= DiffAnalysis.DiffRiskAssessment.score a <= 100
    /\ DiffAnalysis.DiffRiskAssessment.overall a
       = riskOfScore (DiffAnalysis.DiffRiskAssessment.score a)
    /\ (concerns <= length files)%nat
    /\ (breaking <= length files)%nat
    /\ (length (DiffAnalysis.Breakdown.highRiskFiles b) <= length fileRisks)%nat
    /\ DiffAnalysis.Breakdown.fileCount b = length files.
Proof.
  intros files fileRisks Hscores a b concerns breaking.
  pose proof (assessOverallRisk_at_least files fileRisks Hscores) as Hlow.
  destruct (assessOverallRisk_capped files fileRisks) as [Hcap Hlabel].
  split; [split; [exact Hlow | exact Hcap]|]. split; [exact Hlabel|].
  subst concerns breaking b a. unfold DiffAnalysis.assessOverallRisk.
  cbn [DiffAnalysis.DiffRiskAssessment.breakdown DiffAnalysis.Breakdown.securityConcerns
         DiffAnalysis.Breakdown.breakingChanges DiffAnalysis.Breakdown.highRiskFiles
         DiffAnalysis.Breakdown.fileCount].
  split; [|split; [|split; [|reflexivity]]].
  - match goal with
    | |- (length (fold_left ?step files []) <= _)%nat =>
        apply (pushes_length step files
                 ltac:(intros acc x; simpl;
                       destruct (Regex.test_i _ _); rewrite ?length_app; simpl; lia)
                 [])
    end.
  - match goal with
    | |- (length (fold_left ?step files []) <= _)%nat =>
        apply (pushes_length step files
                 ltac:(intros acc x; simpl;
                       destruct (Regex.test_i _ _); [destruct (_ <? _)|];
                       rewrite ?length_app; simpl; lia)
                 [])
    end.
  - rewrite length_map. apply length_filter.
Qed.

Lemma X17_assessOverallRisk_score_witness :
  10 <= DiffAnalysis.DiffRiskAssessment.score
          (DiffAnalysis.assessOverallRisk [Examples.login; Examples.readme]
             (map Diff.assessFileRisk [Examples.login; Examples.readme])) <= 100.
Proof.
  pose proof (X17_assessOverallRisk_score [Examples.login; Examples.readme]
                (map Diff.assessFileRisk [Examples.login; Examples.readme])
                ltac:(repeat constructor; vm_compute; discriminate)) as H.
  cbv zeta in H. destruct H as [[Hlo Hhi] _]. split; [|exact Hhi].
  eapply Z.le_trans; [|exact Hlo]. vm_compute. discriminate.
Defined.

(** ** Reviewers *)

Section Reviewers.
Import Diff DiffAnalysis JsNumber.

Lemma setScore_keys (scores : list (string * nat)) (reviewer : string) (n : nat) :
  map fst (setScore scores reviewer n)
  = map fst scores ++ (if decide (reviewer ∈ map fst scores) then [] else [reviewer]).
Proof.
  induction scores as [|[r m] rest IH]; simpl.
  - destruct (decide (reviewer ∈ [])) as [Hin|_]; [|reflexivity].
    apply elem_of_nil in Hin. contradiction.
  - destruct (String.eqb_spec r reviewer) as [->|Hne]; simpl.
    + destruct (decide (reviewer ∈ reviewer :: map fst rest)) as [_|Hout];
        [rewrite app_nil_r; reflexivity | exfalso; apply Hout; left].
    + rewrite IH. f_equal.
      destruct (decide (reviewer ∈ map fst rest)) as [Hin|Hout],
               (decide (reviewer ∈ r :: map fst rest)) as [Hin'|Hout'];
        try reflexivity.
      * exfalso. apply Hout'. right. exact Hin.
      * exfalso. apply elem_of_cons in Hin'. destruct Hin' as [Heq|Hin']; auto.
Qed.

Lemma addScore_wellKept (points : nat) (scores : list (string * nat)) (reviewer : string) :
  reviewer ∈ knownReviewers -> wellKept scores -> wellKept (addScore points scores reviewer).
Proof.
  intros Hknown [Hnodup Hall]. unfold wellKept, addScore. rewrite setScore_keys.
  destruct (decide (reviewer ∈ map fst scores)) as [Hin|Hout]; rewrite ?app_nil_r.
  - split; assumption.
  - split.
    + apply NoDup_app. split; [exact Hnodup|]. split; [|apply NoDup_singleton].
      intros x Hx Hx'. apply list_elem_of_singleton in Hx'. subst x. contradiction.
    + apply Forall_app. split; [exact Hall|]. constructor; [exact Hknown | constructor].
Qed.

Lemma addScores_wellKept (points : nat) (reviewers : list string) :
  Forall (fun r => r ∈ knownReviewers) reviewers ->
  forall scores, wellKept scores -> wellKept (fold_left (addScore points) reviewers scores).
Proof.
  induction 1 as [|r l Hr _ IH]; intros scores Hs; simpl; [exact Hs|].
  apply IH, addScore_wellKept; assumption.
Qed.

Lemma table_known (table : list (string * list string)) (key : string)
    (reviewers : list string) :
  (key, reviewers) ∈ table -> Forall (fun r => r ∈ concat (map snd table)) reviewers.
Proof.
  intros Hin. rewrite Forall_forall. intros r Hr.
  induction table as [|entry rest IH]; [apply elem_of_nil in Hin; contradiction|].
  simpl. apply elem_of_app. apply elem_of_cons in Hin. destruct Hin as [<-|Hin].
  - left. exact Hr.
  - right. apply IH. exact Hin.
Qed.

Lemma reviewersFor_known (ext : string) (table : list (string * list string)) :
  Forall (fun r => r ∈ concat (map snd table)) (reviewersFor ext table).
Proof.
  induction table as [|[key reviewers] rest IH]; simpl; [constructor|].
  destruct (String.eqb key ext).
  - rewrite Forall_forall. intros r Hr. apply elem_of_app. left. exact Hr.
  - eapply Forall_impl; [exact IH|]. intros r Hr. apply elem_of_app. right. exact Hr.
Qed.

Lemma fold_left_invariant_in {A B : Type} (P : A -> Prop) (f : A -> B -> A) (l : list B) :
  (forall a x, x ∈ l -> P a -> P (f a x)) -> forall a, P a -> P (fold_left f l a).
Proof.
  induction l as [|x l IH]; intros Hstep a Ha; simpl; [exact Ha|].
  apply IH.
  - intros a' x' Hx'. apply Hstep. right. exact Hx'.
  - apply Hstep; [left | exact Ha].
Qed.

Lemma scoreFile_wellKept (scores : list (string * nat)) (file : DiffFile.t) :
  wellKept scores -> wellKept (scoreFile scores file).
Proof.
  intros Hs. unfold scoreFile.
  apply (fold_left_invariant_in wellKept).
  - intros a [pattern reviewers] Hin Ha.
    destruct (JsString.includes _ pattern); [|exact Ha].
    apply addScores_wellKept; [|exact Ha].
    exact (table_known REVIEWER_PATTERNS pattern reviewers Hin).
  - apply addScores_wellKept; [|exact Hs]. apply reviewersFor_known.
Qed.

Lemma scoreRisk_wellKept (scores : list (string * nat)) (risk : FileRisk.t) :
  wellKept scores -> wellKept (scoreRisk scores risk).
Proof.
  intros Hs. unfold scoreRisk.
  assert (Hsenior : "senior-reviewer" ∈ knownReviewers)
    by (apply (bool_decide_unpack _); vm_compute; exact I).
  assert (Hsecurity : "security-expert" ∈ knownReviewers)
    by (apply (bool_decide_unpack _); vm_compute; exact I).
  destruct (existsb _ _); repeat apply addScore_wellKept; assumption.
Qed.

Lemma reviewerScores_wellKept (files : list DiffFile.t) (fileRisks : list FileRisk.t) :
  wellKept (reviewerScores files fileRisks).
Proof.
  unfold reviewerScores.
  apply (fold_left_invariant wellKept); [|intros a x; apply scoreRisk_wellKept].
  apply (fold_left_invariant wellKept); [|intros a x; apply scoreFile_wellKept].
  split; constructor.
Qed.

Lemma one_entry {A B : Type} (l : list (A * B)) (k : A) (v v' : B) :
  NoDup (map fst l) -> (k, v) ∈ l -> (k, v') ∈ l -> v = v'.
Proof.
  induction l as [|[k0 v0] l IH]; intros Hnodup Hv Hv'.
  - apply elem_of_nil in Hv. contradiction.
  - simpl in Hnodup. apply NoDup_cons in Hnodup. destruct Hnodup as [Hk0 Hnodup].
    apply elem_of_cons in Hv, Hv'.
    destruct Hv as [Hv|Hv], Hv' as [Hv'|Hv'].
    + congruence.
    + injection Hv as -> ->. exfalso. apply Hk0.
      apply (list_elem_of_fmap_2 fst _ (k0, v')). exact Hv'.
    + injection Hv' as -> ->. exfalso. apply Hk0.
      apply (list_elem_of_fmap_2 fst _ (k0, v)). exact Hv.
    + apply IH; assumption.
Qed.

End Reviewers.

(** X18.  [suggestReviewers] returns the five best-scored reviewers, or all
    of them when there are fewer: no reviewer twice, every one taken from the
    table of reviewers, and none left out has a higher score than one that
    is returned. *)
Theorem X18_suggestReviewers_top_five :
  forall (files : list Diff.DiffFile.t) (fileRisks : list Diff.FileRisk.t),
    let scores := DiffAnalysis.reviewerScores files fileRisks in
    let reviewers := DiffAnalysis.suggestReviewers files fileRisks in
    length reviewers = Nat.min 5 (length scores)
    /\ NoDup reviewers
    /\ NoDup (map fst scores)
    /\ Forall (fun r => r ∈ knownReviewers) reviewers
    /\ (forall r n r' n',
          (r, n) ∈ scores -> (r', n') ∈ scores -> r ∈ reviewers -> r' ∉ reviewers ->
          (n' <= n)%nat).
Proof.
  intros files fileRisks scores reviewers.
  destruct (reviewerScores_wellKept files fileRisks) as [Hnodup Hknown].
  fold scores in Hnodup, Hknown.
  subst reviewers. unfold DiffAnalysis.suggestReviewers. fold scores.
  set (key := fun e : string * nat => JsNumber.of_nat (snd e)).
  pose proof (sortBy_sorted key scores) as Hsorted.
  pose proof (sortBy_perm key scores) as Hperm.
  cbv beta in Hsorted, Hperm. subst key. cbv beta in Hsorted, Hperm.
  set (sorted := Coverage.sortBy _ scores) in *.
  assert (Hsub : map fst (take 5 sorted) `sublist_of` map fst sorted)
    by (change (map fst (take 5 sorted)) with (fst <$> take 5 sorted);
        rewrite fmap_take; apply sublist_take).
  assert (Hnodup' : NoDup (map fst sorted)) by (rewrite Hperm; exact Hnodup).
  split; [rewrite length_map, length_take, Hperm; reflexivity|].
  split; [eapply sublist_NoDup; eassumption|].
  split; [exact Hnodup|]. split.
  - rewrite Forall_forall in *. intros r Hr. apply Hknown. rewrite <- Hperm.
    eapply elem_of_sublist; eassumption.
  - intros r n r' n' Hr Hr' Hin Hout.
    rewrite <- Hperm in Hr, Hr'.
    apply list_elem_of_fmap in Hin. destruct Hin as ([r0 n0] & -> & Hin). simpl in *.
    assert (n0 = n).
    { eapply (one_entry sorted r0); [exact Hnodup' | | exact Hr].
      eapply elem_of_sublist; [exact Hin | apply sublist_take]. }
    subst n0.
    assert (Hrest : (r', n') ∈ drop 5 sorted).
    { rewrite <- (take_drop 5 sorted) in Hr'. apply elem_of_app in Hr'.
      destruct Hr' as [Hr'|Hr']; [|exact Hr'].
      exfalso. apply Hout. apply (list_elem_of_fmap_2 fst _ (r', n')). exact Hr'. }
    rewrite <- (take_drop 5 sorted) in Hsorted.
    pose proof (StronglySorted_app_1_elem_of _ _ _ _ _ Hsorted Hin Hrest) as Hle.
    simpl in Hle. unfold JsNumber.of_nat, Qle in Hle. simpl in Hle. lia.
Qed.

(** ** The version-control adapter *)

Section Numstat.
Import JsString Diff.

(** A numstat line has the three fields the loop reads. *)
Local Abbreviation complete := (fun line : string => (3 <=? length (split line TAB))%nat = true).

(** What the loop gives every file it builds. *)
Local Abbreviation built :=
  (fun (statusMap : gmap string string) (f : DiffFile.t) =>
     DiffFile.hunks f = 1
     /\ DiffFile.oldPath f = None
     /\ (DiffFile.binary f = true -> DiffFile.additions f = 0 /\ DiffFile.deletions f = 0)
     /\ (statusMap !! DiffFile.path f = None -> DiffFile.status f = modified)).

Lemma countField_dash (field : string) (n : Z) :
  String.eqb field "-" = true -> countField field = Ok n -> n = 0.
Proof. unfold countField. intros ->. congruence. Qed.

Lemma numstat_loop (statusMap : gmap string string) (lines : list string) :
  forall acc files,
    for_of lines acc (numstatLine statusMap) = Ok files ->
    exists new,
      files = acc ++ new
      /\ map DiffFile.path new
         = map (fun line => nth 2 (split line TAB) "") (filter complete lines)
      /\ Forall (built statusMap) new.
Proof.
  induction lines as [|line lines IH]; intros acc files H; cbn [for_of] in H.
  - injection H as <-. exists []. rewrite app_nil_r. repeat split; constructor.
  - destruct (numstatLine statusMap acc line) as [acc'| |] eqn:Hline;
      cbn [mbind outcome_bind] in H; try discriminate.
    apply IH in H. destruct H as (new & -> & Hpaths & Hbuilt).
    unfold numstatLine in Hline.
    destruct (3 <=? length (split line TAB))%nat eqn:E.
    + destruct (countField (nth 0 (split line TAB) "")) as [additions| |] eqn:Ea;
        cbn [mbind outcome_bind] in Hline; try discriminate.
      destruct (countField (nth 1 (split line TAB) "")) as [deletions| |] eqn:Ed;
        cbn [mbind outcome_bind] in Hline; try discriminate.
      injection Hline as <-.
      eexists (_ :: new). split; [rewrite <- app_assoc; reflexivity|].
      rewrite filter_cons_True by exact E. split; [simpl; f_equal; exact Hpaths|].
      constructor; [|exact Hbuilt].
      cbn [DiffFile.hunks DiffFile.oldPath DiffFile.binary DiffFile.additions
             DiffFile.deletions DiffFile.path DiffFile.status].
      split; [reflexivity|]. split; [reflexivity|]. split.
      * intros Hbin. apply andb_prop in Hbin. destruct Hbin as [H0 H1].
        split; [exact (countField_dash _ _ H0 Ea) | exact (countField_dash _ _ H1 Ed)].
      * intros ->. reflexivity.
    + injection Hline as <-.
      exists new. split; [reflexivity|].
      rewrite filter_cons_False by (rewrite E; discriminate).
      split; assumption.
Qed.

End Numstat.

(** X19.  When [getGitDiffNumstat] returns, both queries succeeded and the
    files are, in order, the numstat lines that have three fields, with the
    third field as the path.  Every file has one hunk and no old path, also
    a renamed one; a binary file counts no added and no deleted line; and a
    path the name-status output does not list is taken as modified. *)
Theorem X19_getGitDiffNumstat_files :
  forall (sh : Diff.Shell) (ref cwd : option string) (files : list Diff.DiffFile.t),
    Diff.getGitDiffNumstat sh ref cwd = Ok files ->
    exists numstat nameStatus,
      Diff.execSync sh ("git diff --numstat " +:+ Diff.refOrDefault ref)
        (Diff.workingDirectory sh cwd) = inl numstat
      /\ Diff.execSync sh ("git diff --name-status " +:+ Diff.refOrDefault ref)
           (Diff.workingDirectory sh cwd) = inl nameStatus
      /\ map Diff.DiffFile.path files
         = map (fun line => nth 2 (JsString.split line JsString.TAB) "")
             (filter (fun line =>
                        (3 <=? length (JsString.split line JsString.TAB))%nat = true)
                (Diff.nonEmptyLines numstat))
      /\ Forall
           (fun f =>
              Diff.DiffFile.hunks f = 1
              /\ Diff.DiffFile.oldPath f = None
              /\ (Diff.DiffFile.binary f = true ->
                  Diff.DiffFile.additions f = 0 /\ Diff.DiffFile.deletions f = 0)
              /\ (Diff.parseNameStatus nameStatus !! Diff.DiffFile.path f = None ->
                  Diff.DiffFile.status f = Diff.modified))
           files.
Proof.
  intros sh ref cwd files H. unfold Diff.getGitDiffNumstat, Diff.exec in H.
  destruct (Diff.execSync sh ("git diff --numstat " +:+ Diff.refOrDefault ref) _)
    as [numstat|m1]; [|discriminate H].
  simpl in H.
  destruct (Diff.execSync sh ("git diff --name-status " +:+ Diff.refOrDefault ref) _)
    as [nameStatus|m2]; [|discriminate H].
  simpl in H. exists numstat, nameStatus. split; [reflexivity|]. split; [reflexivity|].
  destruct (for_of _ _ _) as [fs|e|] eqn:Hloop; simpl in H; try discriminate.
  injection H as ->.
  apply numstat_loop in Hloop. destruct Hloop as (new & -> & Hpaths & Hbuilt).
  split; assumption.
Qed.

Lemma X19_getGitDiffNumstat_files_witness :
  exists files,
    Diff.getGitDiffNumstat Samples.goodShell None None = Ok files
    /\ map Diff.DiffFile.path files = ["src/auth/login.ts"; "logo.png"]
    /\ Forall (fun f => Diff.DiffFile.hunks f = 1) files.
Proof.
  pose (files := [ Diff.DiffFile.mk "src/auth/login.ts" Diff.modified 120 10 1 false None;
                   Diff.DiffFile.mk "logo.png" Diff.added 0 0 1 true None ]).
  assert (H : Diff.getGitDiffNumstat Samples.goodShell None None = Ok files)
    by (vm_compute; reflexivity).
  exists files. split; [exact H|]. split; [reflexivity|].
  destruct (X19_getGitDiffNumstat_files Samples.goodShell None None files H)
    as (numstat & nameStatus & _ & _ & _ & Hbuilt).
  eapply Forall_impl; [exact Hbuilt|]. intros f Hf. apply Hf.
Defined.

Section Contributors.
Import JsString Diff DiffAnalysis.

(** The string begins with a character that is not white space. *)
Local Abbreviation solid :=
  (fun s : string => exists c r, s = String c r /\ is_space c = false).

Lemma trimStart_solid (s : string) : trimStart s = "" \/ solid (trimStart s).
Proof.
  induction s as [|c r IH]; simpl; [left; reflexivity|].
  destruct (is_space c) eqn:E; [exact IH|]. right. exists c, r. auto.
Qed.

Lemma trimEnd_solid (s : string) : solid s -> solid (trimEnd s).
Proof.
  intros (c & r & -> & Hc). simpl.
  destruct (trimEnd r) as [|c' r']; [rewrite Hc|]; eexists _, _; eauto.
Qed.

Lemma trim_solid (s : string) : trim s = "" \/ solid (trim s).
Proof.
  unfold trim. destruct (trimStart_solid s) as [->|H]; [left; reflexivity|].
  right. apply trimEnd_solid. exact H.
Qed.

Lemma stripCount_solid (line : string) :
  line = "" \/ solid line -> stripCount line = "" \/ solid (stripCount line).
Proof.
  intros H. unfold stripCount. destruct (starts_with_digit line); [|exact H].
  destruct (dropDigits line) as [|c r] eqn:E; [exact H|].
  destruct (is_space c); [|exact H]. apply trimStart_solid.
Qed.

Lemma truthy_nonempty (s : string) : truthy s = true <-> s <> "".
Proof.
  unfold truthy. rewrite negb_true_iff. destruct (String.eqb_spec s ""); split; congruence.
Qed.

End Contributors.

(** X20.  [getFileContributors] never fails: when the command fails it
    answers with no contributor; otherwise with at most one name for each
    line of the output that is not empty, and every name begins with a
    character that is not white space, so none is empty. *)
Theorem X20_getFileContributors_never_throws :
  forall (sh : Diff.Shell) (filePath : string) (cwd : option string),
    exists names,
      DiffAnalysis.getFileContributors sh filePath cwd = Ok names
      /\ Forall (fun name => exists c r, name = String c r /\ JsString.is_space c = false)
           names
      /\ match Diff.execSync sh
                 ("git log --format='%an' --follow -- " +:+ DiffAnalysis.DQUOTE +:+ filePath
                  +:+ DiffAnalysis.DQUOTE +:+ " | sort | uniq -c | sort -rn | head -5")
                 (Diff.workingDirectory sh cwd) with
         | inr _ => names = []
         | inl result => (length names <= length (Diff.nonEmptyLines result))%nat
         end.
Proof.
  intros sh filePath cwd. unfold DiffAnalysis.getFileContributors, Diff.exec.
  destruct (Diff.execSync sh _ _) as [result|message]; simpl.
  - eexists. split; [reflexivity|]. split.
    + rewrite Forall_forall. intros name Hname.
      apply list_elem_of_filter in Hname. destruct Hname as [Htruthy Hname].
      apply truthy_nonempty in Htruthy.
      apply list_elem_of_fmap in Hname. destruct Hname as (line & -> & _).
      destruct (stripCount_solid (JsString.trim line) (trim_solid line)) as [Hempty|Hsolid];
        [contradiction | exact Hsolid].
    + etransitivity; [apply length_filter|]. rewrite length_map. reflexivity.
  - exists []. split; [reflexivity|]. split; [constructor | reflexivity].
Qed.

Section Analysis.
Import JsString Diff DiffAnalysis.

Lemma workingDirectory_chosen (sh : Shell) (cwd : option string) :
  workingDirectory sh (Some (optionOr cwd (process_cwd sh))) = optionOr cwd (process_cwd sh).
Proof.
  unfold workingDirectory, optionOr.
  destruct cwd as [dir|]; [destruct (truthy dir) eqn:E; [rewrite E; reflexivity|]|];
    destruct (truthy (process_cwd sh)); reflexivity.
Qed.

End Analysis.

(** X21.  [analyzeDiff] asks for the diff first and for the file list next,
    in the directory and at the revision it chose (an empty [ref] or [cwd]
    counts as absent), and fails with the error of the first query that
    fails.  When it returns, there is one file risk for each file, in the
    order of the files, the overall score lies between 0 and 100 with the
    label its thresholds give, and at most five reviewers are recommended. *)
Theorem X21_analyzeDiff_composition :
  forall (sh : Diff.Shell) (now : string) (ref cwd : option string),
    let rev := DiffAnalysis.optionOr ref "HEAD~1" in
    let dir := DiffAnalysis.optionOr cwd (Diff.process_cwd sh) in
    (forall message,
        Diff.execSync sh ("git diff " +:+ rev) dir = inr message ->
        DiffAnalysis.analyzeDiff sh now ref cwd
        = Throw ("Failed to get git diff: " +:+ message))
    /\ (forall diffContent message,
          Diff.execSync sh ("git diff " +:+ rev) dir = inl diffContent ->
          Diff.execSync sh ("git diff --numstat " +:+ rev) dir = inr message ->
          DiffAnalysis.analyzeDiff sh now ref cwd
          = Throw ("Failed to get git diff numstat: " +:+ message))
    /\ (forall r,
          DiffAnalysis.analyzeDiff sh now ref cwd = Ok r ->
          DiffAnalysis.DiffAnalysisResult.ref r = rev
          /\ DiffAnalysis.DiffAnalysisResult.timestamp r = now
          /\ Diff.getGitDiffNumstat sh (Some rev) (Some dir)
             = Ok (DiffAnalysis.DiffAnalysisResult.files r)
          /\ map Diff.FileRisk.path (DiffAnalysis.DiffAnalysisResult.fileRisks r)
             = map Diff.DiffFile.path (DiffAnalysis.DiffAnalysisResult.files r)
          /\ 0 <= DiffAnalysis.DiffRiskAssessment.score (DiffAnalysis.DiffAnalysisResult.risk r)
             <= 100
          /\ DiffAnalysis.DiffRiskAssessment.overall (DiffAnalysis.DiffAnalysisResult.risk r)
             = riskOfScore
                 (DiffAnalysis.DiffRiskAssessment.score (DiffAnalysis.DiffAnalysisResult.risk r))
          /\ (length (DiffAnalysis.DiffAnalysisResult.recommendedReviewers r) <= 5)%nat).
Proof.
  intros sh now ref cwd rev dir.
  unfold DiffAnalysis.analyzeDiff, DiffAnalysis.getGitDiff, Diff.getGitDiffNumstat, Diff.exec.
  fold rev. fold dir. subst dir. rewrite workingDirectory_chosen.
  set (dir := DiffAnalysis.optionOr cwd (Diff.process_cwd sh)).
  change (Diff.refOrDefault (Some rev)) with rev.
  split; [|split].
  - intros message H. rewrite H. reflexivity.
  - intros diffContent message H1 H2. rewrite H1. simpl. rewrite H2. reflexivity.
  - intros r H.
    destruct (Diff.execSync sh ("git diff " +:+ rev) dir) as [diffContent|m0];
      [|discriminate H].
    simpl in H.
    destruct (Diff.execSync sh ("git diff --numstat " +:+ rev) dir) as [numstat|m1];
      [|discriminate H].
    simpl in H.
    destruct (Diff.execSync sh ("git diff --name-status " +:+ rev) dir) as [nameStatus|m2];
      [|discriminate H].
    cbn [mbind outcome_bind] in H |- *.
    destruct (for_of _ _ _) as [files|e|]; simpl in H; try discriminate.
    injection H as <-.
    cbn [DiffAnalysis.DiffAnalysisResult.ref DiffAnalysis.DiffAnalysisResult.timestamp
           DiffAnalysis.DiffAnalysisResult.files DiffAnalysis.DiffAnalysisResult.fileRisks
           DiffAnalysis.DiffAnalysisResult.risk
           DiffAnalysis.DiffAnalysisResult.recommendedReviewers].
    split; [reflexivity|]. split; [reflexivity|]. split; [reflexivity|].
    split.
    { rewrite map_map. apply map_ext. intros f.
      apply assessFileRisk_path. }
    assert (Hscores : Forall (fun x => 0 <= Diff.FileRisk.score x)
                        (map Diff.assessFileRisk files)).
    { rewrite Forall_forall. intros x Hx. apply list_elem_of_fmap in Hx.
      destruct Hx as (f & -> & _). apply assessFileRisk_score_risk. }
    pose proof (assessOverallRisk_at_least files (map Diff.assessFileRisk files) Hscores)
      as Hlo.
    destruct (assessOverallRisk_capped files (map Diff.assessFileRisk files))
      as [Hhi Hlabel].
    cbv zeta in Hlo.
    split; [lia|]. split; [exact Hlabel|].
    unfold DiffAnalysis.suggestReviewers. rewrite length_map, length_take. lia.
Qed.

(** X22.  A diff without any numstat line is not an error: [analyzeDiff]
    reports no file, a score of 0 with the label low-risk, an unknown test
    coverage, the category "feature" with a confidence of one half, no
    reviewer, and says so in its summary. *)
Theorem X22_analyzeDiff_empty_diff :
  forall (sh : Diff.Shell) (now : string) (ref cwd : option string)
         (diffContent numstat nameStatus : string),
    let rev := DiffAnalysis.optionOr ref "HEAD~1" in
    let dir := DiffAnalysis.optionOr cwd (Diff.process_cwd sh) in
    Diff.execSync sh ("git diff " +:+ rev) dir = inl diffContent ->
    Diff.execSync sh ("git diff --numstat " +:+ rev) dir = inl numstat ->
    Diff.execSync sh ("git diff --name-status " +:+ rev) dir = inl nameStatus ->
    Diff.nonEmptyLines numstat = [] ->
    DiffAnalysis.analyzeDiff sh now ref cwd
    = Ok (DiffAnalysis.DiffAnalysisResult.mk rev now []
            (DiffAnalysis.DiffRiskAssessment.mk Diff.low_risk 0
               (DiffAnalysis.Breakdown.mk 0 0 [] [] [] DiffAnalysis.unknown))
            (Diff.DiffClassification.mk "feature" None 0.5
               "0 file(s) changed. Classified as feature based on change patterns.")
            [] []
            "Feature change affecting 0 file(s). Risk level: low-risk (score: 0/100).").
Proof.
  intros sh now ref cwd diffContent numstat nameStatus rev dir Hdiff Hnumstat Hstatus Hempty.
  unfold DiffAnalysis.analyzeDiff, DiffAnalysis.getGitDiff, Diff.getGitDiffNumstat, Diff.exec.
  fold rev. fold dir. subst dir. rewrite workingDirectory_chosen.
  change (Diff.refOrDefault (Some rev)) with rev.
  rewrite Hdiff. cbn [mbind outcome_bind try_catch].
  rewrite Hnumstat. cbn [mbind outcome_bind try_catch].
  rewrite Hstatus. cbn [mbind outcome_bind try_catch].
  rewrite Hempty. reflexivity.
Qed.

Lemma X22_analyzeDiff_empty_diff_witness :
  exists r,
    DiffAnalysis.analyzeDiff Samples.quietShell "2026-01-01T00:00:00.000Z" None None = Ok r
    /\ DiffAnalysis.DiffAnalysisResult.files r = []
    /\ DiffAnalysis.DiffAnalysisResult.summary r
       = "Feature change affecting 0 file(s). Risk level: low-risk (score: 0/100).".
Proof.
  eexists. split.
  - apply (X22_analyzeDiff_empty_diff Samples.quietShell "2026-01-01T00:00:00.000Z"
             None None "" "" ""); reflexivity.
  - split; reflexivity.
Defined.

(** ** The routing result as a whole *)

Section RouteResult.
Import Coverage.

Lemma existsb_filter {A : Type} (p : A -> bool) (l : list A) :
  existsb p l = true <-> (0 < length (filter (fun x => p x = true) l))%nat.
Proof.
  induction l as [|x l IH]; [simpl; split; [discriminate | lia]|].
  rewrite filter_cons. simpl. destruct (p x) eqn:E; simpl.
  - destruct (decide (true = true)); [|congruence]. simpl. split; [lia | reflexivity].
  - destruct (decide (false = true)); [discriminate|]. exact IH.
Qed.

Lemma routeGaps_count (host : Host) (projectRoot : string) (threshold : Q)
    (coverageData : list CoverageData.t) :
  (length (routeGaps host projectRoot threshold coverageData) <= length coverageData)%nat.
Proof.
  unfold routeGaps. destruct (0 <? length coverageData)%nat; [|simpl; lia].
  rewrite gaps_count. apply length_filter.
Qed.

Lemma isFormat_none (format : Format) : isFormat format none = true <-> format = none.
Proof. destruct format; simpl; split; congruence. Qed.

Lemma makeSuggestions_facts (host : Host) (format : Format) (gaps : list CoverageGap.t) :
  (1 <= length (makeSuggestions host format gaps) <= 2)%nat
  /\ (isFormat format none = true -> length (makeSuggestions host format gaps) = 2%nat)
  /\ (isFormat format none = false ->
      ("Critical coverage gaps detected - prioritize testing"
         ∈ makeSuggestions host format gaps
       <-> existsb isCritical gaps = true)).
Proof.
  unfold makeSuggestions. destruct (isFormat format none).
  - split; [simpl; lia|]. split; [reflexivity | discriminate].
  - destruct gaps as [|g gaps]; cbn [length Nat.eqb].
    + split; [simpl; lia|]. split; [discriminate|]. intros _. simpl. split; intros H.
      * apply list_elem_of_singleton in H. discriminate H.
      * discriminate H.
    + change (fun g0 => isGapType (CoverageGap.gapType g0) critical) with isCritical.
      destruct (existsb isCritical (g :: gaps)).
      * split; [simpl; lia|]. split; [discriminate|]. intros _. split; intros _.
        -- reflexivity.
        -- apply elem_of_app. right. apply list_elem_of_singleton. reflexivity.
      * split; [simpl; lia|]. split; [discriminate|]. intros _. split; intros H.
        -- apply list_elem_of_singleton in H. simpl in H. discriminate H.
        -- discriminate H.
Qed.

End RouteResult.

(** X23.  Whenever the coverage data loads, the result of [coverageRoute] is
    consistent: there are no more critical gaps than gaps and no more gaps
    than files analyzed; there are one or two suggestions, two when no report
    was found; and with a report the advice to prioritize testing is given
    exactly when a gap is critical. *)
Theorem X23_coverageRoute_metrics_and_suggestions :
  forall (host : Coverage.Host) (task : string) (options : Coverage.Options.t)
         (loaded : Coverage.Loaded.t),
    Coverage.loadCoverageData host (Coverage.projectRootOf host options) = Ok loaded ->
    exists r,
      Coverage.coverageRoute host task options = Ok r
      /\ Coverage.Metrics.filesAnalyzed (Coverage.CoverageRouteResult.metrics r)
         = length (Coverage.Loaded.data loaded)
      /\ (Coverage.Metrics.criticalGaps (Coverage.CoverageRouteResult.metrics r)
          <= Coverage.Metrics.totalGaps (Coverage.CoverageRouteResult.metrics r)
          <= Coverage.Metrics.filesAnalyzed (Coverage.CoverageRouteResult.metrics r))%nat
      /\ (1 <= length (Coverage.CoverageRouteResult.suggestions r) <= 2)%nat
      /\ (Coverage.CoverageRouteResult.coverageAware r = false <->
          Coverage.Loaded.format loaded = Coverage.none)
      /\ (Coverage.CoverageRouteResult.coverageAware r = false ->
          length (Coverage.CoverageRouteResult.suggestions r) = 2%nat)
      /\ (Coverage.CoverageRouteResult.coverageAware r = true ->
          ("Critical coverage gaps detected - prioritize testing"
             ∈ Coverage.CoverageRouteResult.suggestions r
           <-> (0 < Coverage.Metrics.criticalGaps (Coverage.CoverageRouteResult.metrics r))%nat)).
Proof.
  intros host task options loaded Hload.
  unfold Coverage.coverageRoute. rewrite Hload. cbn [mbind outcome_bind].
  eexists. split; [reflexivity|].
  cbn [Coverage.CoverageRouteResult.metrics Coverage.CoverageRouteResult.suggestions
         Coverage.CoverageRouteResult.coverageAware Coverage.Metrics.filesAnalyzed
         Coverage.Metrics.totalGaps Coverage.Metrics.criticalGaps].
  set (gaps := Coverage.routeGaps host _ _ _).
  pose proof (routeGaps_count host (Coverage.projectRootOf host options)
                (Coverage.thresholdOf options) (Coverage.Loaded.data loaded)) as Hcount.
  fold gaps in Hcount.
  destruct (makeSuggestions_facts host (Coverage.Loaded.format loaded) gaps)
    as (Hlength & Hnone & Hadvice).
  split; [reflexivity|].
  split; [split; [apply length_filter | exact Hcount]|].
  split; [exact Hlength|].
  rewrite negb_false_iff, negb_true_iff.
  split; [apply isFormat_none|]. split; [exact Hnone|].
  intros Hreport. rewrite (Hadvice Hreport). apply (existsb_filter isCritical).
Qed.

Lemma X23_coverageRoute_metrics_and_suggestions_witness :
  exists r,
    Coverage.coverageRoute Examples.twelveHost "fix the login bug" Examples.defaultOptions = Ok r
    /\ Coverage.Metrics.filesAnalyzed (Coverage.CoverageRouteResult.metrics r) = 12%nat
    /\ (1 <= length (Coverage.CoverageRouteResult.suggestions r) <= 2)%nat.
Proof.
  pose (loaded := match Coverage.loadCoverageData Examples.twelveHost "/repo" with
                  | Ok l => l
                  | _ => Coverage.Loaded.mk [] Coverage.none None
                  end).
  destruct (X23_coverageRoute_metrics_and_suggestions Examples.twelveHost "fix the login bug"
              Examples.defaultOptions loaded ltac:(vm_compute; reflexivity))
    as (r & Hr & Hfiles & _ & Hsuggestions & _).
  exists r. split; [exact Hr|]. split; [|exact Hsuggestions].
  rewrite Hfiles. vm_compute. reflexivity.
Defined.
